(** * Sentinel server: a shallow embedding of the TypeScript back end

    Embedded modules, in the order of this file:
    - [JS]         the fragment of JavaScript values the server manipulates;
    - [Storage]    [MemStorage] of [storage.ts], the store exported as [storage];
    - [Auth]       the middlewares of [auth.ts] and [authBypass.ts];
    - [Routes]     the REST handlers of [routes.ts] that carry ownership checks;
    - [Relay]      the WebSocket message handler of [routes.ts];
    - [Mesh]       [MeshController], the relay between paired devices;
    - [ADS]        [ADSDestroyerController] (subprocess bridge with fallbacks);
    - [Forensics]  [ForensicsAnalyzer] of [forensicsAnalyzer.ts];
    - [Queries]    the listing and search methods of [MemStorage];
    - [Api]        the REST handlers of [routes.ts] for users, subscriptions,
                   listings, mesh refresh, device tracking and mobile alerts;
    - [Delivery]   what the WebSocket handler may do to the server state;
    - [Deployments] the register of [ADSDestroyerController] and its status.

    Conventions.  A JavaScript number is either [NaN] or an exact rational
    (infinities and binary rounding are not modelled); record identifiers and
    counters are unbounded integers.  A [new Date()] is a clock reading passed
    as an argument.  Library calls whose code is not part of the repository
    ([JSON.parse], the zod schemas, ToNumber and ToString on non-numbers,
    [Math.log10], SHA-256, [toISOString]) are section variables. *)

From Stdlib Require Import ZArith QArith Qround Lia Lqa Floats Uint63 Ascii.
From stdpp Require Import gmap strings list fin_maps pretty sorting.

Local Open Scope Z_scope.

(* ===================================================================== *)
(** ** JavaScript values *)
(* ===================================================================== *)

Module JS.

Inductive num := NaN | Num (q : Q).

#[warnings="-register-all"]
Inductive value :=
| VUndefined
| VNull
| VBool (b : bool)
| VNum (n : num)
| VStr (s : string)
| VDate (ms : Z)
| VArr (items : list value)
| VObj (fields : list (string * value)).

(** An object is the ordered list of its own properties. *)
Abbreviation obj := (list (string * value)).

Definition VInt (z : Z) : value := VNum (Num (inject_Z z)).

Fixpoint own (o : obj) (k : string) : option value :=
  match o with
  | [] => None
  | (k', v) :: rest => if String.eqb k' k then Some v else own rest k
  end.

(** [o.k] on an object whose own properties are [o]: [undefined] when absent
    (the property names read by the server are never inherited ones). *)
Definition get (o : obj) (k : string) : value :=
  match own o k with Some v => v | None => VUndefined end.

(** [o[k] = v]: overwrite in place, or append a new property. *)
Fixpoint set_prop (k : string) (v : value) (o : obj) : obj :=
  match o with
  | [] => [(k, v)]
  | (k', v') :: rest =>
      if String.eqb k' k then (k', v) :: rest else (k', v') :: set_prop k v rest
  end.

(** [{ ...o, ...src }] *)
Definition spread (o src : obj) : obj :=
  fold_left (fun acc kv => set_prop (fst kv) (snd kv) acc) src o.

(** ToBoolean. *)
Definition truthy (v : value) : bool :=
  match v with
  | VUndefined | VNull => false
  | VBool b => b
  | VNum NaN => false
  | VNum (Num q) => negb (Qeq_bool q 0)
  | VStr s => negb (String.eqb s "")
  | VDate _ | VArr _ | VObj _ => true
  end.

(** [a || b] *)
Definition or_else (a b : value) : value := if truthy a then a else b.

(** [a !== undefined ? a : b] *)
Definition defined_or (a b : value) : value :=
  match a with VUndefined => b | _ => a end.

(** [a === b] on primitives; two object, array or date operands are distinct
    references in every use below, hence never strictly equal. *)
Definition strict_eq (a b : value) : bool :=
  match a, b with
  | VUndefined, VUndefined => true
  | VNull, VNull => true
  | VBool x, VBool y => Bool.eqb x y
  | VNum (Num x), VNum (Num y) => Qeq_bool x y
  | VStr x, VStr y => String.eqb x y
  | _, _ => false
  end.

Definition strict_neq (a b : value) : bool := negb (strict_eq a b).

(** [v.k] on an arbitrary value: a [TypeError] ([None]) on [null] and
    [undefined]; [.length] of arrays and strings; [undefined] on other
    primitives. *)
Definition prop (v : value) (k : string) : option value :=
  match v with
  | VUndefined | VNull => None
  | VObj o => Some (get o k)
  | VArr l => Some (if String.eqb k "length" then VInt (Z.of_nat (length l)) else VUndefined)
  | VStr s => Some (if String.eqb k "length" then VInt (Z.of_nat (String.length s)) else VUndefined)
  | _ => Some VUndefined
  end.

(** [v?.k] *)
Definition opt_prop (v : value) (k : string) : value :=
  match prop v k with Some x => x | None => VUndefined end.

(** The own enumerable properties copied by [{ ...v }]: the fields of an
    object, the indexed elements of an array, the indexed characters of a
    string, nothing for the other primitives.  (The engine lists integer-like
    keys first; the order of keys plays no role below.) *)
Definition own_props (v : value) : obj :=
  match v with
  | VObj o => o
  | VArr l => imap (fun i x => (pretty i, x)) l
  | VStr s => imap (fun i c => (pretty i, VStr (String c EmptyString))) (String.list_ascii_of_string s)
  | _ => []
  end.

(** *** parseInt

    [parseInt(s)] with no radix: leading white space is skipped, then an
    optional sign, then an optional [0x] prefix selecting radix 16, then the
    longest run of digits of the radix.  [None] stands for [NaN] (no digit).
    White space is the ASCII subset of the language's set. *)

Definition is_white_space (c : Ascii.ascii) : bool :=
  let n := Ascii.nat_of_ascii c in
  ((9 <=? n) && (n <=? 13) || (n =? 32))%nat.

Fixpoint skip_white_space (s : string) : string :=
  match s with
  | String c rest => if is_white_space c then skip_white_space rest else s
  | EmptyString => s
  end.

Definition digit_value (c : Ascii.ascii) : option Z :=
  let n := Z.of_nat (Ascii.nat_of_ascii c) in
  if (48 <=? n) && (n <=? 57) then Some (n - 48)
  else if (97 <=? n) && (n <=? 122) then Some (n - 87)
  else if (65 <=? n) && (n <=? 90) then Some (n - 55)
  else None.

(** The value of the longest prefix of [s] made of digits of [radix];
    [acc] is the value read so far, [None] before the first digit. *)
Fixpoint leading_digits (radix : Z) (s : string) (acc : option Z) : option Z :=
  match s with
  | String c rest =>
      match digit_value c with
      | Some d =>
          if d <? radix
          then leading_digits radix rest
                 (Some (match acc with Some a => a * radix + d | None => d end))
          else acc
      | None => acc
      end
  | EmptyString => acc
  end.

Definition parseInt (s : string) : option Z :=
  let s1 := skip_white_space s in
  let '(sign, s2) :=
    match s1 with
    | String c rest =>
        if Ascii.eqb c "-"%char then (-1, rest)
        else if Ascii.eqb c "+"%char then (1, rest)
        else (1, s1)
    | EmptyString => (1, s1)
    end in
  let '(radix, s3) :=
    match s2 with
    | String z (String x rest) =>
        if Ascii.eqb z "0"%char && (Ascii.eqb x "x"%char || Ascii.eqb x "X"%char) then (16, rest)
        else (10, s2)
    | _ => (10, s2)
    end in
  match leading_digits radix s3 None with
  | Some n => Some (sign * n)
  | None => None
  end.

(** [const { k, ...rest } = o] *)
Definition without (k : string) (o : obj) : obj :=
  filter (fun kv => fst kv ≠ k) o.

End JS.

(* ===================================================================== *)
(** ** storage.ts: MemStorage *)
(* ===================================================================== *)

Module Storage.
Import JS.
Local Open Scope string_scope.

(** A [Map<number, Row>] together with the counter that feeds its keys. *)
Record Table := { rows : gmap Z obj; counter : Z }.

Inductive entity :=
| Users | Subscriptions | Reports | BlockedFrequencies
| MeshDevices | MobileDevices | MobileAlerts.

#[global] Instance entity_eq_dec : EqDecision entity.
Proof. solve_decision. Defined.

Record MemStorage := {
  users : Table;               (* users, userIdCounter *)
  subscriptions : Table;       (* subscriptions, subscriptionIdCounter *)
  reports : Table;             (* reports, reportIdCounter *)
  blockedFrequencies : Table;  (* blockedFrequencies, blockedFrequencyIdCounter *)
  meshDevices : Table;         (* meshDevices, meshDeviceIdCounter *)
  mobileDevices : Table;       (* mobileDevices, mobileDeviceIdCounter *)
  mobileAlerts : Table;        (* mobileAlerts, mobileAlertIdCounter *)
  chatbotSettings : option obj
}.

Definition tbl (e : entity) (st : MemStorage) : Table :=
  match e with
  | Users => users st
  | Subscriptions => subscriptions st
  | Reports => reports st
  | BlockedFrequencies => blockedFrequencies st
  | MeshDevices => meshDevices st
  | MobileDevices => mobileDevices st
  | MobileAlerts => mobileAlerts st
  end.

Definition set_tbl (e : entity) (t : Table) (st : MemStorage) : MemStorage :=
  let '(Build_MemStorage u s r b m d a c) := st in
  match e with
  | Users => Build_MemStorage t s r b m d a c
  | Subscriptions => Build_MemStorage u t r b m d a c
  | Reports => Build_MemStorage u s t b m d a c
  | BlockedFrequencies => Build_MemStorage u s r t m d a c
  | MeshDevices => Build_MemStorage u s r b t d a c
  | MobileDevices => Build_MemStorage u s r b m t a c
  | MobileAlerts => Build_MemStorage u s r b m d t c
  end.

Definition set_chatbotSettings (c : option obj) (st : MemStorage) : MemStorage :=
  let '(Build_MemStorage u s r b m d a _) := st in Build_MemStorage u s r b m d a c.

(** [const id = this.xIdCounter++; ... this.xs.set(id, row); return row] *)
Definition insert_new (e : entity) (mk : Z → obj) (st : MemStorage) : MemStorage * obj :=
  let t := tbl e st in
  let id := counter t in
  let row := mk id in
  (set_tbl e {| rows := <[id := row]> (rows t); counter := id + 1 |} st, row).

(** [const row = this.xs.get(id); if (!row) return undefined;
     const updated = f(row); this.xs.set(id, updated); return updated] *)
Definition update_row (e : entity) (f : obj → obj) (id : Z) (st : MemStorage)
  : MemStorage * option obj :=
  let t := tbl e st in
  match rows t !! id with
  | None => (st, None)
  | Some row =>
      let updated := f row in
      (set_tbl e {| rows := <[id := updated]> (rows t); counter := counter t |} st,
       Some updated)
  end.

(** [return this.xs.delete(id)] *)
Definition delete_row (e : entity) (id : Z) (st : MemStorage) : MemStorage * bool :=
  let t := tbl e st in
  (set_tbl e {| rows := delete id (rows t); counter := counter t |} st,
   bool_decide (is_Some (rows t !! id))).

Definition get_row (e : entity) (id : Z) (st : MemStorage) : option obj :=
  rows (tbl e st) !! id.

(** *** Users *)

Definition getUser (st : MemStorage) (id : Z) : option obj := get_row Users id st.

Definition createUser (st : MemStorage) (insertUser : obj) (createdAt : Z)
  : MemStorage * obj :=
  insert_new Users (fun id =>
    [ ("username", get insertUser "username");
      ("email", get insertUser "email");
      ("password", get insertUser "password");
      ("name", or_else (get insertUser "name") VNull);
      ("department", or_else (get insertUser "department") VNull);
      ("role", or_else (get insertUser "role") (VStr "user"));
      ("id", VInt id);
      ("createdAt", VDate createdAt);
      ("lastLogin", VNull) ]) st.

Definition updateUser (st : MemStorage) (id : Z) (updateData : obj)
  : MemStorage * option obj :=
  update_row Users (fun user => spread user updateData) id st.

(** *** Subscriptions *)

Definition createSubscription (st : MemStorage) (subscription : obj)
    (createdAt updatedAt : Z) : MemStorage * obj :=
  insert_new Subscriptions (fun id =>
    [ ("userId", get subscription "userId");
      ("plan", get subscription "plan");
      ("status", get subscription "status");
      ("startDate", get subscription "startDate");
      ("endDate", or_else (get subscription "endDate") VNull);
      ("paymentMethod", or_else (get subscription "paymentMethod") VNull);
      ("paymentId", or_else (get subscription "paymentId") VNull);
      ("features", or_else (get subscription "features") VNull);
      ("trialUsed", or_else (get subscription "trialUsed") (VBool false));
      ("id", VInt id);
      ("createdAt", VDate createdAt);
      ("updatedAt", VDate updatedAt) ]) st.

Definition updateSubscription (st : MemStorage) (id : Z) (updateData : obj) (now : Z)
  : MemStorage * option obj :=
  update_row Subscriptions
    (fun subscription => set_prop "updatedAt" (VDate now) (spread subscription updateData))
    id st.

(** *** Forensic reports *)

Definition getReport (st : MemStorage) (id : Z) : option obj := get_row Reports id st.

Definition createReport (st : MemStorage) (report : obj) (createdAt now : Z)
  : MemStorage * obj :=
  insert_new Reports (fun id =>
    let timestamp := or_else (get report "timestamp") (VDate now) in
    [ ("userId", get report "userId");
      ("title", get report "title");
      ("description", or_else (get report "description") VNull);
      ("frequencyData", or_else (get report "frequencyData") VNull);
      ("locationData", or_else (get report "locationData") VNull);
      ("deviceData", or_else (get report "deviceData") VNull);
      ("mlClassification", or_else (get report "mlClassification") VNull);
      ("reportData", or_else (get report "reportData") VNull);
      ("id", VInt id);
      ("createdAt", VDate createdAt);
      ("timestamp", timestamp) ]) st.

Definition updateReport (st : MemStorage) (id : Z) (updateData : obj)
  : MemStorage * option obj :=
  update_row Reports (fun report => spread report updateData) id st.

Definition deleteReport (st : MemStorage) (id : Z) : MemStorage * bool :=
  delete_row Reports id st.

(** *** Blocked frequencies *)

Definition getBlockedFrequency (st : MemStorage) (id : Z) : option obj :=
  get_row BlockedFrequencies id st.

Definition createBlockedFrequency (st : MemStorage) (frequency : obj) (createdAt : Z)
  : MemStorage * obj :=
  insert_new BlockedFrequencies (fun id =>
    [ ("userId", get frequency "userId");
      ("frequency", get frequency "frequency");
      ("bandwidth", get frequency "bandwidth");
      ("name", or_else (get frequency "name") VNull);
      ("description", or_else (get frequency "description") VNull);
      ("isCustom", or_else (get frequency "isCustom") (VBool false));
      ("id", VInt id);
      ("createdAt", VDate createdAt) ]) st.

Definition updateBlockedFrequency (st : MemStorage) (id : Z) (updateData : obj)
  : MemStorage * option obj :=
  update_row BlockedFrequencies (fun frequency => spread frequency updateData) id st.

Definition deleteBlockedFrequency (st : MemStorage) (id : Z) : MemStorage * bool :=
  delete_row BlockedFrequencies id st.

(** *** Chatbot settings *)

(** [a ?? b] *)
Definition nullish_or (a b : value) : value :=
  match a with VUndefined | VNull => b | _ => a end.

Definition updateChatbotSettings (st : MemStorage) (settings : obj) (updatedAt : Z)
  : MemStorage * obj :=
  let updated :=
    match chatbotSettings st with
    | Some current => set_prop "updatedAt" (VDate updatedAt) (spread current settings)
    | None =>
        [ ("id", VInt 1);
          ("enabled", nullish_or (get settings "enabled") (VBool true));
          ("welcomeMessage", nullish_or (get settings "welcomeMessage") VNull);
          ("primaryColor", nullish_or (get settings "primaryColor") VNull);
          ("secondaryColor", nullish_or (get settings "secondaryColor") VNull);
          ("responseTime", nullish_or (get settings "responseTime") (VInt 1000));
          ("knowledgeBase", nullish_or (get settings "knowledgeBase") VNull);
          ("updatedAt", VDate updatedAt) ]
    end in
  (set_chatbotSettings (Some updated) st, updated).

(** *** Mesh devices *)

Definition getMeshDevice (st : MemStorage) (id : Z) : option obj := get_row MeshDevices id st.

Definition createMeshDevice (st : MemStorage) (device : obj) (createdAt updatedAt now : Z)
  : MemStorage * obj :=
  insert_new MeshDevices (fun id =>
    let lastSeen := or_else (get device "lastSeen") (VDate now) in
    [ ("userId", get device "userId");
      ("deviceId", get device "deviceId");
      ("name", get device "name");
      ("type", get device "type");
      ("active", defined_or (get device "active") (VBool true));
      ("ipAddress", or_else (get device "ipAddress") VNull);
      ("macAddress", or_else (get device "macAddress") VNull);
      ("batteryLevel", or_else (get device "batteryLevel") VNull);
      ("firmwareVersion", or_else (get device "firmwareVersion") VNull);
      ("signalStrength", or_else (get device "signalStrength") VNull);
      ("capabilities", or_else (get device "capabilities") VNull);
      ("meshSettings", or_else (get device "meshSettings") VNull);
      ("id", VInt id);
      ("createdAt", VDate createdAt);
      ("updatedAt", VDate updatedAt);
      ("lastSeen", lastSeen) ]) st.

Definition updateMeshDevice (st : MemStorage) (id : Z) (updateData : obj) (now : Z)
  : MemStorage * option obj :=
  update_row MeshDevices
    (fun device => set_prop "updatedAt" (VDate now) (spread device updateData)) id st.

Definition deleteMeshDevice (st : MemStorage) (id : Z) : MemStorage * bool :=
  delete_row MeshDevices id st.

(** *** Mobile devices *)

Definition getMobileDevice (st : MemStorage) (id : Z) : option obj :=
  get_row MobileDevices id st.

Definition createMobileDevice (st : MemStorage) (device : obj) (createdAt updatedAt now : Z)
  : MemStorage * obj :=
  insert_new MobileDevices (fun id =>
    let lastConnected := or_else (get device "lastConnected") (VDate now) in
    [ ("userId", get device "userId");
      ("deviceId", get device "deviceId");
      ("name", get device "name");
      ("type", get device "type");
      ("version", or_else (get device "version") VNull);
      ("status", get device "status");
      ("batteryLevel", or_else (get device "batteryLevel") VNull);
      ("notifications", defined_or (get device "notifications") (VBool true));
      ("locationSharing", defined_or (get device "locationSharing") (VBool false));
      ("autoProtection", defined_or (get device "autoProtection") (VBool true));
      ("settings", or_else (get device "settings") VNull);
      ("protectionStatus", or_else (get device "protectionStatus") VNull);
      ("lastLocation", or_else (get device "lastLocation") VNull);
      ("locationHistory", or_else (get device "locationHistory") VNull);
      ("trackingEnabled", defined_or (get device "trackingEnabled") (VBool false));
      ("trackingInterval", defined_or (get device "trackingInterval") (VInt 60));
      ("trackingPurpose", or_else (get device "trackingPurpose") VNull);
      ("id", VInt id);
      ("createdAt", VDate createdAt);
      ("updatedAt", VDate updatedAt);
      ("lastConnected", lastConnected) ]) st.

Definition updateMobileDevice (st : MemStorage) (id : Z) (updateData : obj) (now : Z)
  : MemStorage * option obj :=
  update_row MobileDevices
    (fun device => set_prop "updatedAt" (VDate now) (spread device updateData)) id st.

Definition deleteMobileDevice (st : MemStorage) (id : Z) : MemStorage * bool :=
  delete_row MobileDevices id st.

(** *** Mobile alerts *)

Definition getMobileAlert (st : MemStorage) (id : Z) : option obj :=
  get_row MobileAlerts id st.

Definition createMobileAlert (st : MemStorage) (alert : obj) (createdAt now : Z)
  : MemStorage * obj :=
  insert_new MobileAlerts (fun id =>
    let timestamp := or_else (get alert "timestamp") (VDate now) in
    [ ("mobileDeviceId", get alert "mobileDeviceId");
      ("title", get alert "title");
      ("description", get alert "description");
      ("type", get alert "type");
      ("severity", get alert "severity");
      ("location", or_else (get alert "location") VNull);
      ("frequencyData", or_else (get alert "frequencyData") VNull);
      ("read", defined_or (get alert "read") (VBool false));
      ("acknowledged", defined_or (get alert "acknowledged") (VBool false));
      ("id", VInt id);
      ("createdAt", VDate createdAt);
      ("timestamp", timestamp) ]) st.

Definition updateMobileAlert (st : MemStorage) (id : Z) (updateData : obj)
  : MemStorage * option obj :=
  update_row MobileAlerts (fun alert => spread alert updateData) id st.

Definition deleteMobileAlert (st : MemStorage) (id : Z) : MemStorage * bool :=
  delete_row MobileAlerts id st.

Definition markMobileAlertAsRead (st : MemStorage) (id : Z) : MemStorage * option obj :=
  updateMobileAlert st id [("read", VBool true)].

(** *** Constructor *)

Definition empty_table : Table := {| rows := ∅; counter := 1 |}.

Definition blank : MemStorage :=
  Build_MemStorage empty_table empty_table empty_table empty_table
                   empty_table empty_table empty_table None.

Definition demo_user : obj :=
  [ ("username", VStr "demo");
    ("password", VStr "$2b$10$YVS3Bk5RBvCcKJmYymF2DeRWH.QzoNmF0N6hsU1v1pvfk2TpSTgHu");
    ("email", VStr "demo@example.com");
    ("name", VStr "Demo User");
    ("department", VStr "Law Enforcement");
    ("role", VStr "user") ].

Definition admin_user : obj :=
  [ ("username", VStr "admin");
    ("password", VStr "$2b$10$zGcBGU3zgYm5BRQnEP.J7OmwVJFdJG62qW3Qh/zCGX.vMH3IbcAZ2");
    ("email", VStr "admin@example.com");
    ("name", VStr "System Administrator");
    ("department", VStr "IT");
    ("role", VStr "admin") ].

(** [new MemStorage()], the two seed users being created at [t1] and [t2]. *)
Definition constructor (t1 t2 : Z) : MemStorage :=
  let st := fst (createUser blank demo_user t1) in
  fst (createUser st admin_user t2).

(** *** Mutating operations as data, and runs of them *)

Inductive op :=
| CreateUser (insertUser : obj) (createdAt : Z)
| UpdateUser (id : Z) (updateData : obj)
| CreateSubscription (subscription : obj) (createdAt updatedAt : Z)
| UpdateSubscription (id : Z) (updateData : obj) (now : Z)
| CreateReport (report : obj) (createdAt now : Z)
| UpdateReport (id : Z) (updateData : obj)
| DeleteReport (id : Z)
| CreateBlockedFrequency (frequency : obj) (createdAt : Z)
| UpdateBlockedFrequency (id : Z) (updateData : obj)
| DeleteBlockedFrequency (id : Z)
| UpdateChatbotSettings (settings : obj) (updatedAt : Z)
| CreateMeshDevice (device : obj) (createdAt updatedAt now : Z)
| UpdateMeshDevice (id : Z) (updateData : obj) (now : Z)
| DeleteMeshDevice (id : Z)
| CreateMobileDevice (device : obj) (createdAt updatedAt now : Z)
| UpdateMobileDevice (id : Z) (updateData : obj) (now : Z)
| DeleteMobileDevice (id : Z)
| CreateMobileAlert (alert : obj) (createdAt now : Z)
| UpdateMobileAlert (id : Z) (updateData : obj)
| DeleteMobileAlert (id : Z)
| MarkMobileAlertAsRead (id : Z).

Definition step (st : MemStorage) (o : op) : MemStorage :=
  match o with
  | CreateUser u t => fst (createUser st u t)
  | UpdateUser id d => fst (updateUser st id d)
  | CreateSubscription s t1 t2 => fst (createSubscription st s t1 t2)
  | UpdateSubscription id d t => fst (updateSubscription st id d t)
  | CreateReport r t1 t2 => fst (createReport st r t1 t2)
  | UpdateReport id d => fst (updateReport st id d)
  | DeleteReport id => fst (deleteReport st id)
  | CreateBlockedFrequency f t => fst (createBlockedFrequency st f t)
  | UpdateBlockedFrequency id d => fst (updateBlockedFrequency st id d)
  | DeleteBlockedFrequency id => fst (deleteBlockedFrequency st id)
  | UpdateChatbotSettings s t => fst (updateChatbotSettings st s t)
  | CreateMeshDevice d t1 t2 t3 => fst (createMeshDevice st d t1 t2 t3)
  | UpdateMeshDevice id d t => fst (updateMeshDevice st id d t)
  | DeleteMeshDevice id => fst (deleteMeshDevice st id)
  | CreateMobileDevice d t1 t2 t3 => fst (createMobileDevice st d t1 t2 t3)
  | UpdateMobileDevice id d t => fst (updateMobileDevice st id d t)
  | DeleteMobileDevice id => fst (deleteMobileDevice st id)
  | CreateMobileAlert a t1 t2 => fst (createMobileAlert st a t1 t2)
  | UpdateMobileAlert id d => fst (updateMobileAlert st id d)
  | DeleteMobileAlert id => fst (deleteMobileAlert st id)
  | MarkMobileAlertAsRead id => fst (markMobileAlertAsRead st id)
  end.

Definition run (ops : list op) (st : MemStorage) : MemStorage := fold_left step ops st.

(** The entity whose map an operation creates a row in, and the id it assigns
    (the counter value read by [this.xIdCounter++]). *)
Definition creates (o : op) : option entity :=
  match o with
  | CreateUser _ _ => Some Users
  | CreateSubscription _ _ _ => Some Subscriptions
  | CreateReport _ _ _ => Some Reports
  | CreateBlockedFrequency _ _ => Some BlockedFrequencies
  | CreateMeshDevice _ _ _ _ => Some MeshDevices
  | CreateMobileDevice _ _ _ _ => Some MobileDevices
  | CreateMobileAlert _ _ _ => Some MobileAlerts
  | _ => None
  end.


(** The map and key an update-by-id or delete-by-id operation is aimed at. *)
Definition targets (o : op) : option (entity * Z) :=
  match o with
  | UpdateUser id _ => Some (Users, id)
  | UpdateSubscription id _ _ => Some (Subscriptions, id)
  | UpdateReport id _ | DeleteReport id => Some (Reports, id)
  | UpdateBlockedFrequency id _ | DeleteBlockedFrequency id => Some (BlockedFrequencies, id)
  | UpdateMeshDevice id _ _ | DeleteMeshDevice id => Some (MeshDevices, id)
  | UpdateMobileDevice id _ _ | DeleteMobileDevice id => Some (MobileDevices, id)
  | UpdateMobileAlert id _ | DeleteMobileAlert id | MarkMobileAlertAsRead id =>
      Some (MobileAlerts, id)
  | _ => None
  end.

(** Every key of every map lies below the counter of that map. *)
Definition keys_below_counter (st : MemStorage) : Prop :=
  ∀ (e : entity) (k : Z), is_Some (rows (tbl e st) !! k) → k < counter (tbl e st).

(** The four ways in which an operation acts on the store: it inserts a fresh
    row through [insert_new], rewrites or removes the row of a given id, or
    replaces the chatbot settings. *)
Inductive shape (st : MemStorage) (o : op) : Prop :=
| Inserts e mk :
    creates o = Some e → targets o = None →
    step st o = (insert_new e mk st).1 →
    (∀ id, get (mk id) "id" = VInt id) →
    shape st o
| Updates e f id :
    creates o = None → targets o = Some (e, id) →
    step st o = (update_row e f id st).1 →
    shape st o
| Deletes e id :
    creates o = None → targets o = Some (e, id) →
    step st o = (delete_row e id st).1 →
    shape st o
| Configures c :
    creates o = None → targets o = None →
    step st o = set_chatbotSettings c st →
    shape st o.

End Storage.

(* ===================================================================== *)
(** ** auth.ts and authBypass.ts: the middlewares *)
(* ===================================================================== *)

Module Auth.
Import JS.
Local Open Scope string_scope.

(** The parts of an Express request the server reads: [req.headers],
    [req.session], [req.params.id], [req.body] and [req.user]. *)
Record Request := {
  headers : obj;
  session : value;
  param_id : string;
  body : value;
  user : option obj
}.

Record Response := { status : Z; payload : value }.

(** A middleware either calls [next()] with the (possibly modified) request or
    ends the exchange with a response. *)
Inductive outcome :=
| Next (req : Request)
| Respond (res : Response).

Definition Middleware := Request → outcome.

Definition with_user (u : obj) (req : Request) : Request :=
  {| headers := headers req; session := session req; param_id := param_id req;
     body := body req; user := Some u |}.

Definition UserRole_USER : string := "user".
Definition UserRole_ADMIN : string := "admin".

(** [const defaultUser = { ... }], a module-level constant that every
    middleware below hands out; nothing in the sources assigns to its fields. *)
Definition defaultUser : obj :=
  [ ("id", VInt 999);
    ("username", VStr "Admin");
    ("email", VStr "admin@sentinel.local");
    ("name", VStr "System Administrator");
    ("department", VStr "SENTINEL Command");
    ("role", VStr "admin") ].

Definition isAuthenticated : Middleware :=
  fun req => Next (with_user defaultUser req).

Definition hasRole (roles : list string) : Middleware :=
  fun req => Next (with_user defaultUser req).

Definition hasSubscriptionAccess : Middleware :=
  fun req => Next (with_user defaultUser req).

Definition hasMeshNetworkAccess : Middleware :=
  fun req => Next (with_user defaultUser req).

(** The user object written by both functions of [authBypass.ts]. *)
Definition emergencyUser : obj :=
  [ ("id", VInt 999);
    ("username", VStr "Emergency_Admin");
    ("email", VStr "override@sentinel.emergency");
    ("name", VStr "Emergency Override Active");
    ("department", VStr "SENTINEL Command");
    ("role", VStr "admin") ].

Definition emergencyAuthBypass : Middleware :=
  fun req =>
    let overrideHeader := get (headers req) "x-emergency-override" in
    let overrideAuthority := get (headers req) "x-override-authority" in
    if truthy overrideHeader
       && strict_eq overrideAuthority (VStr "SENTINEL_EMERGENCY_PROTOCOL")
    then Next (with_user emergencyUser req)
    else Next req.

Definition forceEmergencyAuth : Middleware :=
  fun req => Next (with_user emergencyUser req).

(** A middleware lets every request through as the user [u]. *)
Definition admits_as (u : obj) (mw : Middleware) : Prop :=
  ∀ req, mw req = Next (with_user u req).

(** Express runs the middlewares of a route in order; the first one that
    responds ends the chain. *)
Fixpoint chain (mws : list Middleware) (req : Request) : outcome :=
  match mws with
  | [] => Next req
  | mw :: rest =>
      match mw req with
      | Next req' => chain rest req'
      | Respond res => Respond res
      end
  end.

End Auth.

(* ===================================================================== *)
(** ** routes.ts: REST handlers with an ownership check *)
(* ===================================================================== *)

Module Routes.
Import JS Storage Auth.
Local Open Scope string_scope.

Inductive schema :=
| insertBlockedFrequencySchema
| insertForensicReportSchema
| insertMeshDeviceSchema.

(** Result of [schema.parse(x)]: the validated data, or a [ZodError] whose
    [fromZodError(error).message] is [message]. *)
Inductive parsed :=
| Valid (data : obj)
| Invalid (message : string).

(** What a [try] block can throw. *)
Inductive thrown :=
| TypeError
| ZodError (message : string).

(** The [k]-th [new Date()] evaluated while one request is served. *)
Definition clock := nat → Z.

Definition json (code : Z) (v : value) : Response := {| status := code; payload := v |}.
Definition message (m : string) : value := VObj [("message", VStr m)].
Definition error (m : string) : value := VObj [("error", VStr m)].
(** [res.status(204).send()] *)
Definition no_content : Response := {| status := 204; payload := VUndefined |}.

Definition attempt : Type := MemStorage * (Response + thrown).

(** [try { body } catch (error) { if (error instanceof ZodError) return 400 ...;
    res.status(500).json(failure) }]; handlers without the [ZodError] branch
    answer 500 to every exception. *)
Definition try_catch (zod_branch : bool) (failure : value) (body : attempt)
  : MemStorage * Response :=
  match body with
  | (st, inl res) => (st, res)
  | (st, inr (ZodError m)) =>
      (st, if zod_branch then json 400 (message m) else json 500 failure)
  | (st, inr TypeError) => (st, json 500 failure)
  end.

(** [req.user!.role !== UserRole.ADMIN && row.userId !== req.user!.id] *)
Definition not_owner (u row : obj) : bool :=
  strict_neq (get u "role") (VStr UserRole_ADMIN)
  && strict_neq (get row "userId") (get u "id").

Section Handlers.

(** [schema.parse(x)] and [schema.partial().parse(x)]. *)
Variable zod_parse : schema → value → parsed.
Variable zod_partial_parse : schema → value → parsed.

(** The prefix shared by the handlers of [/:id] routes:
    parse the id (400), fetch the row (404), check ownership (403). *)
Definition owned_row (wrap : string → value) (invalid missing : string)
    (fetch : MemStorage → Z → option obj) (st : MemStorage) (req : Request)
    (k : Z → obj → attempt) : attempt :=
  match parseInt (param_id req) with
  | None => (st, inl (json 400 (wrap invalid)))
  | Some id =>
      match fetch st id with
      | None => (st, inl (json 404 (wrap missing)))
      | Some row =>
          match user req with
          | None => (st, inr TypeError)
          | Some u =>
              if not_owner u row
              then (st, inl (json 403 (wrap "Access denied")))
              else k id row
          end
      end
  end.

(** [router.get('/user/:id', forceEmergencyAuth, ...)] *)
Definition get_user_handler (st : MemStorage) (req : Request) : MemStorage * Response :=
  try_catch false (message "Failed to get user")
    match parseInt (param_id req) with
    | None => (st, inl (json 400 (message "Invalid user ID")))
    | Some userId =>
        let role := match user req with Some u => get u "role" | None => VUndefined end in
        let uid := match user req with Some u => get u "id" | None => VUndefined end in
        if strict_neq role (VStr UserRole_ADMIN) && strict_neq uid (VInt userId)
        then (st, inl (json 403 (message "Access denied")))
        else match getUser st userId with
             | None => (st, inl (json 404 (message "User not found")))
             | Some u => (st, inl (json 200 (VObj (without "password" u))))
             end
    end.

(** [router.post('/blocked-frequencies', isAuthenticated, hasSubscriptionAccess, ...)] *)
Definition post_blocked_frequency_handler (now : clock) (st : MemStorage) (req : Request)
  : MemStorage * Response :=
  try_catch true (message "Failed to create blocked frequency")
    match user req with
    | None => (st, inr TypeError)
    | Some u =>
        let frequencyData := set_prop "userId" (get u "id") (spread [] (own_props (body req))) in
        match zod_parse insertBlockedFrequencySchema (VObj frequencyData) with
        | Invalid m => (st, inr (ZodError m))
        | Valid validatedData =>
            let '(st', blockedFrequency) := createBlockedFrequency st validatedData (now 0%nat) in
            (st', inl (json 201 (VObj blockedFrequency)))
        end
    end.

(** [router.put('/blocked-frequencies/:id', isAuthenticated, ...)] *)
Definition put_blocked_frequency_handler (st : MemStorage) (req : Request)
  : MemStorage * Response :=
  try_catch true (message "Failed to update blocked frequency")
    (owned_row message "Invalid ID" "Blocked frequency not found" getBlockedFrequency st req
       (fun id _ =>
          match zod_partial_parse insertBlockedFrequencySchema (body req) with
          | Invalid m => (st, inr (ZodError m))
          | Valid validatedData =>
              match updateBlockedFrequency st id validatedData with
              | (st', None) => (st', inl (json 404 (message "Blocked frequency not found")))
              | (st', Some updatedFrequency) => (st', inl (json 200 (VObj updatedFrequency)))
              end
          end)).

(** [router.delete('/blocked-frequencies/:id', isAuthenticated, ...)] *)
Definition delete_blocked_frequency_handler (st : MemStorage) (req : Request)
  : MemStorage * Response :=
  try_catch false (message "Failed to delete blocked frequency")
    (owned_row message "Invalid ID" "Blocked frequency not found" getBlockedFrequency st req
       (fun id _ =>
          let '(st', deleted) := deleteBlockedFrequency st id in
          if deleted then (st', inl no_content)
          else (st', inl (json 404 (message "Blocked frequency not found"))))).

(** [router.get('/reports/:id', isAuthenticated, ...)] *)
Definition get_report_handler (st : MemStorage) (req : Request) : MemStorage * Response :=
  try_catch false (message "Failed to get report")
    (owned_row message "Invalid ID" "Report not found" getReport st req
       (fun _ report => (st, inl (json 200 (VObj report))))).

(** [router.post('/reports', isAuthenticated, hasSubscriptionAccess, ...)] *)
Definition post_report_handler (now : clock) (st : MemStorage) (req : Request)
  : MemStorage * Response :=
  try_catch true (message "Failed to create report")
    match user req with
    | None => (st, inr TypeError)
    | Some u =>
        let reportData := set_prop "userId" (get u "id") (spread [] (own_props (body req))) in
        match zod_parse insertForensicReportSchema (VObj reportData) with
        | Invalid m => (st, inr (ZodError m))
        | Valid validatedData =>
            let '(st', report) := createReport st validatedData (now 0%nat) (now 1%nat) in
            (st', inl (json 201 (VObj report)))
        end
    end.

(** [router.delete('/reports/:id', isAuthenticated, ...)] *)
Definition delete_report_handler (st : MemStorage) (req : Request) : MemStorage * Response :=
  try_catch false (message "Failed to delete report")
    (owned_row message "Invalid ID" "Report not found" getReport st req
       (fun id _ =>
          let '(st', deleted) := deleteReport st id in
          if deleted then (st', inl no_content)
          else (st', inl (json 404 (message "Report not found"))))).

(** [router.get('/mesh-devices/:id', isAuthenticated, ...)] *)
Definition get_mesh_device_handler (st : MemStorage) (req : Request)
  : MemStorage * Response :=
  try_catch false (message "Failed to get device")
    (owned_row message "Invalid device ID" "Device not found" getMeshDevice st req
       (fun _ device => (st, inl (json 200 (VObj device))))).

(** [router.patch('/mesh-devices/:id', isAuthenticated, ...)] *)
Definition patch_mesh_device_handler (now : clock) (st : MemStorage) (req : Request)
  : MemStorage * Response :=
  try_catch true (message "Failed to update device")
    (owned_row message "Invalid device ID" "Device not found" getMeshDevice st req
       (fun id _ =>
          match zod_partial_parse insertMeshDeviceSchema (body req) with
          | Invalid m => (st, inr (ZodError m))
          | Valid validatedData =>
              match updateMeshDevice st id validatedData (now 0%nat) with
              | (st', None) => (st', inl (json 404 (message "Device not found")))
              | (st', Some updatedDevice) => (st', inl (json 200 (VObj updatedDevice)))
              end
          end)).

(** [router.delete('/mesh-devices/:id', isAuthenticated, ...)] *)
Definition delete_mesh_device_handler (st : MemStorage) (req : Request)
  : MemStorage * Response :=
  try_catch false (message "Failed to delete device")
    (owned_row message "Invalid device ID" "Device not found" getMeshDevice st req
       (fun id _ =>
          let '(st', deleted) := deleteMeshDevice st id in
          if deleted then (st', inl no_content)
          else (st', inl (json 404 (message "Device not found"))))).

(** [app.get('/api/mobile-devices/:id', isAuthenticated, ...)] *)
Definition get_mobile_device_handler (st : MemStorage) (req : Request)
  : MemStorage * Response :=
  try_catch false (error "Failed to fetch mobile device")
    (owned_row error "Invalid device ID" "Mobile device not found" getMobileDevice st req
       (fun _ device => (st, inl (json 200 (VObj device))))).


(** [app.put('/api/mobile-devices/:id', isAuthenticated, ...)] *)
Definition put_mobile_device_handler (now : clock) (st : MemStorage) (req : Request)
  : MemStorage * Response :=
  try_catch false (error "Failed to update mobile device")
    (owned_row error "Invalid device ID" "Mobile device not found" getMobileDevice st req
       (fun id _ =>
          match updateMobileDevice st id (own_props (body req)) (now 0%nat) with
          | (st', None) => (st', inl (json 404 (error "Mobile device not found")))
          | (st', Some updatedDevice) => (st', inl (json 200 (VObj updatedDevice)))
          end)).

(** [app.delete('/api/mobile-devices/:id', isAuthenticated, ...)] *)
Definition delete_mobile_device_handler (st : MemStorage) (req : Request)
  : MemStorage * Response :=
  try_catch false (error "Failed to delete mobile device")
    (owned_row error "Invalid device ID" "Mobile device not found" getMobileDevice st req
       (fun id _ =>
          let '(st', deleted) := deleteMobileDevice st id in
          if deleted then (st', inl no_content)
          else (st', inl (json 404 (error "Mobile device not found"))))).

(** [app.get('/api/mobile-devices/:id/location', isAuthenticated, ...)] *)
Definition get_mobile_device_location_handler (st : MemStorage) (req : Request)
  : MemStorage * Response :=
  try_catch false (error "Failed to fetch device location")
    (owned_row error "Invalid device ID" "Mobile device not found" getMobileDevice st req
       (fun _ device =>
          if negb (truthy (get device "locationSharing"))
          then (st, inl (json 403 (VObj
                   [ ("error", VStr "Location sharing is disabled for this device");
                     ("needsPermission", VBool true) ])))
          else (st, inl (json 200 (VObj
                   [ ("lastLocation", or_else (get device "lastLocation") VNull);
                     ("trackingEnabled", or_else (get device "trackingEnabled") (VBool false));
                     ("trackingInterval", or_else (get device "trackingInterval") (VInt 60)) ]))))).

(** A route: its middlewares, then its handler. *)
Definition serve (mws : list Middleware) (handler : MemStorage → Request → MemStorage * Response)
    (st : MemStorage) (req : Request) : MemStorage * Response :=
  match chain mws req with
  | Next req' => handler st req'
  | Respond res => (st, res)
  end.

(** The routes with an ownership check whose handlers are embedded above. *)
Inductive route :=
| GET_user
| PUT_blocked_frequency | DELETE_blocked_frequency
| GET_report | DELETE_report
| GET_mesh_device | PATCH_mesh_device | DELETE_mesh_device
| GET_mobile_device | PUT_mobile_device | DELETE_mobile_device
| GET_mobile_device_location.

Definition dispatch (r : route) (now : clock) : MemStorage → Request → MemStorage * Response :=
  match r with
  | GET_user => serve [forceEmergencyAuth] get_user_handler
  | PUT_blocked_frequency => serve [isAuthenticated] put_blocked_frequency_handler
  | DELETE_blocked_frequency => serve [isAuthenticated] delete_blocked_frequency_handler
  | GET_report => serve [isAuthenticated] get_report_handler
  | DELETE_report => serve [isAuthenticated] delete_report_handler
  | GET_mesh_device => serve [isAuthenticated] get_mesh_device_handler
  | PATCH_mesh_device => serve [isAuthenticated] (patch_mesh_device_handler now)
  | DELETE_mesh_device => serve [isAuthenticated] delete_mesh_device_handler
  | GET_mobile_device => serve [isAuthenticated] get_mobile_device_handler
  | PUT_mobile_device => serve [isAuthenticated] (put_mobile_device_handler now)
  | DELETE_mobile_device => serve [isAuthenticated] delete_mobile_device_handler
  | GET_mobile_device_location => serve [isAuthenticated] get_mobile_device_location_handler
  end.

(** [router.post('/reports', ...)], [router.post('/blocked-frequencies', ...)]
    and [app.post('/api/mobile-devices', ...)] with their middlewares. *)
Definition POST_report (now : clock) :=
  serve [isAuthenticated; hasSubscriptionAccess] (post_report_handler now).
Definition POST_blocked_frequency (now : clock) :=
  serve [isAuthenticated; hasSubscriptionAccess] (post_blocked_frequency_handler now).

End Handlers.

End Routes.

(* ===================================================================== *)
(** ** routes.ts: the WebSocket relay *)
(* ===================================================================== *)

Module Relay.
Import JS.
Local Open Scope string_scope.

(** *** Number operations used by the handler *)

Definition num_add (a b : num) : num :=
  match a, b with Num x, Num y => Num (x + y)%Q | _, _ => NaN end.

Definition num_mul (a b : num) : num :=
  match a, b with Num x, Num y => Num (x * y)%Q | _, _ => NaN end.

(** [a > b] *)
Definition num_gt (a b : num) : bool :=
  match a, b with Num x, Num y => negb (Qle_bool x y) | _, _ => false end.

(** [Math.min(a, b)] *)
Definition Math_min (a b : num) : num :=
  match a, b with
  | Num x, Num y => if Qle_bool x y then Num x else Num y
  | _, _ => NaN
  end.

(** [Math.round(a)]: the nearest integer, halves going up. *)
Definition Math_round (a : num) : num :=
  match a with
  | Num x => Num (inject_Z (Qfloor (x + (1 # 2))%Q))
  | NaN => NaN
  end.

(** [Math.floor(a)] *)
Definition Math_floor (a : num) : num :=
  match a with
  | Num x => Num (inject_Z (Qfloor x))
  | NaN => NaN
  end.

Definition int (z : Z) : num := Num (inject_Z z).

(** *** Sockets and server state *)

Definition socket := nat.

Inductive ready_state := CONNECTING | OPEN | CLOSING | CLOSED.

#[global] Instance ready_state_eq_dec : EqDecision ready_state.
Proof. solve_decision. Defined.

(** Delayed broadcasts registered with [setTimeout]. *)
Inductive timer := countermeasure_result | neutralizer_result.

Record Server := {
  wss_clients : list socket;                 (* wss.clients, in insertion order *)
  readyState : socket → ready_state;         (* client.readyState *)
  connectedClients : list (socket * obj);    (* Map<WebSocket, info> *)
  sent : list (socket * value);              (* every client.send(JSON.stringify(m)), oldest first *)
  timers : list (Z * timer)                  (* setTimeout(callback, delay) *)
}.

Definition with_sent (l : list (socket * value)) (st : Server) : Server :=
  {| wss_clients := wss_clients st; readyState := readyState st;
     connectedClients := connectedClients st; sent := l; timers := timers st |}.

Definition with_connectedClients (m : list (socket * obj)) (st : Server) : Server :=
  {| wss_clients := wss_clients st; readyState := readyState st;
     connectedClients := m; sent := sent st; timers := timers st |}.

Definition with_timer (delay : Z) (t : timer) (st : Server) : Server :=
  {| wss_clients := wss_clients st; readyState := readyState st;
     connectedClients := connectedClients st; sent := sent st;
     timers := timers st ++ [(delay, t)] |}.

(** [connectedClients.get(ws)] *)
Fixpoint info_of (m : list (socket * obj)) (ws : socket) : option obj :=
  match m with
  | [] => None
  | (c, info) :: rest => if Nat.eqb c ws then Some info else info_of rest ws
  end.

(** In-place mutation of the info object stored for [ws]. *)
Fixpoint update_info (f : obj → obj) (ws : socket) (m : list (socket * obj))
  : list (socket * obj) :=
  match m with
  | [] => []
  | (c, info) :: rest =>
      if Nat.eqb c ws then (c, f info) :: rest else (c, info) :: update_info f ws rest
  end.

(** [c.send(JSON.stringify(m))] *)
Definition send (c : socket) (m : value) (st : Server) : Server :=
  with_sent (sent st ++ [(c, m)]) st.

Definition is_open (st : Server) (c : socket) : bool :=
  bool_decide (readyState st c = OPEN).

(** [wss.clients.forEach(client => { if (client.readyState === WebSocket.OPEN)
    client.send(JSON.stringify(m)) })], also the body of [broadcastMessage]. *)
Definition broadcast (m : value) (st : Server) : Server :=
  with_sent (sent st ++ map (fun c => (c, m)) (filter (fun c => is_open st c = true) (wss_clients st))) st.

(** [connectedClients.set(ws, info)] *)
Fixpoint set_info (ws : socket) (info : obj) (m : list (socket * obj)) : list (socket * obj) :=
  match m with
  | [] => [(ws, info)]
  | (c, old) :: rest =>
      if Nat.eqb c ws then (c, info) :: rest else (c, old) :: set_info ws info rest
  end.

(** [wss.on('connection', (ws) => { ... })], once the library has added [ws]
    to [wss.clients].  [clientId] is the generated id, [device] the value of
    [Math.floor(Math.random() * 1000)], [uptime] that of
    [Math.floor(process.uptime())]. *)
Definition on_connection (now : Z) (clientId : string) (device uptime : Z) (ws : socket)
    (st : Server) : Server :=
  let joined :=
    {| wss_clients := if bool_decide (ws ∈ wss_clients st) then wss_clients st
                      else wss_clients st ++ [ws];
       readyState := readyState st;
       connectedClients :=
         set_info ws
           [ ("id", VStr clientId);
             ("connectedAt", VDate now);
             ("lastActive", VDate now);
             ("role", VStr "user");
             ("name", VStr ("Device " ++ pretty device));
             ("deviceType", VStr "unknown") ]
           (connectedClients st);
       sent := sent st;
       timers := timers st |} in
  let welcomed :=
    send ws (VObj [ ("type", VStr "connection");
                    ("message", VStr "Connected to Sonic Protection System");
                    ("clientId", VStr clientId);
                    ("timestamp", VDate now) ]) joined in
  send ws (VObj
    [ ("type", VStr "system_status");
      ("data", VObj
         [ ("activeCountermeasures", VObj
              [ ("antiLaser", VBool true);
                ("sonicProtection", VBool true);
                ("microwaveDefense", VBool true);
                ("v2kBlocker", VBool true);
                ("ageSpectrumNeutralizer", VBool true) ]);
           ("systemUptime", VInt uptime);
           ("activeBarriers", VInt 150);
           ("totalBarriers", VInt 193);
           ("protectionRadius", VInt 6436);
           ("batteryLevel", VInt 87);
           ("signalStrength", VInt 92);
           ("timestamp", VDate now) ]) ]) welcomed.

(** Two states that differ at most in [connectedClients]. *)
Definition same_wires (st st' : Server) : Prop :=
  wss_clients st' = wss_clients st ∧ readyState st' = readyState st
  ∧ sent st' = sent st ∧ timers st' = timers st.

(** The first entry of [connectedClients] whose info has [id === receiver] and
    whose socket is open ([for ... of connectedClients.entries()] with [break]). *)
Fixpoint find_receiver (st : Server) (receiver : value) (m : list (socket * obj))
  : option socket :=
  match m with
  | [] => None
  | (c, info) :: rest =>
      if strict_eq (get info "id") receiver && is_open st c then Some c
      else find_receiver st receiver rest
  end.

(** *** The effectiveness scores on integers

    The value of the two scores when the intensity is the number [q], the
    [aiAssisted] flag is [ai] and [n] device ids are given. *)






(** *** The effectiveness scores *)

Section Handler.

(** [JSON.parse(text)]; [None] when it throws a [SyntaxError]. *)
Variable JSON_parse : string → option value.
(** ToNumber on strings, and on objects, arrays and dates. *)
Variable StringToNumber : string → num.
Variable ObjectToNumber : value → num.
(** ToString, as performed by a template literal. *)
Variable ToString : value → string.

Definition to_number (v : value) : num :=
  match v with
  | VUndefined => NaN
  | VNull => int 0
  | VBool b => if b then int 1 else int 0
  | VNum n => n
  | VStr s => StringToNumber s
  | VDate _ | VArr _ | VObj _ => ObjectToNumber v
  end.

(** [Math.round(Math.min(100, 50 + (intensity * 0.5) + (aiAssisted ? 15 : 0)))] *)
Definition effectivenessScore (intensity aiAssisted : value) : num :=
  Math_round
    (Math_min (int 100)
       (num_add (num_add (int 50) (num_mul (to_number intensity) (Num (1 # 2))))
                (if truthy aiAssisted then int 15 else int 0))).

(** [deviceIds && deviceIds.length > 1 ? Math.min(20, deviceIds.length * 2) : 0] *)
Definition meshEffectivenessBoost (deviceIds : value) : num :=
  if truthy deviceIds && num_gt (to_number (opt_prop deviceIds "length")) (int 1)
  then Math_min (int 20) (num_mul (to_number (opt_prop deviceIds "length")) (int 2))
  else int 0.

(** [Math.min(100, baseEffectivenessScore + meshEffectivenessBoost)] *)
Definition meshEffectivenessScore (intensity aiAssisted deviceIds : value) : num :=
  Math_min (int 100)
    (num_add (effectivenessScore intensity aiAssisted) (meshEffectivenessBoost deviceIds)).

(** [const intensity = data.intensity || data.data?.intensity || 75] *)
Definition neutralize_intensity (data : value) : value :=
  or_else (or_else (opt_prop data "intensity") (opt_prop (opt_prop data "data") "intensity")) (VInt 75).

(** *** The message handler *)

(** Statements of the [try] block run on the server state and may throw. *)
Definition M (A : Type) : Type := Server → Server * option A.

Definition ret {A} (a : A) : M A := fun st => (st, Some a).
Definition throw {A} : M A := fun st => (st, None).
Definition bind {A B} (m : M A) (k : A → M B) : M B :=
  fun st => match m st with
            | (st', Some a) => k a st'
            | (st', None) => (st', None)
            end.
Definition lift {A} (o : option A) : M A :=
  match o with Some a => ret a | None => throw end.
Definition exec (f : Server → Server) : M unit := fun st => (f st, Some tt).

#[local] Instance M_ret : MRet M := @ret.
#[local] Instance M_bind : MBind M := fun A B k m => bind m k.

Inductive message_type :=
| ping | frequency_detected | emergency_anti_laser_sonic
| extreme_neutralizer_deployed | grudge_message | neutralize_frequency
| mesh_message | mesh_neutralize_frequency | set_attacker_volume
| deploy_todrick_hall | alert_config_update | alert_config_delete
| extreme_neutralizer_activated | unknown_type.

(** The [case] label selected by [switch (data.type)]; labels are compared
    with [===], so only strings can match. *)
Definition classify (ty : value) : message_type :=
  match ty with
  | VStr s =>
      if String.eqb s "ping" then ping
      else if String.eqb s "frequency_detected" then frequency_detected
      else if String.eqb s "emergency_anti_laser_sonic" then emergency_anti_laser_sonic
      else if String.eqb s "extreme_neutralizer_deployed" then extreme_neutralizer_deployed
      else if String.eqb s "grudge_message" then grudge_message
      else if String.eqb s "neutralize_frequency" then neutralize_frequency
      else if String.eqb s "mesh_message" then mesh_message
      else if String.eqb s "mesh_neutralize_frequency" then mesh_neutralize_frequency
      else if String.eqb s "set_attacker_volume" then set_attacker_volume
      else if String.eqb s "deploy_todrick_hall" then deploy_todrick_hall
      else if String.eqb s "alert_config_update" then alert_config_update
      else if String.eqb s "alert_config_delete" then alert_config_delete
      else if String.eqb s "extreme_neutralizer_activated" then extreme_neutralizer_activated
      else unknown_type
  | _ => unknown_type
  end.

(** [a && b] *)
Definition and_then (a b : value) : value := if truthy a then b else a.

Definition envelope (type : string) (data : obj) : value :=
  VObj [("type", VStr type); ("data", VObj data)].

Definition quote : string := String (Ascii.ascii_of_nat 34) EmptyString.

(** [connectedClients.get(ws)?.k || fallback] *)
Definition client_field (st : Server) (ws : socket) (k fallback : string) : value :=
  or_else (match info_of (connectedClients st) ws with Some info => get info k | None => VUndefined end)
     (VStr fallback).

(** [Math.floor(Math.random() * 5) + 1] *)
Definition one_to_five (random : Q) : value :=
  VNum (num_add (Math_floor (num_mul (Num random) (int 5))) (int 1)).

(** [if (clientInfo) { clientInfo.lastActive = new Date();
      if (data.location) clientInfo.location = data.location; }] *)
Definition touch (now : Z) (ws : socket) (data : value) : M unit :=
  fun st =>
    match info_of (connectedClients st) ws with
    | None => (st, Some tt)
    | Some _ =>
        let st1 :=
          with_connectedClients
            (update_info (set_prop "lastActive" (VDate now)) ws (connectedClients st)) st in
        match prop data "location" with
        | None => (st1, None)
        | Some location =>
            if truthy location
            then (with_connectedClients
                    (update_info (set_prop "location" location) ws (connectedClients st1)) st1,
                  Some tt)
            else (st1, Some tt)
        end
    end.

(** The body of [switch (data.type)], for a [data] on which [data.type] has
    already been read (so no later property read of [data] can throw). *)
Definition switch (now : Z) (random : Q) (ws : socket) (data : value) : M unit :=
  let d k := opt_prop data k in
  let sub k := opt_prop (d "data") k in
  match classify (d "type") with
  | ping =>
      exec (send ws (VObj [("type", VStr "pong"); ("timestamp", VDate now)]))
  | frequency_detected =>
      exec (broadcast (envelope "frequency_alert"
        [ ("frequency", d "frequency");
          ("confidence", d "confidence");
          ("timestamp", VDate now) ]))
  | emergency_anti_laser_sonic =>
      exec (broadcast (envelope "emergency_defense_activated"
        [ ("threatType", or_else (d "threatType") (VStr "laser_sonic"));
          ("intensity", or_else (d "intensity") (VInt 100));
          ("range", or_else (d "range") (VInt 1609));
          ("timestamp", VDate now);
          ("deployedBy", or_else (d "userId") (VStr "unknown")) ]))
  | extreme_neutralizer_deployed =>
      exec (broadcast (envelope "extreme_neutralizer_activated"
        [ ("deviceCount", or_else (d "deviceCount") (VInt 14));
          ("radius", or_else (d "radius") (VInt 15));
          ("intensity", or_else (d "intensity") (VInt 100));
          ("mode", or_else (d "mode") (VStr "destructive"));
          ("timestamp", VDate now);
          ("deployedBy", or_else (d "userId") (VStr "unknown"));
          ("location", or_else (d "location")
                          (VObj [("latitude", VInt 0); ("longitude", VInt 0)])) ]))
  | grudge_message =>
      exec (broadcast (envelope "grudge_network_message"
        [ ("username", or_else (d "username") (VStr "Anonymous GrudGe User"));
          ("message", or_else (d "message") (VStr ""));
          ("threatInfo", or_else (d "threatInfo") VNull);
          ("timestamp", VDate now);
          ("location", or_else (d "location") VNull);
          ("securityLevel", or_else (d "securityLevel") (VStr "standard"));
          ("encryptionStatus", VStr "secure") ]))
  | neutralize_frequency =>
      if truthy (or_else (d "frequency") (and_then (d "data") (sub "frequency"))) then
        let frequency := or_else (d "frequency") (sub "frequency") in
        let bandwidth := or_else (or_else (d "bandwidth") (sub "bandwidth")) (VInt 2000) in
        let intensity := neutralize_intensity data in
        let targetLocation := or_else (d "targetLocation") (sub "targetLocation") in
        let signalType := or_else (or_else (d "type") (sub "type")) (VStr "unknown") in
        let aiAssisted := or_else (or_else (d "aiAssisted") (sub "aiAssisted")) (VBool false) in
        exec (broadcast (envelope "frequency_neutralized"
          [ ("frequency", frequency);
            ("bandwidth", bandwidth);
            ("effectivenessScore", VNum (effectivenessScore intensity aiAssisted));
            ("signalType", signalType);
            ("location", targetLocation);
            ("timestamp", VDate now);
            ("aiAssisted", aiAssisted) ]))
      else ret tt
  | mesh_message =>
      if truthy (d "message") then
        let m k := opt_prop (d "message") k in
        fun st =>
          let messageToSend :=
            VObj [ ("type", VStr "mesh_message");
                   ("message", VObj
                      [ ("id", or_else (m "id") (VStr ("msg-" ++ pretty now)));
                        ("senderId", client_field st ws "id" "unknown");
                        ("senderName", client_field st ws "name" "Unknown Device");
                        ("senderType", client_field st ws "deviceType" "unknown");
                        ("content", m "content");
                        ("receiver", m "receiver");
                        ("timestamp", VDate now);
                        ("isEmergency", or_else (m "isEmergency") (VBool false)) ]) ] in
          if truthy (m "receiver") then
            match find_receiver st (m "receiver") (connectedClients st) with
            | Some client => (send client messageToSend st, Some tt)
            | None => (st, Some tt)
            end
          else (broadcast messageToSend st, Some tt)
      else ret tt
  | mesh_neutralize_frequency =>
      if truthy (and_then (d "data") (sub "frequency")) then
        let score := meshEffectivenessScore (sub "intensity") (sub "aiAssisted") (sub "deviceIds") in
        let radius := if truthy (sub "applyGlobalCountermeasures") then VInt 6436 else VInt 1000 in
        exec (broadcast (envelope "mesh_frequency_neutralized"
          [ ("frequency", sub "frequency");
            ("bandwidth", sub "bandwidth");
            ("effectivenessScore", VNum score);
            ("signalType", sub "type");
            ("timestamp", VDate now);
            ("aiAssisted", sub "aiAssisted");
            ("deviceCount", or_else (opt_prop (sub "deviceIds") "length") (VInt 1));
            ("radius", radius);
            ("globalProtection", sub "applyGlobalCountermeasures") ]));;
        exec (broadcast (envelope "frequency_neutralized"
          [ ("frequency", sub "frequency");
            ("bandwidth", sub "bandwidth");
            ("effectivenessScore", VNum score);
            ("signalType", sub "type");
            ("timestamp", VDate now);
            ("aiAssisted", sub "aiAssisted");
            ("meshEnhanced", VBool true) ]))
      else ret tt
  | set_attacker_volume =>
      (fun st => exec (broadcast (envelope "attacker_volume_override"
        [ ("volume", or_else (d "volume") (VInt 100));
          ("lockDuration", or_else (d "lockDuration") (VStr "permanent"));
          ("preventMute", defined_or (d "preventMute") (VBool true));
          ("bypassDoNotDisturb", defined_or (d "bypassDoNotDisturb") (VBool true));
          ("timestamp", VDate now);
          ("initiator", client_field st ws "id" "unknown") ])) st);;
      exec (send ws (envelope "attacker_volume_confirmation"
        [ ("success", VBool true);
          ("timestamp", VDate now);
          ("message", VStr ("Successfully overrode " ++ ToString (one_to_five random)
                            ++ " attacker devices with volume set to "
                            ++ ToString (d "volume") ++ "%")) ]))
  | deploy_todrick_hall =>
      let targetLocation :=
        or_else (d "location") (VObj [("latitude", VInt 0); ("longitude", VInt 0)]) in
      exec (broadcast (VObj
        [ ("type", VStr "todrick_hall_deployed");
          ("message", VStr ("AUDIO WEAPON DEPLOYED: " ++ quote ++ "Wrong Bitch" ++ quote
                            ++ " by Todrick Hall activated against threat source"));
          ("data", VObj
             [ ("targetLocation", targetLocation);
               ("intensity", or_else (d "intensity") (VInt 100));
               ("range", VInt 6436);
               ("timestamp", VDate now);
               ("deployedBy", or_else (d "userId") (VStr "unknown"));
               ("estimatedImpact",
                VStr "CRITICAL - All electronic devices within range will be temporarily disabled") ]) ]));;
      exec (with_timer 3000 countermeasure_result)
  | alert_config_update =>
      let alertConfig := d "config" in
      (fun st => exec (broadcast (envelope "alert_config_updated"
        [ ("config", alertConfig);
          ("updatedBy", client_field st ws "id" "unknown");
          ("timestamp", VDate now) ])) st);;
      configId ← lift (prop alertConfig "id");
      exec (send ws (envelope "alert_config_confirmation"
        [ ("success", VBool true);
          ("configId", configId);
          ("message", VStr "Alert configuration updated successfully") ]))
  | alert_config_delete =>
      fun st => exec (broadcast (envelope "alert_config_deleted"
        [ ("configId", d "configId");
          ("deletedBy", client_field st ws "id" "unknown");
          ("timestamp", VDate now) ])) st
  | extreme_neutralizer_activated =>
      exec (broadcast (VObj
        [ ("type", VStr "extreme_neutralizer_active");
          ("message", VStr "EXTREME NEUTRALIZER ACTIVATED: Permanent device destruction sequence initiated");
          ("data", VObj
             [ ("radius", or_else (d "radius") (VInt 15));
               ("targetType", or_else (d "targetType") (VStr "microwave_source"));
               ("timestamp", VDate now);
               ("deployedBy", or_else (d "userId") (VStr "unknown"));
               ("estimatedDevices", one_to_five random) ]) ]));;
      exec (with_timer 5000 neutralizer_result)
  | unknown_type =>
      exec (send ws (VObj [("type", VStr "error"); ("message", VStr "Unknown message type")]))
  end.

(** The [try] block of [ws.on('message', ...)], given the outcome [parsed] of
    [JSON.parse(message.toString())] ([None] when it throws). *)
Definition try_block (now : Z) (random : Q) (ws : socket) (parsed : option value) : M unit :=
  data ← lift parsed;
  touch now ws data;;
  _ ← lift (prop data "type");
  switch now random ws data.

(** The handler once the text has gone through [JSON.parse]: the [try] block,
    and the [catch] clause answering the sender. *)
Definition received (now : Z) (random : Q) (ws : socket) (parsed : option value) (st : Server)
  : Server :=
  match try_block now random ws parsed st with
  | (st', Some _) => st'
  | (st', None) =>
      send ws (VObj [("type", VStr "error"); ("message", VStr "Invalid message format")]) st'
  end.

(** [ws.on('message', (message) => { try { ... } catch (error) {
      ws.send(JSON.stringify({ type: 'error', message: 'Invalid message format' })) } })] *)
Definition on_message (now : Z) (random : Q) (ws : socket) (message : string) (st : Server)
  : Server :=
  received now random ws (JSON_parse message) st.

End Handler.

End Relay.

(* ===================================================================== *)
(** ** MeshController *)
(* ===================================================================== *)

Module Mesh.
Import JS.
Local Open Scope string_scope.

(** [devices: Map<string, WebSocket>], with the sockets and the store the
    controller works on. *)
Record MeshController := {
  devices : list (string * Relay.socket);
  wire : Relay.Server;
  store : Storage.MemStorage
}.

Fixpoint device_socket (m : list (string * Relay.socket)) (deviceId : string)
  : option Relay.socket :=
  match m with
  | [] => None
  | (k, ws) :: rest => if String.eqb k deviceId then Some ws else device_socket rest deviceId
  end.



(** The sockets [broadcastThreat] sends to: every entry whose key differs
    from [sourceId] and whose socket is open. *)
Definition threat_recipients (mc : MeshController) (sourceId : string) : list Relay.socket :=
  map snd (filter (fun kv => negb (String.eqb (fst kv) sourceId)
                             && Relay.is_open (wire mc) (snd kv) = true)
                  (devices mc)).

Definition broadcastThreat (sourceId : string) (threat : value) (mc : MeshController)
  : MeshController :=
  let message :=
    VObj [("type", VStr "THREAT_ALERT"); ("sourceDevice", VStr sourceId); ("threat", threat)] in
  {| devices := devices mc;
     wire := Relay.with_sent
               (Relay.sent (wire mc) ++ map (fun ws => (ws, message)) (threat_recipients mc sourceId))
               (wire mc);
     store := store mc |}.

Definition syncDeviceData (deviceId : string) (mc : MeshController) : MeshController :=
  let device :=
    match parseInt deviceId with
    | Some id => Storage.getMeshDevice (store mc) id
    | None => None
    end in
  match device, device_socket (devices mc) deviceId with
  | Some row, Some ws =>
      {| devices := devices mc;
         wire := Relay.send ws (VObj [("type", VStr "SYNC_DATA"); ("data", VObj row)]) (wire mc);
         store := store mc |}
  | _, _ => mc
  end.

Definition processTriangulationData (now : Z) (deviceId : string) (coordinates : value)
    (mc : MeshController) : MeshController :=
  match parseInt deviceId with
  | Some id =>
      {| devices := devices mc; wire := wire mc;
         store := (Storage.updateMeshDevice (store mc) id [("coordinates", coordinates)] now).1 |}
  | None => mc
  end.

(** The listener installed by [registerDevice], given the outcome [parsed] of
    [JSON.parse(message.toString())]; every exception is caught and logged. *)
Definition on_message (now : Z) (deviceId : string) (parsed : option value) (mc : MeshController)
  : MeshController :=
  match parsed with
  | None => mc
  | Some data =>
      match prop data "type" with
      | None => mc
      | Some (VStr type) =>
          if String.eqb type "THREAT_DETECTED"
          then broadcastThreat deviceId (opt_prop data "threat") mc
          else if String.eqb type "SYNC_REQUEST" then syncDeviceData deviceId mc
          else if String.eqb type "TRIANGULATION_DATA"
          then processTriangulationData now deviceId (opt_prop data "coordinates") mc
          else mc
      | Some _ => mc
      end
  end.

End Mesh.

(* ===================================================================== *)
(** ** ADSDestroyerController *)
(* ===================================================================== *)

Module ADS.
Import JS.
Local Open Scope string_scope.

(** Here numbers are IEEE binary64 values, as in the engine. *)

Record SignalData := {
  signal_real : list float;
  signal_imag : list float;
  sample_rate : float
}.

Record ADSThreatSignature := {
  frequency_ghz : float;
  power_dbm : float;
  beam_width_deg : float;
  type : string;
  pulse_pattern : list float
}.

Record ADSAnalysisResult := {
  threats_detected : nat;
  threat_signatures : list ADSThreatSignature;
  countermeasures_ready : nat;
  deployment_status : string;
  analysis_error : option string        (* error?: string *)
}.

Record ADSCountermeasureDeployment := {
  threat_type : string;
  countermeasure_frequencies : list float;
  deployment_locations : list (float * float);
  power_levels : list float;
  effectiveness : float;
  status : string;
  timestamp : string;
  deployment_error : option string      (* error?: string *)
}.

(** A value handed to [resolve]: the parsed standard output of the Julia
    process, or the result computed by a fallback. *)
Inductive outcome (R : Type) :=
| Parsed (v : value)
| Computed (r : R).
Arguments Parsed {R} v.
Arguments Computed {R} r.

Inductive exn := TypeError.

(** State of a promise. *)
Inductive settlement (A : Type) :=
| Pending
| Resolved (a : A)
| Rejected (e : exn).
Arguments Pending {A}.
Arguments Resolved {A} a.
Arguments Rejected {A} e.

(** [resolve(v)]: only the first settlement counts. *)
Definition resolve {A} (v : A) (p : settlement A) : settlement A :=
  match p with Pending => Resolved v | _ => p end.

(** What a spawned child process can emit. *)
Inductive child_event :=
| stdout_data (chunk : string)
| stderr_data (chunk : string)
| close (code : option Z)            (* [null] when the child was killed *)
| spawn_error.

Inductive event :=
| Child (e : child_event)
| Timer.                              (* the callback given to [setTimeout] *)

(** One run of a spawned process: what it emits before the timer of the call
    fires, and what it emits afterwards.  The timer is never cleared, so it
    fires in every run. *)
Record spawn_run := { before_timer : list child_event; after_timer : list child_event }.

Definition events (r : spawn_run) : list event :=
  map Child (before_timer r) ++ Timer :: map Child (after_timer r).

(** *** checkJuliaAvailability *)

Definition availability_step (p : settlement bool) (ev : event) : settlement bool :=
  match ev with
  | Child (close code) => resolve (bool_decide (code = Some 0%Z)) p
  | Child spawn_error => resolve false p
  | Timer => resolve false p
  | Child (stdout_data _) | Child (stderr_data _) => p
  end.

Definition checkJuliaAvailability (r : spawn_run) : settlement bool :=
  fold_left availability_step (events r) Pending.

(** *** fallbackAnalysis *)

(** [Math.max(a, b)] *)
Definition Math_max (a b : float) : float :=
  if is_nan a || is_nan b then nan else if PrimFloat.ltb a b then b else a.

Definition of_nat (n : nat) : float := PrimFloat.of_uint63 (Uint63.of_Z (Z.of_nat n)).

Definition adsFrequencies : list float := [35; 60; 77; 95]%float.

Definition band (freq : float) : string :=
  if PrimFloat.leb 90 freq then "95GHz_ADS"
  else if PrimFloat.leb 70 freq then "W_Band"
  else "Millimeter_Wave".

Section Controller.

(** [JSON.parse(text)]; [None] when it throws. *)
Variable JSON_parse : string → option value.
Variable Math_log10 : float → float.

(** [signalData.signal_real.map((real, i) => Math.sqrt(real * real +
      signalData.signal_imag[i] * signalData.signal_imag[i]))] *)
Definition powers (signalData : SignalData) : list float :=
  imap (fun i real =>
          let imag := nth i (signal_imag signalData) nan in
          PrimFloat.sqrt (real * real + imag * imag)%float)
       (signal_real signalData).

Definition avgPower (signalData : SignalData) : float :=
  (fold_left PrimFloat.add (powers signalData) 0 / of_nat (length (powers signalData)))%float.

Definition maxPower (signalData : SignalData) : float :=
  fold_left Math_max (powers signalData) neg_infinity.

(** [random k] is the value of the [k]-th call of [Math.random()]. *)
#[warnings="-inexact-float"]
Definition fallbackAnalysis (random : nat → float) (signalData : SignalData)
  : ADSAnalysisResult :=
  let powerRatio := (maxPower signalData / avgPower signalData)%float in
  let threats :=
    if PrimFloat.ltb 2 powerRatio
    then imap (fun k freq =>
                 {| frequency_ghz := freq;
                    power_dbm := (20 * Math_log10 (maxPower signalData) - 30)%float;
                    beam_width_deg := (5 + random k * 10)%float;
                    type := band freq;
                    pulse_pattern := [0.1; 0.2; 0.1]%float |})
              adsFrequencies
    else [] in
  {| threats_detected := length threats;
     threat_signatures := threats;
     countermeasures_ready := length threats;
     deployment_status := if (0 <? length threats)%nat then "READY" else "NO_THREATS";
     analysis_error := None |}.

(** *** analyzeSpectrum *)

(** The listeners installed on the child: they share [stdout] and the promise. *)
Definition analysis_step (fallback : ADSAnalysisResult)
    (acc : string * settlement (outcome ADSAnalysisResult)) (ev : event)
  : string * settlement (outcome ADSAnalysisResult) :=
  let '(stdout, p) := acc in
  match ev with
  | Child (stdout_data chunk) => (stdout ++ chunk, p)
  | Child (stderr_data _) => (stdout, p)
  | Child (close code) =>
      if bool_decide (code = Some 0%Z) then
        match JSON_parse stdout with
        | Some result => (stdout, resolve (Parsed result) p)
        | None => (stdout, resolve (Computed fallback) p)
        end
      else (stdout, resolve (Computed fallback) p)
  | Child spawn_error => (stdout, resolve (Computed fallback) p)
  | Timer => (stdout, resolve (Computed fallback) p)
  end.

(** [availability] is the run of [julia --version], [analysis] the run of the
    script. *)
Definition analyzeSpectrum (random : nat → float) (availability analysis : spawn_run)
    (signalData : SignalData) : settlement (outcome ADSAnalysisResult) :=
  let fallback := fallbackAnalysis random signalData in
  match checkJuliaAvailability availability with
  | Resolved false => Resolved (Computed fallback)
  | Resolved true => snd (fold_left (analysis_step fallback) (events analysis) ("", Pending))
  | Pending => Pending
  | Rejected _ => Resolved (Computed fallback)       (* the [catch] clause *)
  end.

(** *** fallbackDeployment *)

Record Controller := {
  isActive : bool;
  activeDeployments : list (string * outcome ADSCountermeasureDeployment)
}.

(** [this.activeDeployments.set(k, v); this.isActive = true] *)
Fixpoint map_set {V} (k : string) (v : V) (m : list (string * V)) : list (string * V) :=
  match m with
  | [] => [(k, v)]
  | (k', v') :: rest =>
      if String.eqb k' k then (k', v) :: rest else (k', v') :: map_set k v rest
  end.

Definition activate (k : string) (v : outcome ADSCountermeasureDeployment) (c : Controller)
  : Controller :=
  {| isActive := true; activeDeployments := map_set k v (activeDeployments c) |}.

(** The property names every object literal inherits from [Object.prototype]. *)
Definition Object_prototype : list string :=
  [ "constructor"; "__defineGetter__"; "__defineSetter__"; "hasOwnProperty";
    "__lookupGetter__"; "__lookupSetter__"; "isPrototypeOf"; "propertyIsEnumerable";
    "toString"; "valueOf"; "__proto__"; "toLocaleString" ].

(** The result of reading [baseFrequencies[threatType]]. *)
Inductive property :=
| Own (frequencies : list float)     (* one of the four arrays of the literal *)
| Inherited                          (* a member of [Object.prototype]: truthy, not an array *)
| Absent.                            (* [undefined] *)

#[warnings="-inexact-float"]
Definition baseFrequencies (threatType : string) : property :=
  if String.eqb threatType "95GHz_ADS" then Own [94.5; 95; 95.5]%float
  else if String.eqb threatType "W_Band" then Own [75; 77; 81; 86; 94]%float
  else if String.eqb threatType "Millimeter_Wave" then Own [34.8; 35; 35.2]%float
  else if String.eqb threatType "Directed_Energy" then Own [10; 35; 60; 95]%float
  else if bool_decide (threatType ∈ Object_prototype) then Inherited
  else Absent.

(** [const frequencies = baseFrequencies[threatType] || [95.0];
     const interferenceFreqs = frequencies.flatMap(f => [f - 0.1, f, f + 0.1]);
     ...]  Calling [.flatMap] on an inherited member throws a [TypeError]. *)
#[warnings="-inexact-float"]
Definition fallbackDeployment (random : float) (now : string) (threatType : string)
    (c : Controller) : Controller * (ADSCountermeasureDeployment + exn) :=
  let build (frequencies : list float) :=
    let interferenceFreqs :=
      flat_map (fun f => [f - 0.1; f; f + 0.1]%float) frequencies in
    let deployment :=
      {| threat_type := threatType;
         countermeasure_frequencies := interferenceFreqs;
         deployment_locations := [(0, 0); (100, 0); (-100, 0); (0, 100); (0, -100)]%float;
         power_levels := replicate (length interferenceFreqs) 100%float;
         effectiveness := (0.75 + random * 0.2)%float;
         status := "DEPLOYED";
         timestamp := now;
         deployment_error := None |} in
    (activate threatType (Computed deployment) c, inl deployment) in
  match baseFrequencies threatType with
  | Own frequencies => build frequencies
  | Absent => build [95%float]
  | Inherited => (c, inr TypeError)
  end.

(** *** deployCountermeasures *)

(** What the listeners installed on the child share.  [uncaught] records an
    exception that escaped a listener: the process then stops handling
    events. *)
Record listeners := {
  handled : nat;
  stdout : string;
  controller : Controller;
  promise : settlement (outcome ADSCountermeasureDeployment);
  uncaught : option exn
}.

(** [resolve(this.fallbackDeployment(threatType))]; [random i] and [now i] are
    the values read by the fallback while the [i]-th event is handled. *)
Definition resolve_fallback (random : nat → float) (now : nat → string) (threatType : string)
    (l : listeners) : listeners :=
  match fallbackDeployment (random (handled l)) (now (handled l)) threatType (controller l) with
  | (c', inl d) =>
      {| handled := S (handled l); stdout := stdout l; controller := c';
         promise := resolve (Computed d) (promise l); uncaught := None |}
  | (c', inr e) =>
      {| handled := S (handled l); stdout := stdout l; controller := c';
         promise := promise l; uncaught := Some e |}
  end.

Definition deployment_step (random : nat → float) (now : nat → string) (threatType : string)
    (l : listeners) (ev : event) : listeners :=
  match uncaught l with
  | Some _ => l
  | None =>
    match ev with
    | Child (stdout_data chunk) =>
        {| handled := S (handled l); stdout := stdout l ++ chunk; controller := controller l;
           promise := promise l; uncaught := None |}
    | Child (stderr_data _) =>
        {| handled := S (handled l); stdout := stdout l; controller := controller l;
           promise := promise l; uncaught := None |}
    | Child (close code) =>
        if bool_decide (code = Some 0%Z) then
          match JSON_parse (stdout l) with
          | Some result =>
              {| handled := S (handled l); stdout := stdout l;
                 controller := activate threatType (Parsed result) (controller l);
                 promise := resolve (Parsed result) (promise l); uncaught := None |}
          | None => resolve_fallback random now threatType l
          end
        else resolve_fallback random now threatType l
    | Child spawn_error => resolve_fallback random now threatType l
    | Timer => resolve_fallback random now threatType l
    end
  end.

(** The listeners have not thrown, and the promise is pending or resolved. *)
Definition sound (l : listeners) : Prop :=
  uncaught l = None ∧ (promise l = Pending ∨ ∃ v, promise l = Resolved v).

(** The listeners have not thrown, and the promise is resolved. *)
Definition settled (l : listeners) : Prop :=
  uncaught l = None ∧ ∃ v, promise l = Resolved v.

(** [availability] is the run of [julia --version], [deployment] the run of
    the script.  The result is the controller afterwards and the state of the
    returned promise. *)
Definition deployCountermeasures (random : nat → float) (now : nat → string)
    (availability deployment : spawn_run) (threatType : string) (c : Controller)
  : Controller * settlement (outcome ADSCountermeasureDeployment) :=
  match checkJuliaAvailability availability with
  | Resolved false =>
      match fallbackDeployment (random 0%nat) (now 0%nat) threatType c with
      | (c', inl d) => (c', Resolved (Computed d))
      | (c', inr _) =>                                   (* the [catch] clause *)
          match fallbackDeployment (random 1%nat) (now 1%nat) threatType c' with
          | (c'', inl d) => (c'', Resolved (Computed d))
          | (c'', inr e) => (c'', Rejected e)
          end
      end
  | Resolved true =>
      let l :=
        fold_left (deployment_step random now threatType) (events deployment)
          {| handled := 0; stdout := ""; controller := c; promise := Pending;
             uncaught := None |} in
      (controller l, promise l)
  | Pending => (c, Pending)
  | Rejected _ =>                                        (* the [catch] clause *)
      match fallbackDeployment (random 0%nat) (now 0%nat) threatType c with
      | (c', inl d) => (c', Resolved (Computed d))
      | (c', inr e) => (c', Rejected e)
      end
  end.

(** The child only writes to its pipes. *)
Definition is_data (e : child_event) : Prop :=
  match e with stdout_data _ | stderr_data _ => True | _ => False end.

(** What the [stdout] listener has accumulated after the events [es]. *)
Definition collected (es : list child_event) : string :=
  fold_left (fun acc e => match e with stdout_data chunk => acc ++ chunk | _ => acc end) es "".

(** After output [text], the event makes the listeners fall back: a spawn
    error, an exit code other than 0, or exit code 0 with output that is not
    JSON. *)
Definition fails (text : string) (e : child_event) : Prop :=
  match e with
  | spawn_error => True
  | close code => code ≠ Some 0%Z ∨ JSON_parse text = None
  | _ => False
  end.

End Controller.

(** [julia --version] could not be started: the child emits ['error'], then
    ['close'] with a negative code. *)
Definition julia_missing : spawn_run :=
  {| before_timer := [spawn_error; close (Some (-2)%Z)]; after_timer := [] |}.

(** [julia --version] exited with code 0. *)
Definition julia_present : spawn_run :=
  {| before_timer := [stdout_data "julia version 1.10.0"; close (Some 0%Z)]; after_timer := [] |}.

Definition idle : Controller := {| isActive := false; activeDeployments := [] |}.

End ADS.

(* ===================================================================== *)
(** ** forensicsAnalyzer.ts: ForensicsAnalyzer *)
(* ===================================================================== *)

Module Forensics.
Import JS.
Local Open Scope string_scope.

(** The fields of a [ForensicRecording] row read by the analyzer.  [timestamp]
    is the time value of a valid [Date], in milliseconds; [duration] is in
    seconds.  Everything that describes the captured audio (its file, size,
    format and length) sits in the last four fields. *)
Record ForensicRecording := {
  recordingId : string;
  timestamp : Z;
  duration : Z;
  audioFileUrl : string;
  fileSize : Z;
  format : string
}.

(** The largest time value a [Date] can hold. *)
Definition maxTime : Z := 8640000000000000.

Definition in_range (ms : Z) : Prop := (- maxTime ≤ ms ≤ maxTime)%Z.

Definition frac (n : Z) (d : positive) : value := VNum (Num (n # d)).

(** Reads [o.k1.k2...]. *)
Fixpoint at_path (v : value) (path : list string) : value :=
  match path with
  | [] => v
  | k :: rest => at_path (opt_prop v k) rest
  end.

Section Analyzer.

(** [date.toISOString()] on a time value within range. *)
Variable toISOString : Z → string.
(** [crypto.createHash('sha256').update(text).digest('hex')] *)
Variable sha256_hex : string → string.

(** [new Date(ms).toISOString()]: a [RangeError] ([None]) outside the range of
    time values. *)
Definition Date_toISOString (ms : Z) : option string :=
  if bool_decide (in_range ms) then Some (toISOString ms) else None.

(** [hash.update(recording.recordingId);
     hash.update(recording.timestamp.toISOString()); hash.digest('hex')] *)
Definition generateChecksum (recording : ForensicRecording) : option string :=
  iso ← Date_toISOString (timestamp recording);
  Some (sha256_hex (recordingId recording ++ iso)).

Definition analyzeFrequencies (recording : ForensicRecording) : list value :=
  [VInt 3500; VInt 5100; VInt 8400; VInt 12200].

(** [this.analyzeFrequencies(recording)[0]] *)
Definition determinePrimaryFrequency (recording : ForensicRecording) : value :=
  nth 0 (analyzeFrequencies recording) VUndefined.

(** [uuid] is the value of [crypto.randomUUID()]; [now1] and [now2] are the two
    readings of [new Date()].  [None] when a [toISOString()] throws. *)
Definition analyzeRecording (uuid : string) (now1 now2 : Z) (recording : ForensicRecording)
  : option value :=
  checksum ← generateChecksum recording;
  reportTime ← Date_toISOString now1;
  startTime ← Date_toISOString (timestamp recording);
  endTime ← Date_toISOString (timestamp recording + duration recording * 1000);
  custodyTime ← Date_toISOString now2;
  Some (VObj
    [ ("id", VStr uuid);
      ("timestamp", VStr reportTime);
      ("duration", VInt (duration recording));
      ("audioData", VObj
         [ ("blobUrl", VStr (audioFileUrl recording));
           ("size", VInt (fileSize recording));
           ("type", VStr (format recording));
           ("durationSeconds", VInt (duration recording)) ]);
      ("attackMetadata", VObj
         [ ("detectedFrequencies", VArr (analyzeFrequencies recording));
           ("primaryFrequency", determinePrimaryFrequency recording);
           ("attackerDirections", VArr [VStr "NW"; VStr "N"]);
           ("attackerPrimaryDirection", VStr "NW");
           ("attackerDistances", VArr [frac 153 10; frac 182 10]);
           ("attackerAverageDistance", frac 1675 100);
           ("attackIntensity", VInt 85);
           ("deviceStatus", VStr "ACTIVE_DEFENSE");
           ("environmentalFactors", VArr [VStr "URBAN"; VStr "HIGH_DENSITY"]);
           ("recording", VObj
              [ ("startTime", VStr startTime);
                ("endTime", VStr endTime);
                ("sampleRate", VInt 48000);
                ("bitsPerSample", VInt 24);
                ("channels", VInt 2) ]) ]);
      ("locationData", VObj
         [ ("available", VBool true);
           ("latitude", frac 515074 10000);
           ("longitude", frac (-1278) 10000);
           ("accuracy", VInt 10);
           ("estimatedAttackerLocation", VObj
              [ ("latitude", frac 515080 10000);
                ("longitude", frac (-1285) 10000);
                ("estimatedAccuracy", VInt 15);
                ("calculationMethod", VStr "TRIANGULATION") ]) ]);
      ("deviceData", VObj
         [ ("userAgent", VStr "SENTINEL/1.0");
           ("platform", VStr "SPECIALIZED_HARDWARE");
           ("vendor", VStr "SENTINEL_SYSTEMS");
           ("screenWidth", VInt 1920);
           ("screenHeight", VInt 1080);
           ("devicePixelRatio", VInt 1);
           ("orientation", VNull);
           ("motion", VNull);
           ("capabilities", VObj
              [ ("audioProcessing", VBool true);
                ("signalAnalysis", VBool true);
                ("realTimeProtection", VBool true) ]) ]);
      ("countersystemStatus", VObj
         [ ("protectionActive", VBool true);
           ("countermeasuresDeployed", VBool true);
           ("blockedFrequencies", VArr [VInt 3500; VInt 5100; VInt 8400]);
           ("systemEffectiveness", VInt 92) ]);
      ("legalEvidence", VObj
         [ ("chainOfCustody", VArr
              [ VObj [ ("timestamp", VStr custodyTime);
                       ("action", VStr "RECORDING_CREATED");
                       ("operator", VStr "SENTINEL_SYSTEM");
                       ("checksumSHA256", VStr checksum) ] ]);
           ("certificationStatement",
            VStr "This recording was automatically captured and analyzed by the SENTINEL system.");
           ("dataIntegrityVerification", VBool true) ]) ]).

End Analyzer.

(** The fields of a report the detection claim is about. *)
Definition detectedFrequencies (report : value) : value :=
  at_path report ["attackMetadata"; "detectedFrequencies"].

Definition primaryFrequency (report : value) : value :=
  at_path report ["attackMetadata"; "primaryFrequency"].

(** [report.legalEvidence.chainOfCustody[0].checksumSHA256] *)
Definition checksumSHA256 (report : value) : value :=
  match at_path report ["legalEvidence"; "chainOfCustody"] with
  | VArr (entry :: _) => opt_prop entry "checksumSHA256"
  | _ => VUndefined
  end.

End Forensics.

(* ===================================================================== *)
(** ** storage.ts: the listing and search methods of MemStorage *)
(* ===================================================================== *)

Module Queries.
Import JS Storage.
Local Open Scope string_scope.

(** The keys of a map, in ascending order. *)
Definition keys (t : Table) : list Z :=
  merge_sort Z.le (map fst (map_to_list (rows t))).

(** [Array.from(this.xs.values())].  A [Map] iterates in insertion order.  A
    key enters one of these maps as the value of the map's counter, so after
    every key it holds, and [set] on a key that is present keeps the place of
    the key: the rows are listed by ascending key.  ([insertion_order] below
    follows the order of the [Map] itself along a run.) *)
Definition values (t : Table) : list obj :=
  omap (fun k => rows t !! k) (keys t).

(** [this.xs.get(v)] looks [v] up among integer keys: only a number with an
    integer value can find a row. *)
Definition key_of (v : value) : option Z :=
  match v with
  | VNum (Num q) => if Qeq_bool q (inject_Z (Qfloor q)) then Some (Qfloor q) else None
  | _ => None
  end.

(** SameValueZero, the comparison of [Array.prototype.includes]. *)
Definition same_value_zero (a b : value) : bool :=
  match a, b with
  | VNum NaN, VNum NaN => true
  | _, _ => strict_eq a b
  end.

(** [l.includes(x)] *)
Definition includes (l : list value) (x : value) : bool :=
  existsb (fun y => same_value_zero y x) l.

Definition getUsers (st : MemStorage) : list obj := values (users st).

Definition getUserByUsername (st : MemStorage) (username : value) : option obj :=
  List.find (fun user => strict_eq (get user "username") username) (values (users st)).

Definition getUserByEmail (st : MemStorage) (email : value) : option obj :=
  List.find (fun user => strict_eq (get user "email") email) (values (users st)).

Definition getUserSubscription (st : MemStorage) (userId : value) : option obj :=
  List.find (fun sub => strict_eq (get sub "userId") userId) (values (subscriptions st)).

Definition getAllSubscriptions (st : MemStorage) : list obj := values (subscriptions st).

Definition getReports (st : MemStorage) : list obj := values (reports st).

Definition getUserReports (st : MemStorage) (userId : value) : list obj :=
  filter (fun report => strict_eq (get report "userId") userId = true) (values (reports st)).

Definition getBlockedFrequencies (st : MemStorage) : list obj :=
  values (blockedFrequencies st).

Definition getUserBlockedFrequencies (st : MemStorage) (userId : value) : list obj :=
  filter (fun freq => strict_eq (get freq "userId") userId = true)
         (values (blockedFrequencies st)).

Definition getChatbotSettings (st : MemStorage) : option obj := chatbotSettings st.

Definition getMeshDevices (st : MemStorage) : list obj := values (meshDevices st).

Definition getUserMeshDevices (st : MemStorage) (userId : value) : list obj :=
  filter (fun device => strict_eq (get device "userId") userId = true)
         (values (meshDevices st)).

Definition getMobileDevices (st : MemStorage) : list obj := values (mobileDevices st).

Definition getUserMobileDevices (st : MemStorage) (userId : value) : list obj :=
  filter (fun device => strict_eq (get device "userId") userId = true)
         (values (mobileDevices st)).

(** [const userDevices = await this.getUserMobileDevices(userId);
     const deviceIds = userDevices.map(device => device.id);
     return Array.from(this.mobileAlerts.values()).filter(alert =>
       deviceIds.includes(alert.mobileDeviceId))] *)
Definition getMobileAlerts (st : MemStorage) (userId : value) : list obj :=
  let userDevices := getUserMobileDevices st userId in
  let deviceIds := map (fun device => get device "id") userDevices in
  filter (fun alert => includes deviceIds (get alert "mobileDeviceId") = true)
         (values (mobileAlerts st)).

(** Every key of the map lies below its counter. *)
Definition below_counter (t : Table) : Prop :=
  ∀ k, is_Some (rows t !! k) → k < counter t.

(** *** The iteration order of the maps along a run *)






(** *** Rows that carry their key *)

(** The [id] property of every row is the key the row is stored under. *)
Definition ids_match_keys (st : MemStorage) : Prop :=
  ∀ (e : entity) (k : Z) (row : obj), rows (tbl e st) !! k = Some row → get row "id" = VInt k.

(** The object an update operation spreads over the stored row. *)
Definition update_payload (o : op) : option obj :=
  match o with
  | UpdateUser _ d | UpdateSubscription _ d _ | UpdateReport _ d
  | UpdateBlockedFrequency _ d | UpdateMeshDevice _ d _ | UpdateMobileDevice _ d _
  | UpdateMobileAlert _ d => Some d
  | MarkMobileAlertAsRead _ => Some [("read", VBool true)]
  | _ => None
  end.

(** No update of the run names [id] in its payload. *)
Definition keeps_ids (ops : list op) : Prop :=
  Forall (fun o => ∀ d, update_payload o = Some d → own d "id" = None) ops.

End Queries.

(* ===================================================================== *)
(** ** routes.ts: users, listings, subscriptions, device upkeep, alerts *)
(* ===================================================================== *)

Module Api.
Import JS Storage Auth Routes Queries.
Local Open Scope string_scope.

(** *** Numbers *)

Definition num_sub (a b : num) : num :=
  match a, b with Num x, Num y => Num (x - y)%Q | _, _ => NaN end.

(** [Math.max(a, b)] *)
Definition Math_max (a b : num) : num :=
  match a, b with
  | Num x, Num y => if Qle_bool x y then Num y else Num x
  | _, _ => NaN
  end.

(** [a >= b] *)
Definition num_ge (a b : num) : bool :=
  match a, b with Num x, Num y => Qle_bool y x | _, _ => false end.

(** [typeof v === 'number'] *)
Definition is_number (v : value) : bool :=
  match v with VNum _ => true | _ => false end.

(** [Array.isArray(v)] *)
Definition Array_isArray (v : value) : bool :=
  match v with VArr _ => true | _ => false end.

(** [Object.values(UserRole)] *)
Definition UserRole_values : list value := [VStr UserRole_USER; VStr UserRole_ADMIN].

Definition SubscriptionPlan_TRIAL : string := "TRIAL".

Definition day : Z := 24 * 60 * 60 * 1000.

(** [res.json(rows)] for a list of rows. *)
Definition json_rows (l : list obj) : Response := json 200 (VArr (map VObj l)).

(** [storage.updateUser(userId, data)] where [userId] is the result of
    [parseInt], [NaN] included: no key is [NaN]. *)
Definition updateUser_at (st : MemStorage) (userId : option Z) (data : obj)
  : MemStorage * option obj :=
  match userId with
  | Some id => updateUser st id data
  | None => (st, None)
  end.

(** [storage.updateSubscription(subscription.id, data)] *)
Definition updateSubscription_of (st : MemStorage) (subscription data : obj) (now : Z)
  : MemStorage * option obj :=
  match key_of (get subscription "id") with
  | Some id => updateSubscription st id data now
  | None => (st, None)
  end.

(** [res.json(x)] where [x] may be [undefined]. *)
Definition json_optional (x : option obj) : Response :=
  json 200 (match x with Some o => VObj o | None => VUndefined end).

Section Handlers.

(** ToNumber on strings and on objects, ToString on values other than
    strings, and [Date.prototype.toISOString] on a valid date. *)
Variable StringToNumber : string → num.
Variable ObjectToNumber : value → num.
Variable ToString : value → string.
Variable toISOString : Z → string.

Definition to_number : value → num := Relay.to_number StringToNumber ObjectToNumber.

(** *** Users *)

(** [router.get('/users', isAuthenticated, hasRole([UserRole.ADMIN]), ...)] *)
Definition get_users_handler (st : MemStorage) (req : Request) : MemStorage * Response :=
  try_catch false (message "Failed to fetch users")
    (st, inl (json 200 (VArr (map (fun user => VObj (without "password" user))
                                  (getUsers st))))).

(** [router.patch('/users/:id/role', isAuthenticated, hasRole([UserRole.ADMIN]), ...)] *)
Definition patch_user_role_handler (st : MemStorage) (req : Request)
  : MemStorage * Response :=
  try_catch false (message "Failed to update user role")
    (let userId := parseInt (param_id req) in
     match prop (body req) "role" with
     | None => (st, inr TypeError)
     | Some role =>
         if negb (truthy role) || negb (includes UserRole_values role)
         then (st, inl (json 400 (message "Invalid role")))
         else match updateUser_at st userId [("role", role)] with
              | (st', None) => (st', inl (json 404 (message "User not found")))
              | (st', Some user) => (st', inl (json 200 (VObj (without "password" user))))
              end
     end).

(** *** Listings *)

(** [req.user?.role === UserRole.ADMIN ? await storage.getXs()
       : await storage.getUserXs(req.user!.id)], then [res.json]. *)
Definition listing (all : MemStorage → list obj) (mine : MemStorage → value → list obj)
    (st : MemStorage) (req : Request) : attempt :=
  match user req with
  | None => (st, inr TypeError)
  | Some u =>
      if strict_eq (get u "role") (VStr UserRole_ADMIN)
      then (st, inl (json_rows (all st)))
      else (st, inl (json_rows (mine st (get u "id"))))
  end.

(** [router.get('/blocked-frequencies', forceEmergencyAuth, ...)] *)
Definition get_blocked_frequencies_handler (st : MemStorage) (req : Request)
  : MemStorage * Response :=
  try_catch false (message "Failed to get blocked frequencies")
    (listing getBlockedFrequencies getUserBlockedFrequencies st req).

(** [router.get('/reports', isAuthenticated, ...)] *)
Definition get_reports_handler (st : MemStorage) (req : Request) : MemStorage * Response :=
  try_catch false (message "Failed to get reports")
    (listing getReports getUserReports st req).

(** [app.get('/api/mobile-devices', isAuthenticated, ...)] *)
Definition get_mobile_devices_handler (st : MemStorage) (req : Request)
  : MemStorage * Response :=
  try_catch false (error "Failed to fetch mobile devices")
    (listing getMobileDevices getUserMobileDevices st req).

(** *** Subscriptions *)

(** [router.get('/my-subscription', isAuthenticated, ...)] *)
Definition my_subscription_handler (st : MemStorage) (req : Request)
  : MemStorage * Response :=
  try_catch false (message "Failed to fetch subscription")
    match user req with
    | None => (st, inr TypeError)
    | Some u =>
        match getUserSubscription st (get u "id") with
        | None => (st, inl (json 404 (message "No subscription found")))
        | Some subscription => (st, inl (json 200 (VObj subscription)))
        end
    end.

(** [router.post('/subscribe', isAuthenticated, ...)] *)
Definition subscribe_handler (now : clock) (st : MemStorage) (req : Request)
  : MemStorage * Response :=
  try_catch false (message "Failed to process subscription")
    match prop (body req) "plan" with
    | None => (st, inr TypeError)
    | Some plan =>
        if negb (truthy plan) then (st, inl (json 400 (message "Plan is required")))
        else
          match user req with
          | None => (st, inr TypeError)
          | Some u =>
              match getUserSubscription st (get u "id") with
              | Some subscription =>
                  let '(st', updated) :=
                    updateSubscription_of st subscription
                      [ ("plan", plan);
                        ("active", VBool true);
                        ("startDate", VDate (now 0%nat));
                        ("endDate", VDate (now 1%nat + 30 * day));
                        ("paymentStatus", VStr "paid") ]
                      (now 2%nat) in
                  (st', inl (json_optional updated))
              | None =>
                  let '(st', created) :=
                    createSubscription st
                      [ ("userId", get u "id");
                        ("plan", plan);
                        ("active", VBool true);
                        ("startDate", VDate (now 0%nat));
                        ("endDate", VDate (now 1%nat + 30 * day));
                        ("trialUsed", VBool false);
                        ("trialStartDate", VNull);
                        ("trialEndDate", VNull);
                        ("paymentStatus", VStr "paid");
                        ("autoRenew", VBool true) ]
                      (now 2%nat) (now 3%nat) in
                  (st', inl (json 200 (VObj created)))
              end
          end
    end.

(** [router.post('/start-trial', isAuthenticated, ...)] *)
Definition start_trial_handler (now : clock) (st : MemStorage) (req : Request)
  : MemStorage * Response :=
  try_catch false (message "Failed to start trial")
    match user req with
    | None => (st, inr TypeError)
    | Some u =>
        match getUserSubscription st (get u "id") with
        | Some existingSubscription =>
            if truthy (get existingSubscription "trialUsed")
            then (st, inl (json 400 (message "Trial already used")))
            else
              let '(st', updated) :=
                updateSubscription_of st existingSubscription
                  [ ("plan", VStr SubscriptionPlan_TRIAL);
                    ("active", VBool true);
                    ("trialUsed", VBool true);
                    ("trialStartDate", VDate (now 0%nat));
                    ("trialEndDate", VDate (now 1%nat + day));
                    ("startDate", VDate (now 2%nat));
                    ("endDate", VDate (now 3%nat + day));
                    ("paymentStatus", VStr "trial") ]
                  (now 4%nat) in
              (st', inl (json_optional updated))
        | None =>
            let '(st', created) :=
              createSubscription st
                [ ("userId", get u "id");
                  ("plan", VStr SubscriptionPlan_TRIAL);
                  ("active", VBool true);
                  ("startDate", VDate (now 0%nat));
                  ("endDate", VDate (now 1%nat + day));
                  ("trialUsed", VBool true);
                  ("trialStartDate", VDate (now 2%nat));
                  ("trialEndDate", VDate (now 3%nat + day));
                  ("paymentStatus", VStr "trial");
                  ("autoRenew", VBool false) ]
                (now 4%nat) (now 5%nat) in
            (st', inl (json 200 (VObj created)))
        end
    end.

(** *** Mesh devices: refresh *)

(** [Math.max(1, Math.min(100, currentBatteryLevel - Math.floor(Math.random() * 5)))] *)
Definition refreshed_battery (currentBatteryLevel : value) (random : Q) : num :=
  Math_max (Relay.int 1)
    (Relay.Math_min (Relay.int 100)
       (num_sub (to_number currentBatteryLevel)
                (Relay.Math_floor (Relay.num_mul (Num random) (Relay.int 5))))).

(** [router.post('/mesh-devices/:id/refresh', isAuthenticated, ...)] *)
Definition refresh_mesh_device_handler (now : clock) (random : Q) (st : MemStorage)
    (req : Request) : MemStorage * Response :=
  try_catch false (message "Failed to refresh device")
    (owned_row message "Invalid device ID" "Device not found" getMeshDevice st req
       (fun id device =>
          let currentBatteryLevel := nullish_or (get device "batteryLevel") (VInt 100) in
          let batteryLevel := refreshed_battery currentBatteryLevel random in
          match updateMeshDevice st id
                  [ ("lastSeen", VDate (now 0%nat));
                    ("batteryLevel", VNum batteryLevel);
                    ("active", VBool (num_ge batteryLevel (Relay.int 15))) ]
                  (now 1%nat) with
          | (st', None) => (st', inl (json 404 (message "Device not found")))
          | (st', Some updatedDevice) => (st', inl (json 200 (VObj updatedDevice)))
          end)).

(** *** Mobile devices: location and tracking *)

(** [device.locationHistory
       ? [locationData, ...(Array.isArray(device.locationHistory)
                             ? device.locationHistory.slice(0, 99) : [])]
       : [locationData]] *)
Definition next_history (locationHistory locationData : value) : value :=
  if truthy locationHistory
  then VArr (locationData ::
             match locationHistory with VArr items => take 99 items | _ => [] end)
  else VArr [locationData].

(** [app.post('/api/mobile-devices/:id/location', isAuthenticated, ...)];
    [new Date()] is a reading of the system clock, hence a valid date. *)
Definition post_mobile_device_location_handler (now : clock) (st : MemStorage)
    (req : Request) : MemStorage * Response :=
  try_catch false (error "Failed to update device location")
    (owned_row error "Invalid device ID" "Mobile device not found" getMobileDevice st req
       (fun id device =>
          match prop (body req) "latitude" with
          | None => (st, inr TypeError)
          | Some latitude =>
              let field k := opt_prop (body req) k in
              let longitude := field "longitude" in
              if negb (is_number latitude) || negb (is_number longitude)
              then (st, inl (json 400 (error "Invalid location data")))
              else
                let stamped := truthy (field "timestamp") in
                let locationData :=
                  VObj [ ("latitude", latitude);
                         ("longitude", longitude);
                         ("accuracy", or_else (field "accuracy") VNull);
                         ("timestamp",
                          or_else (field "timestamp") (VStr (toISOString (now 0%nat))));
                         ("altitude", or_else (field "altitude") VNull);
                         ("speed", or_else (field "speed") VNull);
                         ("heading", or_else (field "heading") VNull) ] in
                let st' :=
                  (updateMobileDevice st id
                     [ ("lastLocation", locationData);
                       ("locationHistory",
                        next_history (get device "locationHistory") locationData) ]
                     (now (if stamped then 0 else 1)%nat)).1 in
                (st', inl (json 200 (VObj [ ("success", VBool true);
                                            ("location", locationData) ])))
          end)).

(** The string [parseInt] reads from its argument. *)
Definition to_string (v : value) : string :=
  match v with VStr s => s | _ => ToString v end.

(** The object built in [updateData] by the three [if] statements of the
    tracking route; [None] when the interval is refused. *)
Definition tracking_update (device : obj) (payload : value) : option obj :=
  let trackingEnabled := opt_prop payload "trackingEnabled" in
  let trackingInterval := opt_prop payload "trackingInterval" in
  let trackingPurpose := opt_prop payload "trackingPurpose" in
  let updateData1 :=
    match trackingEnabled with
    | VUndefined => []
    | _ =>
        let enabled := set_prop "trackingEnabled" trackingEnabled [] in
        if truthy trackingEnabled && negb (truthy (get device "locationSharing"))
        then set_prop "locationSharing" (VBool true) enabled
        else enabled
    end in
  let updateData2 :=
    match trackingInterval with
    | VUndefined => Some updateData1
    | _ =>
        match parseInt (to_string trackingInterval) with
        | None => None
        | Some interval =>
            if ((interval <? 10) || (600 <? interval))%Z then None
            else Some (set_prop "trackingInterval" (VInt interval) updateData1)
        end
    end in
  match updateData2 with
  | None => None
  | Some updateData =>
      Some (match trackingPurpose with
            | VUndefined => updateData
            | _ => set_prop "trackingPurpose" trackingPurpose updateData
            end)
  end.

(** [app.put('/api/mobile-devices/:id/tracking', isAuthenticated, ...)] *)
Definition put_mobile_device_tracking_handler (now : clock) (st : MemStorage)
    (req : Request) : MemStorage * Response :=
  try_catch false (error "Failed to update tracking settings")
    (owned_row error "Invalid device ID" "Mobile device not found" getMobileDevice st req
       (fun id device =>
          match prop (body req) "trackingEnabled" with
          | None => (st, inr TypeError)
          | Some _ =>
              match tracking_update device (body req) with
              | None =>
                  (st, inl (json 400
                     (error "Tracking interval must be between 10 and 600 seconds")))
              | Some updateData =>
                  match updateMobileDevice st id updateData (now 0%nat) with
                  | (st', None) => (st', inl (json 404 (error "Device not found")))
                  | (st', Some updatedDevice) =>
                      (st', inl (json 200 (VObj
                         [ ("trackingEnabled", get updatedDevice "trackingEnabled");
                           ("trackingInterval", get updatedDevice "trackingInterval");
                           ("trackingPurpose", get updatedDevice "trackingPurpose");
                           ("locationSharing", get updatedDevice "locationSharing") ])))
                  end
              end
          end)).

(** *** Mobile alerts *)

(** [app.get('/api/mobile-alerts', isAuthenticated, ...)] *)
Definition get_mobile_alerts_handler (st : MemStorage) (req : Request)
  : MemStorage * Response :=
  try_catch false (error "Failed to fetch mobile alerts")
    match user req with
    | None => (st, inr TypeError)
    | Some u => (st, inl (json_rows (getMobileAlerts st (get u "id"))))
    end.

(** [app.get('/api/mobile-alerts/:id', isAuthenticated, ...)] *)
Definition get_mobile_alert_handler (st : MemStorage) (req : Request)
  : MemStorage * Response :=
  try_catch false (error "Failed to fetch mobile alert")
    match parseInt (param_id req) with
    | None => (st, inl (json 400 (error "Invalid alert ID")))
    | Some id =>
        match getMobileAlert st id with
        | None => (st, inl (json 404 (error "Mobile alert not found")))
        | Some alert =>
            let st' :=
              if negb (truthy (get alert "read")) then (markMobileAlertAsRead st id).1
              else st in
            (st', inl (json 200 (VObj alert)))
        end
    end.

(** [app.post('/api/mobile-alerts', isAuthenticated, ...)] *)
Definition post_mobile_alert_handler (now : clock) (st : MemStorage) (req : Request)
  : MemStorage * Response :=
  try_catch false (error "Failed to create mobile alert")
    match user req with
    | None => (st, inr TypeError)
    | Some u =>
        let alertData := set_prop "userId" (get u "id") (spread [] (own_props (body req))) in
        let '(st', result) := createMobileAlert st alertData (now 0%nat) (now 1%nat) in
        (st', inl (json 201 (VObj result)))
    end.

(** [app.put('/api/mobile-alerts/:id/read', isAuthenticated, ...)] *)
Definition put_mobile_alert_read_handler (st : MemStorage) (req : Request)
  : MemStorage * Response :=
  try_catch false (error "Failed to mark alert as read")
    match parseInt (param_id req) with
    | None => (st, inl (json 400 (error "Invalid alert ID")))
    | Some id =>
        match markMobileAlertAsRead st id with
        | (st', None) => (st', inl (json 404 (error "Mobile alert not found")))
        | (st', Some updatedAlert) => (st', inl (json 200 (VObj updatedAlert)))
        end
    end.

(** [app.delete('/api/mobile-alerts/:id', isAuthenticated, ...)] *)
Definition delete_mobile_alert_handler (st : MemStorage) (req : Request)
  : MemStorage * Response :=
  try_catch false (error "Failed to delete mobile alert")
    match parseInt (param_id req) with
    | None => (st, inl (json 400 (error "Invalid alert ID")))
    | Some id =>
        let '(st', deleted) := deleteMobileAlert st id in
        if deleted then (st', inl no_content)
        else (st', inl (json 404 (error "Mobile alert not found")))
    end.

(** *** The routes with their middlewares *)

Definition GET_users := serve [isAuthenticated; hasRole [UserRole_ADMIN]] get_users_handler.
Definition PATCH_user_role :=
  serve [isAuthenticated; hasRole [UserRole_ADMIN]] patch_user_role_handler.
Definition GET_blocked_frequencies := serve [forceEmergencyAuth] get_blocked_frequencies_handler.
Definition GET_reports := serve [isAuthenticated] get_reports_handler.
Definition GET_mobile_devices := serve [isAuthenticated] get_mobile_devices_handler.
Definition GET_my_subscription := serve [isAuthenticated] my_subscription_handler.
Definition POST_subscribe (now : clock) := serve [isAuthenticated] (subscribe_handler now).
Definition POST_start_trial (now : clock) := serve [isAuthenticated] (start_trial_handler now).
Definition POST_mesh_device_refresh (now : clock) (random : Q) :=
  serve [isAuthenticated] (refresh_mesh_device_handler now random).
Definition POST_mobile_device_location (now : clock) :=
  serve [isAuthenticated] (post_mobile_device_location_handler now).
Definition PUT_mobile_device_tracking (now : clock) :=
  serve [isAuthenticated] (put_mobile_device_tracking_handler now).
Definition GET_mobile_alerts := serve [isAuthenticated] get_mobile_alerts_handler.
Definition GET_mobile_alert := serve [isAuthenticated] get_mobile_alert_handler.
Definition POST_mobile_alert (now : clock) := serve [isAuthenticated] (post_mobile_alert_handler now).
Definition PUT_mobile_alert_read := serve [isAuthenticated] put_mobile_alert_read_handler.
Definition DELETE_mobile_alert := serve [isAuthenticated] delete_mobile_alert_handler.

End Handlers.

(** The value holds a [password] property, at top level or in one of the
    objects of an array. *)
Definition exposes_password (v : value) : bool :=
  match v with
  | VObj o => bool_decide (is_Some (own o "password"))
  | VArr items =>
      existsb (fun item => match item with
                           | VObj o => bool_decide (is_Some (own o "password"))
                           | _ => false
                           end) items
  | _ => false
  end.

(** The row is an element of the array the response carries. *)
Definition listed (res : Response) (row : obj) : Prop :=
  match payload res with
  | VArr items => VObj row ∈ items
  | _ => False
  end.

End Api.

(* ===================================================================== *)
(** ** routes.ts: delivery of the relayed messages *)
(* ===================================================================== *)

Module Delivery.
Import JS Relay.
Local Open Scope string_scope.

(** The [case] labels of [switch (data.type)], in the order of the source;
    ['extreme_neutralizer_deployed'] labels two cases, of which the second can
    never be selected. *)
Definition case_labels : list string :=
  [ "ping"; "frequency_detected"; "emergency_anti_laser_sonic";
    "extreme_neutralizer_deployed"; "grudge_message"; "neutralize_frequency";
    "mesh_message"; "mesh_neutralize_frequency"; "set_attacker_volume";
    "deploy_todrick_hall"; "alert_config_update"; "alert_config_delete";
    "extreme_neutralizer_deployed"; "extreme_neutralizer_activated" ].

(** The replies of the [default] case and of the [catch] clause. *)
Definition unknown_message_type : value :=
  VObj [("type", VStr "error"); ("message", VStr "Unknown message type")].

Definition invalid_message_format : value :=
  VObj [("type", VStr "error"); ("message", VStr "Invalid message format")].

(** The sockets a broadcast reaches: the open members of [wss.clients]. *)
Definition open_clients (st : Server) : list socket :=
  filter (fun c => is_open st c = true) (wss_clients st).

(** What the handler does to the entry of the sender in [connectedClients]:
    [clientInfo.lastActive = new Date();
     if (data.location) clientInfo.location = data.location]. *)
Definition refreshed (now : Z) (data : value) (info : obj) : obj :=
  let info1 := set_prop "lastActive" (VDate now) info in
  if truthy (opt_prop data "location")
  then set_prop "location" (opt_prop data "location") info1
  else info1.

(** From [st] to [st'] the handler of socket [ws] has only sent messages and
    set timers: the sockets, their states and the client entries are the
    same, and each new message goes to [ws] or to an open socket. *)
Definition appends (ws : socket) (st st' : Server) : Prop :=
  wss_clients st' = wss_clients st
  ∧ readyState st' = readyState st
  ∧ connectedClients st' = connectedClients st
  ∧ (∃ more, timers st' = (timers st ++ more)%list)
  ∧ ∃ new, sent st' = (sent st ++ new)%list
           ∧ ∀ c m, (c, m) ∈ new → c = ws ∨ readyState st c = OPEN.

Definition tame {A} (ws : socket) (m : M A) : Prop :=
  ∀ st, appends ws st (m st).1.

End Delivery.

(* ===================================================================== *)
(** ** ADSDestroyerController: the register of deployments *)
(* ===================================================================== *)

Module Deployments.
Import JS ADS.
Local Open Scope string_scope.

(** [this.activeDeployments.get(k)] *)
Fixpoint map_get {V} (k : string) (m : list (string * V)) : option V :=
  match m with
  | [] => None
  | (k', v) :: rest => if String.eqb k' k then Some v else map_get k rest
  end.

(** [this.activeDeployments.delete(k)] (the keys of a [Map] are distinct). *)
Definition map_delete {V} (k : string) (m : list (string * V)) : list (string * V) :=
  filter (fun kv => fst kv ≠ k) m.

(** [Array.from(this.activeDeployments.values())] *)
Definition getActiveDeployments (c : Controller) : list (outcome ADSCountermeasureDeployment) :=
  map snd (activeDeployments c).

(** [deactivateCountermeasures(threatType?)]: the argument is tested for
    truthiness, so a missing one and the empty string both clear the map. *)
Definition deactivateCountermeasures (threatType : option string) (c : Controller)
  : Controller * bool :=
  let deployments :=
    match threatType with
    | Some t => if String.eqb t "" then [] else map_delete t (activeDeployments c)
    | None => []
    end in
  ({| isActive := (0 <? length deployments)%nat; activeDeployments := deployments |}, true).

Record SystemStatus := {
  active : bool;
  julia_available : bool;
  active_deployments : nat;
  threat_types : list string
}.

Definition getSystemStatus (c : Controller) : SystemStatus :=
  {| active := isActive c;
     julia_available := true;
     active_deployments := length (activeDeployments c);
     threat_types := map fst (activeDeployments c) |}.

Definition emergencyStop (c : Controller) : Controller :=
  {| isActive := false; activeDeployments := [] |}.

(** Calls of the public methods that change the controller, each one run to
    the end (for a deployment: until the child has emitted all its events and
    the timer has fired). *)
Inductive call :=
| Deploy (random : nat → float) (now : nat → string) (availability deployment : spawn_run)
         (threatType : string)
| Deactivate (threatType : option string)
| EmergencyStop.

Section Calls.

Variable JSON_parse : string → option value.

Definition perform (c : Controller) (k : call) : Controller :=
  match k with
  | Deploy random now availability deployment threatType =>
      (deployCountermeasures JSON_parse random now availability deployment threatType c).1
  | Deactivate threatType => (deactivateCountermeasures threatType c).1
  | EmergencyStop => emergencyStop c
  end.

End Calls.

(** The flag agrees with the register, whose keys are distinct. *)
Definition consistent (c : Controller) : Prop :=
  isActive c = (0 <? length (activeDeployments c))%nat
  ∧ NoDup (map fst (activeDeployments c)).

End Deployments.

(* ===================================================================== *)
(** ** Concrete inputs used by the examples below *)
(* ===================================================================== *)

Module Samples.
Import JS.
Local Open Scope string_scope.

(** A report payload whose optional description is the empty string. *)
Definition report_with_empty_description : obj :=
  [ ("userId", VInt 1); ("title", VStr "Tone at 3.5 kHz"); ("description", VStr "") ].

(** A report payload with a description and a timestamp. *)
Definition full_report : obj :=
  [ ("userId", VInt 1); ("title", VStr "Tone at 3.5 kHz");
    ("description", VStr "steady tone"); ("timestamp", VDate 1700000000000) ].

(** A request for [/:id] routes. *)
Definition request (id : string) (payload : value) : Auth.Request :=
  {| Auth.headers := []; Auth.session := VUndefined; Auth.param_id := id;
     Auth.body := payload; Auth.user := None |}.


(** A zod schema stand-in that accepts every object as it is. *)
Definition accept_objects (s : Routes.schema) (v : value) : Routes.parsed :=
  match v with
  | VObj o => Routes.Valid o
  | _ => Routes.Invalid "Expected object"
  end.

(** *** The relay *)

(** Stand-ins for the conversions of the engine that the examples never
    reach: every non-number converts to [NaN], every value prints as [?]. *)
Definition no_number_of_string (s : string) : num := NaN.
Definition no_number_of_object (v : value) : num := NaN.
Definition question_mark (v : value) : string := "?".

(** A stand-in for [JSON.parse] that knows the three literals and rejects
    every other text; it agrees with [JSON.parse] on the texts used below. *)
Definition parse_literals (s : string) : option value :=
  if String.eqb s "null" then Some VNull
  else if String.eqb s "true" then Some (VBool true)
  else if String.eqb s "false" then Some (VBool false)
  else None.

Definition client_info (id : string) : obj :=
  [ ("id", VStr id); ("connectedAt", VDate 0); ("lastActive", VDate 0);
    ("role", VStr "user"); ("name", VStr "Device 1"); ("deviceType", VStr "unknown") ].

(** Three sockets: 0 and 1 are open, 2 has been closed by its peer (it left
    [wss.clients], and its entry stays in [connectedClients]). *)
Definition three_clients : Relay.Server :=
  {| Relay.wss_clients := [0; 1]%nat;
     Relay.readyState := λ c, if (c <? 2)%nat then Relay.OPEN else Relay.CLOSED;
     Relay.connectedClients :=
       [ (0%nat, client_info "client_a"); (1%nat, client_info "client_b");
         (2%nat, client_info "client_c") ];
     Relay.sent := [];
     Relay.timers := [] |}.



(** *** The forensics analyzer *)

(** Stand-ins for [Date.prototype.toISOString] and for SHA-256: the time value
    in decimal, and the text itself. *)
Definition decimal_time (ms : Z) : string := pretty ms.
Definition plain_digest (text : string) : string := text.

Definition recording_a : Forensics.ForensicRecording :=
  {| Forensics.recordingId := "rec-0001"; Forensics.timestamp := 1700000000000;
     Forensics.duration := 30; Forensics.audioFileUrl := "/recordings/a.wav";
     Forensics.fileSize := 4320000; Forensics.format := "audio/wav" |}.

(** Same id and timestamp as [recording_a], another capture altogether. *)
Definition recording_b : Forensics.ForensicRecording :=
  {| Forensics.recordingId := "rec-0001"; Forensics.timestamp := 1700000000000;
     Forensics.duration := 5; Forensics.audioFileUrl := "/recordings/b.ogg";
     Forensics.fileSize := 81234; Forensics.format := "audio/ogg" |}.

End Samples.

(* ===================================================================== *)
(** ** Further concrete inputs *)
(* ===================================================================== *)

Module Cases.
Import JS Storage.
Local Open Scope string_scope.

(** A phone registered by user 999, and an alert raised on it. *)
Definition phone : obj :=
  [ ("userId", VInt 999); ("deviceId", VStr "phone-1"); ("name", VStr "Phone");
    ("type", VStr "android"); ("status", VStr "online") ].

Definition alert_for_phone : obj :=
  [ ("mobileDeviceId", VInt 1); ("title", VStr "Tone detected");
    ("description", VStr "18.5 kHz"); ("type", VStr "sonic"); ("severity", VStr "high") ].

Definition phone_and_alert : list op :=
  [CreateMobileDevice phone 3 4 5; CreateMobileAlert alert_for_phone 6 7].

Definition store_with_alert : MemStorage := run phone_and_alert (constructor 1 2).

(** A paid subscription of user 999 that has not used its trial. *)
Definition basic_subscription : obj :=
  [ ("userId", VInt 999); ("plan", VStr "BASIC"); ("status", VStr "active");
    ("startDate", VDate 0) ].

Definition subscribed : list op := [CreateSubscription basic_subscription 3 4].

(** A mesh sensor at half charge. *)
Definition sensor : obj :=
  [ ("userId", VInt 999); ("deviceId", VStr "hub-001"); ("name", VStr "Hub");
    ("type", VStr "primary"); ("batteryLevel", VInt 50) ].

Definition store_with_sensor : MemStorage :=
  run [CreateMeshDevice sensor 3 4 5] (constructor 1 2).

(** The store with the phone of user 999 alone. *)
Definition store_with_phone : MemStorage :=
  run [CreateMobileDevice phone 3 4 5] (constructor 1 2).

(** A position, and a request to track every 30 seconds. *)
Definition position : value :=
  VObj [ ("latitude", VNum (Num (515074 # 10000))); ("longitude", VNum (Num (-1278 # 10000))) ].

Definition track_every_30s : value :=
  VObj [ ("trackingEnabled", VBool true); ("trackingInterval", VStr "30") ].

(** Stand-ins for the conversions of the engine that the examples never
    reach. *)
Definition nan_of_string (s : string) : num := NaN.
Definition nan_of_object (v : value) : num := NaN.
Definition no_text (v : value) : string := "".
Definition iso (ms : Z) : string := pretty ms.

End Cases.

Module Traffic.
Import JS Relay.
Local Open Scope string_scope.


(** [{ type: 'alert_config_update' }], with no [config]. *)
Definition bare_config_update : obj := [ ("type", VStr "alert_config_update") ].

(** [{ type: 'status', location: { latitude: 51, longitude: 0 } }] *)
Definition located_status : obj :=
  [ ("type", VStr "status");
    ("location", VObj [ ("latitude", VInt 51); ("longitude", VInt 0) ]) ].

End Traffic.

Module Fleet.
Import JS Mesh.
Local Open Scope string_scope.

(** Devices 1, 2 and 3 registered on the sockets 0, 1 and 2 of
    [Samples.three_clients] (socket 2 is closed); the store holds the mesh
    device 1. *)
Definition three_devices : MeshController :=
  {| devices := [("1", 0%nat); ("2", 1%nat); ("3", 2%nat)];
     wire := Samples.three_clients;
     store := Cases.store_with_sensor |}.



(** [{ type: 'TRIANGULATION_DATA', coordinates: [51, 0] }] *)
Definition triangulation : value :=
  VObj [ ("type", VStr "TRIANGULATION_DATA"); ("coordinates", VArr [VInt 51; VInt 0]) ].

End Fleet.

(* ===================================================================== *)
(** * Properties *)
(* ===================================================================== *)

(** ** Objects *)

Module JSFacts.
Import JS.

Lemma own_set_prop_eq k v o : own (set_prop k v o) k = Some v.
Proof.
  induction o as [|[k' v'] rest IH]; simpl.
  - by rewrite String.eqb_refl.
  - destruct (String.eqb k' k) eqn:E; simpl; rewrite E; done.
Qed.

Lemma own_set_prop_ne k k' v o : k ≠ k' → own (set_prop k v o) k' = own o k'.
Proof.
  intros Hne. induction o as [|[k0 v0] rest IH]; simpl.
  - destruct (String.eqb k k') eqn:E; [|done].
    apply String.eqb_eq in E. congruence.
  - destruct (String.eqb k0 k) eqn:E; simpl; [|by rewrite IH].
    apply String.eqb_eq in E. subst k0.
    destruct (String.eqb k k') eqn:E'; [|done].
    apply String.eqb_eq in E'. congruence.
Qed.

(** [{ ...o, ...src }] keeps the properties of [o] that [src] does not name,
    and takes the others from [src] (the last occurrence wins). *)
Lemma own_spread_absent o src k : own src k = None → own (spread o src) k = own o k.
Proof.
  unfold spread. revert o. induction src as [|[k0 v0] src IH]; intros o Hk; [done|].
  simpl in *. destruct (String.eqb k0 k) eqn:E; [done|].
  rewrite IH by done. apply own_set_prop_ne. intros ->. by rewrite String.eqb_refl in E.
Qed.

Lemma or_else_truthy a b : truthy a = true → or_else a b = a.
Proof. unfold or_else. by intros ->. Qed.

Lemma or_else_falsy a b : truthy a = false → or_else a b = b.
Proof. unfold or_else. by intros ->. Qed.

End JSFacts.

(** ** MemStorage *)

Module StorageFacts.
Import JS Storage JSFacts.

Lemma tbl_set_tbl e t st : tbl e (set_tbl e t st) = t.
Proof. by destruct st, e. Qed.

Lemma tbl_set_tbl_ne e e' t st : e ≠ e' → tbl e' (set_tbl e t st) = tbl e' st.
Proof. by destruct st, e, e'. Qed.

Lemma set_tbl_same e st : set_tbl e (tbl e st) st = st.
Proof. by destruct st, e. Qed.

Lemma tbl_set_chatbotSettings e c st : tbl e (set_chatbotSettings c st) = tbl e st.
Proof. by destruct st, e. Qed.

(** *** The three primitives *)

Lemma insert_new_rows e mk st k :
  rows (tbl e (insert_new e mk st).1) !! k
  = if decide (counter (tbl e st) = k) then Some (mk (counter (tbl e st)))
    else rows (tbl e st) !! k.
Proof. unfold insert_new. simpl. rewrite tbl_set_tbl. simpl. apply lookup_insert. Qed.

Lemma insert_new_counter e mk st :
  counter (tbl e (insert_new e mk st).1) = counter (tbl e st) + 1.
Proof. unfold insert_new. simpl. by rewrite tbl_set_tbl. Qed.

Lemma insert_new_other e e' mk st :
  e ≠ e' → tbl e' (insert_new e mk st).1 = tbl e' st.
Proof. intros. unfold insert_new. simpl. by rewrite tbl_set_tbl_ne. Qed.

Lemma insert_new_row e mk st : (insert_new e mk st).2 = mk (counter (tbl e st)).
Proof. done. Qed.

Lemma update_row_missing e f id st :
  rows (tbl e st) !! id = None → update_row e f id st = (st, None).
Proof. unfold update_row. by intros ->. Qed.

Lemma update_row_rows e f id st k :
  rows (tbl e (update_row e f id st).1) !! k
  = if decide (id = k) then f <$> rows (tbl e st) !! id else rows (tbl e st) !! k.
Proof.
  unfold update_row. destruct (rows (tbl e st) !! id) as [row|] eqn:E; simpl.
  - rewrite tbl_set_tbl. simpl. rewrite lookup_insert. by case_decide.
  - case_decide; [by subst|done].
Qed.

Lemma update_row_counter e f id st :
  counter (tbl e (update_row e f id st).1) = counter (tbl e st).
Proof.
  unfold update_row. destruct (rows (tbl e st) !! id); [|done].
  simpl. by rewrite tbl_set_tbl.
Qed.

Lemma update_row_other e e' f id st :
  e ≠ e' → tbl e' (update_row e f id st).1 = tbl e' st.
Proof.
  intros. unfold update_row. destruct (rows (tbl e st) !! id); [|done].
  simpl. by rewrite tbl_set_tbl_ne.
Qed.

Lemma delete_row_missing e id st :
  rows (tbl e st) !! id = None → delete_row e id st = (st, false).
Proof.
  intros E. unfold delete_row. rewrite E. f_equal.
  rewrite delete_id by done.
  replace {| rows := rows (tbl e st); counter := counter (tbl e st) |} with (tbl e st)
    by by destruct (tbl e st).
  apply set_tbl_same.
Qed.

Lemma delete_row_rows e id st k :
  rows (tbl e (delete_row e id st).1) !! k
  = if decide (id = k) then None else rows (tbl e st) !! k.
Proof. unfold delete_row. simpl. rewrite tbl_set_tbl. simpl. apply lookup_delete. Qed.

Lemma delete_row_counter e id st :
  counter (tbl e (delete_row e id st).1) = counter (tbl e st).
Proof. unfold delete_row. simpl. by rewrite tbl_set_tbl. Qed.

Lemma delete_row_other e e' id st :
  e ≠ e' → tbl e' (delete_row e id st).1 = tbl e' st.
Proof. intros. unfold delete_row. simpl. by rewrite tbl_set_tbl_ne. Qed.

(** *** Every operation is one of the primitives *)

Lemma step_shape st o : shape st o.
Proof.
  destruct o; simpl;
    first [ by eapply Inserts; [done|done|reflexivity|done]
          | by eapply Updates; [done|done|reflexivity]
          | by eapply Deletes; [done|done|reflexivity]
          | by eapply Configures; [done|done|reflexivity] ].
Qed.


Lemma step_keys_below_counter st o :
  keys_below_counter st → keys_below_counter (step st o).
Proof.
  intros Inv e k.
  destruct (step_shape st o) as [e0 mk _ _ -> _|e0 f id _ _ ->|e0 id _ _ ->|c _ _ ->].
  - destruct (decide (e0 = e)) as [->|Hne].
    + rewrite insert_new_rows, insert_new_counter. case_decide.
      * intros _. lia.
      * intros Hk. apply Inv in Hk. lia.
    + rewrite insert_new_other by done. apply Inv.
  - destruct (decide (e0 = e)) as [->|Hne].
    + rewrite update_row_rows, update_row_counter. case_decide.
      * subst k. rewrite fmap_is_Some. apply Inv.
      * apply Inv.
    + rewrite update_row_other by done. apply Inv.
  - destruct (decide (e0 = e)) as [->|Hne].
    + rewrite delete_row_rows, delete_row_counter. case_decide.
      * by intros [? ?].
      * apply Inv.
    + rewrite delete_row_other by done. apply Inv.
  - rewrite tbl_set_chatbotSettings. apply Inv.
Qed.

Lemma blank_keys_below_counter : keys_below_counter blank.
Proof. intros e k. destruct e; simpl; rewrite lookup_empty; by intros [? ?]. Qed.

Lemma constructor_keys_below_counter t1 t2 : keys_below_counter (constructor t1 t2).
Proof.
  unfold constructor.
  apply (step_keys_below_counter _ (CreateUser admin_user t2)).
  apply (step_keys_below_counter _ (CreateUser demo_user t1)).
  apply blank_keys_below_counter.
Qed.

Lemma run_keys_below_counter ops st :
  keys_below_counter st → keys_below_counter (run ops st).
Proof.
  revert st. induction ops as [|o ops IH]; intros st Inv; [done|].
  simpl. apply IH. by apply step_keys_below_counter.
Qed.



Lemma constructor_as_run t1 t2 :
  constructor t1 t2 = run [CreateUser demo_user t1; CreateUser admin_user t2] blank.
Proof. done. Qed.


(** *** Create, then read back *)

Ltac field_cases H :=
  repeat (apply elem_of_cons in H as [->|H]); [..|by apply elem_of_nil in H].

Lemma getReport_createReport st report createdAt now :
  getReport (createReport st report createdAt now).1 (counter (reports st))
  = Some (createReport st report createdAt now).2.
Proof.
  unfold getReport, get_row, createReport. rewrite insert_new_rows. by case_decide.
Qed.

Lemma getBlockedFrequency_createBlockedFrequency st frequency createdAt :
  getBlockedFrequency (createBlockedFrequency st frequency createdAt).1
    (counter (blockedFrequencies st))
  = Some (createBlockedFrequency st frequency createdAt).2.
Proof.
  unfold getBlockedFrequency, get_row, createBlockedFrequency. rewrite insert_new_rows.
  by case_decide.
Qed.

(** C5 (as amended).  The row returned by [createReport] (resp.
    [createBlockedFrequency]) carries the counter value as [id], and reading
    that id back returns the same row.  In it the required fields are the
    submitted ones, an optional field is the submitted value when that value is
    truthy and the default ([null], [false], or the current time for
    [timestamp]) otherwise, and [createdAt] is the creation time. *)
Theorem create_then_get (st : MemStorage) (report frequency : obj) (createdAt now : Z) :
  (let st' := (createReport st report createdAt now).1 in
   let created := (createReport st report createdAt now).2 in
   get created "id" = VInt (counter (reports st))
   ∧ getReport st' (counter (reports st)) = Some created
   ∧ get created "userId" = get report "userId"
   ∧ get created "title" = get report "title"
   ∧ (∀ k, k ∈ ["description"; "frequencyData"; "locationData"; "deviceData";
                "mlClassification"; "reportData"]%string →
           get created k = if truthy (get report k) then get report k else VNull)
   ∧ get created "timestamp"
     = (if truthy (get report "timestamp") then get report "timestamp" else VDate now)
   ∧ get created "createdAt" = VDate createdAt)
  ∧
  (let st' := (createBlockedFrequency st frequency createdAt).1 in
   let created := (createBlockedFrequency st frequency createdAt).2 in
   get created "id" = VInt (counter (blockedFrequencies st))
   ∧ getBlockedFrequency st' (counter (blockedFrequencies st)) = Some created
   ∧ (∀ k, k ∈ ["userId"; "frequency"; "bandwidth"]%string → get created k = get frequency k)
   ∧ (∀ k, k ∈ ["name"; "description"]%string →
           get created k = if truthy (get frequency k) then get frequency k else VNull)
   ∧ get created "isCustom"
     = (if truthy (get frequency "isCustom") then get frequency "isCustom" else VBool false)
   ∧ get created "createdAt" = VDate createdAt).
Proof.
  split; cbv zeta.
  - split; [done|]. split; [apply getReport_createReport|].
    split; [done|]. split; [done|]. split; [|done].
    intros k Hk. field_cases Hk; reflexivity.
  - split; [done|]. split; [apply getBlockedFrequency_createBlockedFrequency|].
    split; [intros k Hk; field_cases Hk; reflexivity|].
    split; [|done].
    intros k Hk. field_cases Hk; reflexivity.
Qed.

(** An empty description is submitted, and [null] is stored. *)
Lemma createReport_stores_null_for_empty_description :
  let created := (createReport blank Samples.report_with_empty_description 0 0).2 in
  get Samples.report_with_empty_description "description" = VStr ""
  ∧ get created "description" = VNull
  ∧ get created "description" ≠ get Samples.report_with_empty_description "description".
Proof. cbv zeta. split; [done|]. split; [done|]. discriminate. Qed.

(** A report submitted with every field comes back with every field. *)
Lemma createReport_keeps_truthy_fields :
  let created := (createReport blank Samples.full_report 0 0).2 in
  getReport (createReport blank Samples.full_report 0 0).1 1 = Some created
  ∧ Forall (λ k, get created k = get Samples.full_report k)
      (map fst Samples.full_report).
Proof. cbv zeta. split; [done|]. repeat constructor. Qed.

End StorageFacts.

(** ** Middlewares *)

Module AuthFacts.
Import JS Auth.

(** C1.  [isAuthenticated], [hasRole(roles)], [hasSubscriptionAccess] and
    [hasMeshNetworkAccess] set [req.user] to [defaultUser] and call [next()]
    on every request; [forceEmergencyAuth] does the same with its own
    hardcoded user.  Both users have id 999 and role ['admin'], and nothing
    else of the request is looked at or changed.  Hence no chain made of
    these middlewares ever ends in a response. *)
Theorem middlewares_always_admit (roles : list string) :
  admits_as defaultUser isAuthenticated
  ∧ admits_as defaultUser (hasRole roles)
  ∧ admits_as defaultUser hasSubscriptionAccess
  ∧ admits_as defaultUser hasMeshNetworkAccess
  ∧ admits_as emergencyUser forceEmergencyAuth
  ∧ (get defaultUser "id" = VInt 999 ∧ get defaultUser "role" = VStr UserRole_ADMIN)
  ∧ (get emergencyUser "id" = VInt 999 ∧ get emergencyUser "role" = VStr UserRole_ADMIN)
  ∧ (∀ mws req,
       Forall (λ mw, mw ∈ [isAuthenticated; hasRole roles; hasSubscriptionAccess;
                           hasMeshNetworkAccess; forceEmergencyAuth]) mws →
       ∃ req', chain mws req = Next req'
               ∧ headers req' = headers req ∧ session req' = session req
               ∧ param_id req' = param_id req ∧ body req' = body req
               ∧ (mws ≠ [] → ∃ u, user req' = Some u
                                  ∧ get u "id" = VInt 999
                                  ∧ get u "role" = VStr UserRole_ADMIN)).
Proof.
  repeat split; try done.
  intros mws. induction mws as [|mw mws IH]; intros req Hall.
  - exists req. by repeat split.
  - apply Forall_cons in Hall as [Hmw Hall].
    assert (∃ u, mw req = Next (with_user u req)
                 ∧ get u "id" = VInt 999 ∧ get u "role" = VStr UserRole_ADMIN)
      as (u & Hrun & Hid & Hrole).
    { repeat (apply elem_of_cons in Hmw as [->|Hmw]);
        [exists defaultUser| exists defaultUser| exists defaultUser
        | exists defaultUser| exists emergencyUser|by apply elem_of_nil in Hmw]; done. }
    destruct (IH (with_user u req) Hall) as (req' & Hchain & Hh & Hs & Hp & Hb & Hu).
    exists req'. simpl. rewrite Hrun. repeat split; try done.
    intros _. destruct mws as [|mw' mws'].
    + simpl in Hchain. injection Hchain as <-. by exists u.
    + by apply Hu.
Qed.

End AuthFacts.

(** ** REST handlers *)

Module RoutesFacts.
Import JS Storage Auth Routes StorageFacts.

Section WithSchemas.

Variable zod_partial_parse : schema → value → parsed.

Lemma not_owner_defaultUser row : not_owner defaultUser row = false.
Proof. done. Qed.

(** With an administrator in [req.user], the shared prefix of the [/:id]
    handlers either answers 400 or 404 without touching the store, or hands
    the parsed id and the row to the continuation. *)
Lemma owned_row_admin wrap invalid missing fetch st req u k :
  user req = Some u →
  get u "role" = VStr UserRole_ADMIN →
  owned_row wrap invalid missing fetch st req k
  = match parseInt (param_id req) with
    | None => (st, inl (json 400 (wrap invalid)))
    | Some id =>
        match fetch st id with
        | None => (st, inl (json 404 (wrap missing)))
        | Some row => k id row
        end
    end.
Proof.
  intros Hu Hrole. unfold owned_row. rewrite Hu.
  destruct (parseInt (param_id req)) as [id|]; [|done].
  destruct (fetch st id) as [row|]; [|done].
  unfold not_owner. by rewrite Hrole.
Qed.

Ltac enter handler :=
  unfold dispatch, serve; simpl chain; cbv beta iota; unfold handler;
  first [ erewrite owned_row_admin by reflexivity | idtac ];
  cbn [param_id with_user user body].

(** C4.  When the id in the URL parses to a number that storage does not
    hold, [GET] and [DELETE /reports/:id] answer 404 (Report not found) and
    [PUT] and [DELETE /blocked-frequencies/:id] answer 404 (Blocked frequency
    not found); the store is returned as it was.  On such an id
    [updateReport] and [updateBlockedFrequency] return [undefined],
    [deleteReport] and [deleteBlockedFrequency] return [false], and none of
    them changes the store. *)
Theorem missing_id_is_404 (now : clock) (st : MemStorage) (req : Request) (id : Z) :
  parseInt (param_id req) = Some id →
  (getReport st id = None →
     dispatch zod_partial_parse GET_report now st req
       = (st, json 404 (message "Report not found"))
     ∧ dispatch zod_partial_parse DELETE_report now st req
       = (st, json 404 (message "Report not found"))
     ∧ (∀ updateData, updateReport st id updateData = (st, None))
     ∧ deleteReport st id = (st, false))
  ∧ (getBlockedFrequency st id = None →
     dispatch zod_partial_parse PUT_blocked_frequency now st req
       = (st, json 404 (message "Blocked frequency not found"))
     ∧ dispatch zod_partial_parse DELETE_blocked_frequency now st req
       = (st, json 404 (message "Blocked frequency not found"))
     ∧ (∀ updateData, updateBlockedFrequency st id updateData = (st, None))
     ∧ deleteBlockedFrequency st id = (st, false)).
Proof.
  intros Hid. split; intros Hmiss.
  - repeat split.
    + enter get_report_handler. by rewrite Hid, Hmiss.
    + enter delete_report_handler. by rewrite Hid, Hmiss.
    + intros d. by apply update_row_missing.
    + by apply delete_row_missing.
  - repeat split.
    + enter put_blocked_frequency_handler. by rewrite Hid, Hmiss.
    + enter delete_blocked_frequency_handler. by rewrite Hid, Hmiss.
    + intros d. by apply update_row_missing.
    + by apply delete_row_missing.
Qed.




(** [POST /api/reports] with a body the schema accepts answers 201 with the
    created row, and [GET /api/reports/:id] for the id just assigned answers
    200 with the same row. *)
Lemma post_then_get_report (zod_parse : schema → value → parsed) (now now' : clock)
    (st : MemStorage) (req req' : Request) (data : obj) :
  zod_parse insertForensicReportSchema
    (VObj (set_prop "userId" (VInt 999) (spread [] (own_props (body req))))) = Valid data →
  parseInt (param_id req') = Some (counter (reports st)) →
  let posted := POST_report zod_parse now st req in
  status posted.2 = 201
  ∧ payload posted.2 = VObj (createReport st data (now 0%nat) (now 1%nat)).2
  ∧ dispatch zod_partial_parse GET_report now' posted.1 req'
    = (posted.1, json 200 (payload posted.2)).
Proof.
  intros Hvalid Hid. cbv zeta.
  unfold POST_report, serve. simpl chain. cbv beta iota. unfold post_report_handler.
  cbn [user with_user body]. change (get defaultUser "id") with (VInt 999).
  rewrite Hvalid.
  destruct (createReport st data (now 0%nat) (now 1%nat)) as [st' report] eqn:E.
  simpl. split; [done|]. split; [done|].
  enter get_report_handler. rewrite Hid.
  assert (getReport st' (counter (reports st)) = Some report) as ->; [|done].
  pose proof (getReport_createReport st data (now 0%nat) (now 1%nat)) as Hget.
  by rewrite E in Hget.
Qed.

End WithSchemas.

(** The id 7 is absent from a fresh store: the four endpoints answer 404. *)
Lemma missing_id_is_404_witness :
  parseInt (param_id (Samples.request "7" (VObj []))) = Some 7
  ∧ dispatch Samples.accept_objects GET_report (λ _, 0) (constructor 0 0)
      (Samples.request "7" (VObj []))
    = (constructor 0 0, json 404 (message "Report not found"))
  ∧ dispatch Samples.accept_objects PUT_blocked_frequency (λ _, 0) (constructor 0 0)
      (Samples.request "7" (VObj []))
    = (constructor 0 0, json 404 (message "Blocked frequency not found")).
Proof.
  split; [reflexivity|].
  pose proof (missing_id_is_404 Samples.accept_objects (λ _, 0) (constructor 0 0)
                (Samples.request "7" (VObj [])) 7 eq_refl) as [Hr Hf].
  split.
  - exact (proj1 (Hr eq_refl)).
  - exact (proj1 (Hf eq_refl)).
Defined.


End RoutesFacts.

(** ** The WebSocket relay *)

Module RelayFacts.
Import JS Relay JSFacts.

Section WithEngine.

Variable JSON_parse : string → option value.
Variable StringToNumber : string → num.
Variable ObjectToNumber : value → num.
Variable ToString : value → string.

Abbreviation received := (received StringToNumber ObjectToNumber ToString).
Abbreviation on_message := (on_message JSON_parse StringToNumber ObjectToNumber ToString).

Lemma touch_object now ws o st :
  ∃ st1, touch now ws (VObj o) st = (st1, Some tt) ∧ same_wires st st1.
Proof.
  unfold touch. destruct (info_of (connectedClients st) ws); [|by eexists].
  simpl. destruct (truthy (get o "location")); by eexists.
Qed.



(** C7.  When [JSON.parse] rejects the text of a message, the handler returns
    normally; its only effect is one [send] to the sender, of [{ type:
    'error', message: 'Invalid message format' }].  No other socket is sent
    anything, and [wss.clients] and [connectedClients] (the entries and their
    contents) are as before. *)
Theorem invalid_json_answers_sender (now : Z) (random : Q) (ws : socket) (message : string)
    (st : Server) :
  JSON_parse message = None →
  let st' := on_message now random ws message st in
  let reply := VObj [("type", VStr "error"); ("message", VStr "Invalid message format")] in
  st' = send ws reply st
  ∧ sent st' = sent st ++ [(ws, reply)]
  ∧ wss_clients st' = wss_clients st
  ∧ connectedClients st' = connectedClients st
  ∧ timers st' = timers st.
Proof.
  intros Hparse. cbv zeta. unfold Relay.on_message, Relay.received, try_block.
  rewrite Hparse. done.
Qed.


(** The score sent out by the ['neutralize_frequency'] case is
    [effectivenessScore] at the resolved intensity and flag. *)
Lemma neutralize_frequency_broadcasts_score now random ws o st :
  get o "type" = VStr "neutralize_frequency" →
  truthy (get o "frequency") = true →
  ∃ st1 fields,
    same_wires st st1
    ∧ received now random ws (Some (VObj o)) st
      = broadcast (envelope "frequency_neutralized" fields) st1
    ∧ get fields "effectivenessScore"
      = VNum (effectivenessScore StringToNumber ObjectToNumber
                (neutralize_intensity (VObj o))
                (or_else (or_else (get o "aiAssisted")
                                  (opt_prop (get o "data") "aiAssisted")) (VBool false))).
Proof.
  intros Hty Hfreq.
  destruct (touch_object now ws o st) as (st1 & Ht & Hw).
  exists st1. eexists. split; [done|].
  unfold Relay.received, try_block, mbind, M_bind, bind. simpl lift. unfold ret at 1.
  rewrite Ht. simpl. unfold ret, switch.
  change (opt_prop (VObj o) ?k) with (get o k). rewrite Hty.
  change (classify (VStr "neutralize_frequency")) with neutralize_frequency. cbv beta iota.
  rewrite (or_else_truthy (get o "frequency")) by done. rewrite Hfreq.
  split; reflexivity.
Qed.

(** *** Scores *)












End WithEngine.

(** A text that is not JSON, sent by socket 0. *)
Lemma invalid_json_answers_sender_witness :
  Samples.parse_literals "{oops" = None
  ∧ Relay.on_message Samples.parse_literals Samples.no_number_of_string
      Samples.no_number_of_object Samples.question_mark 0 0 0%nat "{oops"
      Samples.three_clients
    = send 0%nat (VObj [("type", VStr "error"); ("message", VStr "Invalid message format")])
        Samples.three_clients.
Proof.
  split; [reflexivity|].
  exact (proj1 (invalid_json_answers_sender Samples.parse_literals
                  Samples.no_number_of_string Samples.no_number_of_object
                  Samples.question_mark 0 0 0%nat "{oops" Samples.three_clients eq_refl)).
Defined.




End RelayFacts.

(** ** The mesh relay *)

Module MeshFacts.
Import JS Mesh.


End MeshFacts.

(** ** The ADS controller *)

Module ADSFacts.
Import JS ADS.

Section WithEngine.

Variable JSON_parse : string → option value.
Variable Math_log10 : float → float.

Lemma resolve_resolved {A} (v w : A) : resolve v (Resolved w) = Resolved w.
Proof. done. Qed.

(** *** checkJuliaAvailability *)

Lemma availability_settled evs b :
  fold_left availability_step evs (Resolved b) = Resolved b.
Proof.
  induction evs as [|ev evs IH]; [done|].
  simpl. destruct ev as [[]|]; simpl; apply IH.
Qed.

Lemma availability_never_rejects evs :
  fold_left availability_step evs Pending = Pending
  ∨ ∃ b, fold_left availability_step evs Pending = Resolved b.
Proof.
  induction evs as [|ev evs IH]; [by left|].
  simpl. destruct ev as [[]|]; simpl; try apply IH;
    right; eexists; apply availability_settled.
Qed.

Lemma checkJuliaAvailability_resolves r : ∃ b, checkJuliaAvailability r = Resolved b.
Proof.
  unfold checkJuliaAvailability, events. rewrite fold_left_app. simpl.
  destruct (availability_never_rejects (map Child (before_timer r))) as [->|[b ->]];
    simpl; eexists; apply availability_settled.
Qed.

(** *** analyzeSpectrum *)

Lemma analysis_settled fb evs text v :
  (fold_left (analysis_step JSON_parse fb) evs (text, Resolved v)).2 = Resolved v.
Proof.
  revert text. induction evs as [|ev evs IH]; intros text; [done|].
  simpl. destruct ev as [[| |code|]|]; simpl; try apply IH.
  case_bool_decide; [case_match|]; apply IH.
Qed.

Lemma analysis_never_rejects fb evs text :
  (fold_left (analysis_step JSON_parse fb) evs (text, Pending)).2 = Pending
  ∨ ∃ v, (fold_left (analysis_step JSON_parse fb) evs (text, Pending)).2 = Resolved v.
Proof.
  revert text. induction evs as [|ev evs IH]; intros text; [by left|].
  simpl. destruct ev as [[| |code|]|]; simpl; try apply IH;
    try (right; eexists; apply analysis_settled).
  case_bool_decide; [case_match|]; right; eexists; apply analysis_settled.
Qed.

Lemma analysis_data fb es text p :
  Forall is_data es →
  fold_left (analysis_step JSON_parse fb) (map Child es) (text, p)
  = (fold_left (λ acc e, match e with stdout_data chunk => acc ++ chunk | _ => acc end)%string
       es text, p).
Proof.
  revert text. induction es as [|e es IH]; intros text Hd; [done|].
  apply Forall_cons in Hd as [He Hd]. destruct e; try done; simpl; by apply IH.
Qed.

Lemma analyzeSpectrum_resolves random availability analysis signalData :
  ∃ v, analyzeSpectrum JSON_parse Math_log10 random availability analysis signalData
       = Resolved v.
Proof.
  unfold analyzeSpectrum.
  destruct (checkJuliaAvailability_resolves availability) as [[] ->]; [|by eexists].
  unfold events. rewrite fold_left_app.
  destruct (fold_left _ (map Child (before_timer analysis)) _) as [text p] eqn:E.
  pose proof (analysis_never_rejects
                (fallbackAnalysis Math_log10 random signalData)
                (map Child (before_timer analysis)) "") as Hp.
  rewrite E in Hp. simpl in Hp. simpl.
  destruct Hp as [->|[v ->]]; eexists; apply analysis_settled.
Qed.

(** Every failure of the subprocess ends in the fallback analysis. *)
Lemma analyzeSpectrum_falls_back random analysis signalData :
  let fallback := Resolved (Computed (fallbackAnalysis Math_log10 random signalData)) in
  (∀ availability, checkJuliaAvailability availability = Resolved false →
     analyzeSpectrum JSON_parse Math_log10 random availability analysis signalData = fallback)
  ∧ (∀ availability es e rest,
       checkJuliaAvailability availability = Resolved true →
       before_timer analysis = es ++ e :: rest →
       Forall is_data es → fails JSON_parse (collected es) e →
       analyzeSpectrum JSON_parse Math_log10 random availability analysis signalData = fallback)
  ∧ (∀ availability,
       checkJuliaAvailability availability = Resolved true →
       Forall is_data (before_timer analysis) →
       analyzeSpectrum JSON_parse Math_log10 random availability analysis signalData = fallback).
Proof.
  cbv zeta. unfold analyzeSpectrum. split; [|split].
  - by intros availability ->.
  - intros availability es e rest -> Hbefore Hdata Hfail.
    unfold events. rewrite Hbefore, map_app, <- app_assoc, fold_left_app.
    rewrite analysis_data by done. fold (collected es).
    simpl. destruct e as [| |code|]; try done; simpl.
    + destruct Hfail as [Hcode|Hparse].
      * rewrite bool_decide_eq_false_2 by done. apply analysis_settled.
      * case_bool_decide; rewrite ?Hparse; apply analysis_settled.
    + apply analysis_settled.
  - intros availability -> Hdata.
    unfold events. rewrite fold_left_app, analysis_data by done.
    simpl. apply analysis_settled.
Qed.

(** When the script exits with code 0 and its output parses, the parsed value
    is resolved as it is, whatever it holds. *)
Lemma analyzeSpectrum_passes_output_through random availability analysis signalData
    es rest result :
  checkJuliaAvailability availability = Resolved true →
  before_timer analysis = es ++ close (Some 0) :: rest →
  Forall is_data es → JSON_parse (collected es) = Some result →
  analyzeSpectrum JSON_parse Math_log10 random availability analysis signalData
  = Resolved (Parsed result).
Proof.
  intros Hav Hbefore Hdata Hparse. unfold analyzeSpectrum. rewrite Hav.
  unfold events. rewrite Hbefore, map_app, <- app_assoc, fold_left_app.
  rewrite analysis_data by done. fold (collected es).
  simpl. rewrite Hparse. apply analysis_settled.
Qed.

(** *** deployCountermeasures *)

Lemma fallbackDeployment_inherited random now threatType c :
  baseFrequencies threatType = Inherited →
  fallbackDeployment random now threatType c = (c, inr TypeError).
Proof. unfold fallbackDeployment. by intros ->. Qed.

Lemma fallbackDeployment_returns random now threatType c :
  baseFrequencies threatType ≠ Inherited →
  ∃ c' d, fallbackDeployment random now threatType c = (c', inl d)
          ∧ status d = "DEPLOYED"%string ∧ deployment_error d = None.
Proof.
  unfold fallbackDeployment. destruct (baseFrequencies threatType); [| done |];
    intros _; by do 2 eexists.
Qed.

Lemma resolve_fallback_settled random now threatType l :
  baseFrequencies threatType ≠ Inherited → sound l →
  settled (resolve_fallback random now threatType l).
Proof.
  intros Hown [_ Hp]. unfold resolve_fallback.
  destruct (fallbackDeployment_returns (random (handled l)) (now (handled l)) threatType
              (controller l) Hown) as (c' & d & -> & _).
  split; [done|]. simpl. destruct Hp as [->|[v ->]]; by eexists.
Qed.

Lemma deployment_step_sound random now threatType l ev :
  baseFrequencies threatType ≠ Inherited → sound l →
  sound (deployment_step JSON_parse random now threatType l ev)
  ∧ (settled l → settled (deployment_step JSON_parse random now threatType l ev))
  ∧ (ev = Timer → settled (deployment_step JSON_parse random now threatType l ev)).
Proof.
  intros Hown Hs.
  pose proof (resolve_fallback_settled random now threatType l Hown Hs) as Hfb.
  assert (Hweak : ∀ l', settled l' → sound l') by (intros l' [? ?]; split; auto).
  unfold deployment_step. destruct Hs as [Hu Hp]. rewrite Hu.
  destruct ev as [[| |code|]|]; try (split; [|split]; try done; by auto).
  - split; [|split]; [done| by intros [_ ?]; split |done].
  - split; [|split]; [done| by intros [_ ?]; split |done].
  - case_bool_decide; [case_match|]; try (split; [|split]; by auto).
    split; [|split]; try done.
    + split; [done|]. simpl. destruct Hp as [->|[w ->]]; right; by eexists.
    + intros [_ [w Hw]]. split; [done|]. simpl. rewrite Hw. by eexists.
Qed.

Lemma deployment_steps_sound random now threatType evs l :
  baseFrequencies threatType ≠ Inherited → sound l →
  sound (fold_left (deployment_step JSON_parse random now threatType) evs l)
  ∧ (settled l → settled (fold_left (deployment_step JSON_parse random now threatType) evs l)).
Proof.
  intros Hown. revert l. induction evs as [|ev evs IH]; intros l Hs; [done|].
  simpl. destruct (deployment_step_sound random now threatType l ev Hown Hs) as (Hs' & Hd' & _).
  destruct (IH _ Hs') as [IHs IHd]. split; [done|]. auto.
Qed.

(** An own or absent key never makes the promise reject or stay pending. *)
Lemma deployCountermeasures_resolves random now availability deployment threatType c :
  baseFrequencies threatType ≠ Inherited →
  ∃ c' v, deployCountermeasures JSON_parse random now availability deployment threatType c
          = (c', Resolved v).
Proof.
  intros Hown. unfold deployCountermeasures.
  destruct (checkJuliaAvailability_resolves availability) as [[] ->].
  - unfold events. rewrite fold_left_app. simpl fold_left.
    set (l0 := {| handled := 0; stdout := ""; controller := c; promise := Pending;
                  uncaught := None |}).
    assert (sound l0) as Hs0 by (split; [done|by left]).
    destruct (deployment_steps_sound random now threatType
                (map Child (before_timer deployment)) l0 Hown Hs0) as [Hs1 _].
    destruct (deployment_step_sound random now threatType _ Timer Hown Hs1) as (Hs2 & _ & Hd2).
    destruct (deployment_steps_sound random now threatType
                (map Child (after_timer deployment)) _ Hown Hs2) as [_ Hd3].
    destruct (Hd3 (Hd2 eq_refl)) as [_ [v Hv]]. rewrite Hv. by do 2 eexists.
  - destruct (fallbackDeployment_returns (random 0%nat) (now 0%nat) threatType c Hown)
      as (c' & d & -> & _). by do 2 eexists.
Qed.

(** C3, at the failing input.  With no Julia on the machine,
    [deployCountermeasures('constructor')] reads the inherited
    [Object.prototype.constructor] from [baseFrequencies]; the fallback throws
    in the [try] block and again in the [catch] clause, and the returned
    promise is rejected. *)
Theorem deployCountermeasures_rejects_inherited_key (random : nat → float)
    (now : nat → string) (deployment : spawn_run) (c : Controller) :
  deployCountermeasures JSON_parse random now julia_missing deployment "constructor" c
  = (c, Rejected TypeError).
Proof. done. Qed.

End WithEngine.

(** With Julia present and the script exiting with code 1, the same call never
    settles: the [TypeError] escapes the ['close'] listener. *)
Lemma deployCountermeasures_hangs_on_inherited_key :
  deployCountermeasures (λ _, None) (λ _, 0%float) (λ _, ""%string) julia_present
    {| before_timer := [close (Some 1)]; after_timer := [] |} "constructor" idle
  = (idle, Pending).
Proof. reflexivity. Qed.

End ADSFacts.

(** ** The forensics analyzer *)

Module ForensicsFacts.
Import JS Forensics.

Section WithLibraries.

Variable toISOString : Z → string.
Variable sha256_hex : string → string.

Lemma Date_toISOString_in_range ms :
  in_range ms → Date_toISOString toISOString ms = Some (toISOString ms).
Proof. intros H. unfold Date_toISOString. by rewrite bool_decide_eq_true_2. Qed.

(** Whatever report comes out, its detection fields are fixed and its
    checksum is the digest of the id followed by the timestamp. *)
Lemma analyzeRecording_fields uuid now1 now2 recording report :
  analyzeRecording toISOString sha256_hex uuid now1 now2 recording = Some report →
  detectedFrequencies report = VArr [VInt 3500; VInt 5100; VInt 8400; VInt 12200]
  ∧ primaryFrequency report = VInt 3500
  ∧ checksumSHA256 report
    = VStr (sha256_hex (recordingId recording ++ toISOString (timestamp recording))).
Proof.
  unfold analyzeRecording, generateChecksum. intros H.
  apply bind_Some in H as (checksum & Hck & H).
  apply bind_Some in Hck as (iso & Hiso & Hck).
  assert (iso = toISOString (timestamp recording)) as ->.
  { unfold Date_toISOString in Hiso. case_bool_decide; congruence. }
  injection Hck as <-.
  apply bind_Some in H as (reportTime & _ & H).
  apply bind_Some in H as (startTime & _ & H).
  apply bind_Some in H as (endTime & _ & H).
  apply bind_Some in H as (custodyTime & _ & H).
  by injection H as <-.
Qed.

(** C8.  For a recording whose dates are representable, [analyzeRecording]
    returns a report in which [detectedFrequencies] is [[3500, 5100, 8400,
    12200]], [primaryFrequency] is 3500 and the checksum of the chain of
    custody is the SHA-256 digest of [recordingId] followed by the ISO form of
    [timestamp].  Any other report, produced at any time for a recording with
    the same [recordingId] and [timestamp] and whatever audio file, size,
    format and duration, has the same checksum and the same two detection
    fields. *)
Theorem detection_ignores_audio (uuid : string) (now1 now2 : Z) (recording : ForensicRecording) :
  in_range now1 → in_range now2 → in_range (timestamp recording) →
  in_range (timestamp recording + duration recording * 1000) →
  ∃ report,
    analyzeRecording toISOString sha256_hex uuid now1 now2 recording = Some report
    ∧ detectedFrequencies report = VArr [VInt 3500; VInt 5100; VInt 8400; VInt 12200]
    ∧ primaryFrequency report = VInt 3500
    ∧ checksumSHA256 report
      = VStr (sha256_hex (recordingId recording ++ toISOString (timestamp recording)))
    ∧ ∀ uuid' now1' now2' recording' report',
        analyzeRecording toISOString sha256_hex uuid' now1' now2' recording' = Some report' →
        recordingId recording' = recordingId recording →
        timestamp recording' = timestamp recording →
        checksumSHA256 report' = checksumSHA256 report
        ∧ detectedFrequencies report' = detectedFrequencies report
        ∧ primaryFrequency report' = primaryFrequency report.
Proof.
  intros H1 H2 Ht Hend.
  destruct (analyzeRecording toISOString sha256_hex uuid now1 now2 recording)
    as [report|] eqn:E.
  - destruct (analyzeRecording_fields _ _ _ _ _ E) as (Hd & Hp & Hc).
    exists report. repeat split; try done;
      destruct (analyzeRecording_fields _ _ _ _ _ H) as (Hd' & Hp' & Hc'); congruence.
  - exfalso. unfold analyzeRecording, generateChecksum in E.
    rewrite !Date_toISOString_in_range in E by done. done.
Qed.

End WithLibraries.

(** Two captures filed under one id and timestamp share checksum and
    detection. *)
Lemma detection_ignores_audio_witness :
  in_range 1700000100000 ∧ in_range 1700000100001
  ∧ in_range (timestamp Samples.recording_a)
  ∧ in_range (timestamp Samples.recording_a + duration Samples.recording_a * 1000)
  ∧ ∃ report report',
      analyzeRecording Samples.decimal_time Samples.plain_digest "uuid-1"
        1700000100000 1700000100001 Samples.recording_a = Some report
      ∧ analyzeRecording Samples.decimal_time Samples.plain_digest "uuid-2"
          1700000200000 1700000200001 Samples.recording_b = Some report'
      ∧ detectedFrequencies report = VArr [VInt 3500; VInt 5100; VInt 8400; VInt 12200]
      ∧ checksumSHA256 report' = checksumSHA256 report.
Proof.
  assert (in_range 1700000100000) as H1 by (unfold in_range, maxTime; lia).
  assert (in_range 1700000100001) as H2 by (unfold in_range, maxTime; lia).
  assert (in_range (timestamp Samples.recording_a)) as H3
    by (unfold in_range, maxTime; simpl; lia).
  assert (in_range (timestamp Samples.recording_a + duration Samples.recording_a * 1000))
    as H4 by (unfold in_range, maxTime; simpl; lia).
  split; [exact H1|]. split; [exact H2|]. split; [exact H3|]. split; [exact H4|].
  destruct (detection_ignores_audio Samples.decimal_time Samples.plain_digest "uuid-1"
              1700000100000 1700000100001 Samples.recording_a H1 H2 H3 H4)
    as (report & Hrun & Hd & _ & _ & Hsame).
  exists report. eexists.
  split; [exact Hrun|]. split; [reflexivity|]. split; [exact Hd|].
  apply (Hsame "uuid-2" 1700000200000 1700000200001 Samples.recording_b);
    reflexivity.
Defined.

End ForensicsFacts.

(** ** Listings of MemStorage *)

Module QueriesFacts.
Import JS Storage Queries JSFacts StorageFacts.

Lemma keys_elem_of t k : k ∈ keys t ↔ is_Some (rows t !! k).
Proof.
  unfold keys. rewrite merge_sort_Permutation, list_elem_of_fmap. split.
  - intros ([k' row] & -> & Hin). apply elem_of_map_to_list in Hin. by exists row.
  - intros [row Hrow]. exists (k, row). split; [done|]. by apply elem_of_map_to_list.
Qed.

Lemma keys_NoDup t : NoDup (keys t).
Proof. unfold keys. rewrite merge_sort_Permutation. apply NoDup_fst_map_to_list. Qed.

Lemma keys_Sorted t : Sorted Z.le (keys t).
Proof. apply (Sorted_merge_sort Z.le). Qed.

(** The only sorted, duplicate-free list of the keys of a map. *)
Lemma keys_unique t l :
  Sorted Z.le l → NoDup l → (∀ k, k ∈ l ↔ is_Some (rows t !! k)) → keys t = l.
Proof.
  intros Hs Hnd Hel. apply (Sorted_unique Z.le); [apply keys_Sorted|done|].
  apply NoDup_Permutation; [apply keys_NoDup|done|].
  intros k. by rewrite keys_elem_of, Hel.
Qed.

Lemma Sorted_le_snoc l c : Sorted Z.le l → (∀ k, k ∈ l → k < c) → Sorted Z.le (l ++ [c]).
Proof.
  intros Hs Hlt. apply Sorted_snoc; [done|].
  destruct l as [|x l _] using rev_ind; [constructor|].
  constructor.
  assert (x < c) by (apply Hlt, elem_of_app; right; by apply list_elem_of_singleton). lia.
Qed.


Lemma values_elem_of t row : row ∈ values t ↔ ∃ k, rows t !! k = Some row.
Proof.
  unfold values. rewrite list_elem_of_omap. split.
  - intros (k & _ & Hk). by exists k.
  - intros (k & Hk). exists k. split; [|done]. apply keys_elem_of. by exists row.
Qed.

Lemma omap_ext_in {A B} (f g : A → option B) (l : list A) :
  (∀ x, x ∈ l → f x = g x) → omap f l = omap g l.
Proof.
  induction l as [|x l IH]; intros H; [done|].
  cbn. rewrite (H x) by apply list_elem_of_here.
  rewrite IH; [done|]. intros y Hy. apply H. by apply list_elem_of_further.
Qed.

(** *** The three primitives on the listing *)

Lemma keys_insert_new e mk st :
  below_counter (tbl e st) →
  keys (tbl e (insert_new e mk st).1) = keys (tbl e st) ++ [counter (tbl e st)].
Proof.
  intros Hb. apply keys_unique.
  - apply Sorted_le_snoc; [apply keys_Sorted|]. intros k Hk%keys_elem_of. by apply Hb.
  - apply NoDup_app. split; [apply keys_NoDup|]. split; [|apply NoDup_singleton].
    intros k Hk%keys_elem_of%Hb ->%list_elem_of_singleton. lia.
  - intros k. rewrite elem_of_app, list_elem_of_singleton, keys_elem_of, insert_new_rows.
    case_decide; subst.
    + split; [by eexists|by right].
    + split; [by intros [?|?]|by left].
Qed.

Lemma keys_update_row e f id st :
  keys (tbl e (update_row e f id st).1) = keys (tbl e st).
Proof.
  apply keys_unique; [apply keys_Sorted|apply keys_NoDup|].
  intros k. rewrite keys_elem_of, update_row_rows.
  case_decide; [subst; by rewrite fmap_is_Some|done].
Qed.


Lemma values_insert_new e mk st :
  below_counter (tbl e st) →
  values (tbl e (insert_new e mk st).1) = values (tbl e st) ++ [mk (counter (tbl e st))].
Proof.
  intros Hb. unfold values. rewrite keys_insert_new by done.
  assert (rows (tbl e (insert_new e mk st).1) !! counter (tbl e st)
          = Some (mk (counter (tbl e st)))) as Hnew.
  { rewrite insert_new_rows. by rewrite decide_True. }
  rewrite omap_app. cbn [omap list_omap]. rewrite Hnew.
  f_equal. apply omap_ext_in. intros k Hk%keys_elem_of%Hb.
  rewrite insert_new_rows. case_decide; [lia|done].
Qed.

Lemma values_update_row e f id st :
  values (tbl e (update_row e f id st).1)
  = omap (λ k, if decide (id = k) then f <$> rows (tbl e st) !! id else rows (tbl e st) !! k)
         (keys (tbl e st)).
Proof.
  unfold values. rewrite keys_update_row. apply omap_ext_in. intros k _.
  apply update_row_rows.
Qed.





Ltac primitive :=
  unfold createUser, updateUser, createSubscription, updateSubscription, createReport,
    updateReport, deleteReport, createBlockedFrequency, updateBlockedFrequency,
    deleteBlockedFrequency, createMeshDevice, updateMeshDevice, deleteMeshDevice,
    createMobileDevice, updateMobileDevice, deleteMobileDevice, createMobileAlert,
    markMobileAlertAsRead, updateMobileAlert, deleteMobileAlert.










(** *** Rows keep their id *)

Lemma ids_insert_new e mk st :
  (∀ id, get (mk id) "id"%string = VInt id) →
  ids_match_keys st → ids_match_keys (insert_new e mk st).1.
Proof.
  intros Hmk Inv e' k row. destruct (decide (e = e')) as [<-|Hne].
  - rewrite insert_new_rows. case_decide; [|apply Inv].
    intros [= <-]. subst k. apply Hmk.
  - rewrite insert_new_other by done. apply Inv.
Qed.

Lemma ids_update_row e f id st :
  (∀ row, get (f row) "id"%string = get row "id"%string) →
  ids_match_keys st → ids_match_keys (update_row e f id st).1.
Proof.
  intros Hf Inv e' k row. destruct (decide (e = e')) as [<-|Hne].
  - rewrite update_row_rows. case_decide; [|apply Inv].
    subst k. destruct (rows (tbl e st) !! id) as [old|] eqn:E; [|done].
    intros [= <-]. rewrite Hf. by apply (Inv e).
  - rewrite update_row_other by done. apply Inv.
Qed.

Lemma ids_delete_row e id st :
  ids_match_keys st → ids_match_keys (delete_row e id st).1.
Proof.
  intros Inv e' k row. destruct (decide (e = e')) as [<-|Hne].
  - rewrite delete_row_rows. case_decide; [done|apply Inv].
  - rewrite delete_row_other by done. apply Inv.
Qed.

Lemma get_spread_absent o src k : own src k = None → get (spread o src) k = get o k.
Proof. intros H. unfold get. by rewrite own_spread_absent. Qed.

Lemma get_set_prop_ne k k' v o : k ≠ k' → get (set_prop k v o) k' = get o k'.
Proof. intros H. unfold get. by rewrite own_set_prop_ne. Qed.

Lemma step_ids_match_keys st o :
  (∀ d, update_payload o = Some d → own d "id"%string = None) →
  ids_match_keys st → ids_match_keys (step st o).
Proof.
  intros Hd Inv.
  destruct o; cbn [step]; primitive;
    first [ by apply ids_insert_new
          | by apply ids_delete_row
          | apply ids_update_row; [|done]; intros row;
            rewrite ?get_set_prop_ne by done;
            apply get_spread_absent; by apply Hd
          | idtac ].
  unfold updateChatbotSettings. cbn [fst].
  intros e k row. rewrite tbl_set_chatbotSettings. apply Inv.
Qed.

Lemma blank_ids_match_keys : ids_match_keys blank.
Proof. intros e k row. destruct e; simpl; by rewrite lookup_empty. Qed.

Lemma run_ids_match_keys ops st :
  keeps_ids ops → ids_match_keys st → ids_match_keys (run ops st).
Proof.
  revert st. induction ops as [|o ops IH]; intros st Hk Inv; [done|].
  apply Forall_cons in Hk as [Ho Hk]. simpl. apply IH; [done|].
  by apply step_ids_match_keys.
Qed.

Lemma constructor_ids_match_keys t1 t2 : ids_match_keys (constructor t1 t2).
Proof.
  rewrite constructor_as_run. apply run_ids_match_keys; [|apply blank_ids_match_keys].
  by repeat constructor.
Qed.

Lemma key_of_VInt k : key_of (VInt k) = Some k.
Proof.
  unfold key_of, VInt. rewrite Qfloor_Z.
  by rewrite (proj2 (Qeq_bool_iff _ _) (Qeq_refl _)).
Qed.

(** X4.  Rows keep the id they were created with.  Along every run on [new
    MemStorage()] in which no update names [id] in its payload, the [id]
    property of each stored row is the key it is stored under, so looking a
    listed row up by its own [id] finds that row. *)
Theorem rows_carry_their_key (t1 t2 : Z) (ops : list op) :
  keeps_ids ops →
  let st := run ops (constructor t1 t2) in
  ids_match_keys st
  ∧ ∀ e row, row ∈ values (tbl e st) →
      ∃ k, key_of (get row "id"%string) = Some k ∧ get_row e k st = Some row.
Proof.
  intros Hk. cbv zeta.
  assert (ids_match_keys (run ops (constructor t1 t2))) as Inv
    by (apply run_ids_match_keys; [done|apply constructor_ids_match_keys]).
  split; [done|]. intros e row [k Hrow]%values_elem_of.
  exists k. rewrite (Inv e k row Hrow). split; [apply key_of_VInt|done].
Qed.

(** A report is created and renamed: its [id] stays 1. *)
Lemma rows_carry_their_key_witness :
  keeps_ids [CreateReport Samples.full_report 3 4;
             UpdateReport 1 [("title"%string, VStr "renamed")]]
  ∧ ids_match_keys (run [CreateReport Samples.full_report 3 4;
                         UpdateReport 1 [("title"%string, VStr "renamed")]]
                      (constructor 1 2)).
Proof.
  assert (keeps_ids [CreateReport Samples.full_report 3 4;
                     UpdateReport 1 [("title"%string, VStr "renamed")]]) as H.
  { repeat constructor; intros d [= <-]; reflexivity. }
  split; [exact H|]. exact (proj1 (rows_carry_their_key 1 2 _ H)).
Defined.

(** An update that names [id] does overwrite the stored [id]: the row stays
    under key 1 and now says 7. *)
Lemma update_can_overwrite_id :
  let st := run [CreateReport Samples.full_report 3 4;
                 UpdateReport 1 [("id"%string, VInt 7)]] (constructor 1 2) in
  (λ row, get row "id"%string) <$> getReport st 1 = Some (VInt 7) ∧ getReport st 7 = None.
Proof. vm_compute. done. Qed.

(** *** Alerts of a user *)

Lemma includes_true l x :
  includes l x = true ↔ ∃ y, y ∈ l ∧ same_value_zero y x = true.
Proof.
  unfold includes. rewrite existsb_exists. split.
  - intros (y & Hy%list_elem_of_In & E). by exists y.
  - intros (y & Hy%list_elem_of_In & E). by exists y.
Qed.





(** *** Updates and deletes on the listing *)






End QueriesFacts.

(** ** More REST handlers *)

Module ApiFacts.
Import JS Storage Auth Routes Queries Api JSFacts StorageFacts QueriesFacts.
Import RoutesFacts (owned_row_admin).

Lemma own_without k o : own (without k o) k = None.
Proof.
  unfold without. induction o as [|[k' v] o IH]; [done|].
  rewrite filter_cons. case_decide as Hk; simpl in *; [|done].
  rewrite (proj2 (String.eqb_neq k' k)) by done. done.
Qed.

Lemma own_without_ne k k' o : k' ≠ k → own (without k o) k' = own o k'.
Proof.
  intros Hne. unfold without. induction o as [|[k0 v] o IH]; [done|].
  rewrite filter_cons. case_decide as Hk; simpl in *.
  - by rewrite IH.
  - subst k0. by rewrite (proj2 (String.eqb_neq k k')).
Qed.

Lemma exposes_password_without user :
  exposes_password (VObj (without "password" user)) = false.
Proof.
  simpl. apply bool_decide_eq_false_2. rewrite own_without. by intros [? ?].
Qed.

Ltac in_list := solve [repeat first [apply list_elem_of_here | apply list_elem_of_further]].

Section WithEngine.

Variable zod_partial_parse : schema → value → parsed.

(** X6.  The user endpoints never return a password.  Whatever the store and
    the request, the responses of [GET /api/user/:id], [GET /api/users] and
    [PATCH /api/users/:id/role] hold no [password] property, neither at top
    level nor in an element of the returned array; [GET /api/users] lists
    every stored user, each with all its other properties. *)
Theorem user_endpoints_hide_password (now : clock) (st : MemStorage) (req : Request) :
  exposes_password (payload (dispatch zod_partial_parse GET_user now st req).2) = false
  ∧ exposes_password (payload (GET_users st req).2) = false
  ∧ exposes_password (payload (PATCH_user_role st req).2) = false
  ∧ GET_users st req
    = (st, json 200 (VArr (map (λ user, VObj (without "password" user)) (values (users st)))))
  ∧ ∀ user k, k ≠ "password"%string → own (without "password" user) k = own user k.
Proof.
  split; [|split; [|split; [|split]]].
  - unfold dispatch, serve. simpl chain. cbv beta iota. unfold get_user_handler.
    cbn [user with_user param_id].
    destruct (parseInt (param_id req)) as [userId|]; [|done].
    change (get emergencyUser "role") with (VStr UserRole_ADMIN).
    change (strict_neq (VStr UserRole_ADMIN) (VStr UserRole_ADMIN)) with false.
    cbn [andb].
    destruct (getUser st userId) as [u|]; [|done].
    cbn [try_catch snd payload json]. apply exposes_password_without.
  - unfold GET_users, serve. simpl chain. cbv beta iota. unfold get_users_handler.
    cbn [try_catch snd payload json exposes_password].
    induction (getUsers st) as [|u l IH]; [done|].
    cbn [map existsb]. rewrite IH, orb_false_r.
    apply (exposes_password_without u).
  - unfold PATCH_user_role, serve. simpl chain. cbv beta iota.
    unfold patch_user_role_handler. cbn [body with_user param_id].
    destruct (prop (body req) "role") as [role|]; [|done].
    destruct (negb (truthy role) || negb (includes UserRole_values role)); [done|].
    destruct (updateUser_at st (parseInt (param_id req)) [("role"%string, role)])
      as [st' [u|]]; [|done].
    cbn [try_catch snd payload json]. apply exposes_password_without.
  - done.
  - intros u k Hk. by apply own_without_ne.
Qed.

(** X7.  [PATCH /api/users/:id/role] changes a role only to ['user'] or
    ['admin'].  When it answers 200, the body named one of the two roles, the
    id parsed and the user existed, the stored user is the previous one with
    that [role], and no other row of any map changed.  Every other answer is
    400, 404 or 500 and leaves the store as it was. *)
Theorem role_update_is_validated (st : MemStorage) (req : Request) :
  let out := PATCH_user_role st req in
  (status out.2 = 200 →
     ∃ id role u,
       parseInt (param_id req) = Some id
       ∧ prop (body req) "role" = Some (VStr role)
       ∧ (role = UserRole_USER ∨ role = UserRole_ADMIN)
       ∧ getUser st id = Some u
       ∧ getUser out.1 id = Some (set_prop "role" (VStr role) u)
       ∧ ∀ e k, (e, k) ≠ (Users, id) → rows (tbl e out.1) !! k = rows (tbl e st) !! k)
  ∧ (status out.2 ≠ 200 → out.1 = st ∧ status out.2 ∈ [400; 404; 500]).
Proof.
  cbv zeta. unfold PATCH_user_role, serve. simpl chain. cbv beta iota.
  unfold patch_user_role_handler. cbn [body with_user param_id].
  destruct (prop (body req) "role") as [role|] eqn:Hrole;
    [|split; [done|intros _; split; [done|in_list]]].
  destruct (truthy role) eqn:Ht; cbn [negb orb];
    [|split; [done|intros _; split; [done|in_list]]].
  destruct (includes UserRole_values role) eqn:Hin; cbn [negb];
    [|split; [done|intros _; split; [done|in_list]]].
  assert (∃ r, role = VStr r ∧ (r = UserRole_USER ∨ r = UserRole_ADMIN)) as (r & -> & Hr).
  { apply includes_true in Hin as (y & Hy & E).
    repeat (apply elem_of_cons in Hy as [->|Hy]); [..|by apply elem_of_nil in Hy];
      destruct role as [| | | |s| | |]; try done;
      unfold same_value_zero, strict_eq in E;
      apply String.eqb_eq in E; subst s; eexists; (split; [done|]); auto. }
  destruct (parseInt (param_id req)) as [id|] eqn:Hid; cbn [updateUser_at];
    [|split; [done|intros _; split; [done|in_list]]].
  unfold updateUser, update_row.
  change (rows (tbl Users st) !! id) with (getUser st id).
  destruct (getUser st id) as [u|] eqn:Hu;
    [|split; [done|intros _; split; [done|in_list]]].
  cbn [try_catch fst snd status json]. split; [|done]. intros _.
  exists id, r, u. repeat split; try done.
  - unfold getUser, get_row. rewrite tbl_set_tbl. simpl. by rewrite lookup_insert_eq.
  - intros e k Hne. destruct (decide (e = Users)) as [->|He].
    + rewrite tbl_set_tbl. simpl. rewrite lookup_insert_ne; [done|congruence].
    + by rewrite tbl_set_tbl_ne.
Qed.

(** X8.  The listing endpoints return the rows of every owner.  Behind their
    middlewares, [GET /api/reports], [GET /api/blocked-frequencies] and [GET
    /api/mobile-devices] answer 200 with all the rows of the map, in id order,
    without changing the store: the branch that would restrict the list to the
    rows of the caller is never taken, and every stored row is in the
    response whatever its [userId]. *)
Theorem listings_return_every_row (st : MemStorage) (req : Request) :
  GET_reports st req = (st, json_rows (values (reports st)))
  ∧ GET_blocked_frequencies st req = (st, json_rows (values (blockedFrequencies st)))
  ∧ GET_mobile_devices st req = (st, json_rows (values (mobileDevices st)))
  ∧ (∀ id row, getReport st id = Some row → listed (GET_reports st req).2 row)
  ∧ (∀ id row, getBlockedFrequency st id = Some row
               → listed (GET_blocked_frequencies st req).2 row)
  ∧ (∀ id row, getMobileDevice st id = Some row → listed (GET_mobile_devices st req).2 row).
Proof.
  assert (∀ e id row, get_row e id st = Some row
                      → VObj row ∈ map VObj (values (tbl e st))) as Hall.
  { intros e id row Hrow. apply list_elem_of_fmap. exists row. split; [done|].
    apply values_elem_of. by exists id. }
  repeat split; try done.
  - intros id row Hrow. apply (Hall Reports id row Hrow).
  - intros id row Hrow. apply (Hall BlockedFrequencies id row Hrow).
  - intros id row Hrow. apply (Hall MobileDevices id row Hrow).
Qed.

(** *** Subscriptions *)

Lemma find_snoc_None {A} (P : A → bool) l x :
  List.find P l = None → List.find P (l ++ [x]) = if P x then Some x else None.
Proof.
  induction l as [|y l IH]; simpl; [done|]. destruct (P y); [done|apply IH].
Qed.

Lemma find_omap_update {K A} `{EqDecision K} (P : A → bool) (g : K → option A) (f : A → A)
    (k : K) (sub : A) (l : list K) :
  List.find P (omap g l) = Some sub →
  g k = Some sub → (∀ k', g k' = Some sub → k' = k) → P (f sub) = true →
  List.find P (omap (λ k', if decide (k = k') then f <$> g k else g k') l) = Some (f sub).
Proof.
  intros Hfind Hk Huniq HP. induction l as [|k' l IH]; [done|].
  cbn in Hfind |- *. case_decide as Hkk.
  - subst k'. rewrite Hk. cbn. by rewrite HP.
  - destruct (g k') as [r|] eqn:Hr; cbn in Hfind |- *; [|by apply IH].
    destruct (P r) eqn:HPr; [|by apply IH].
    injection Hfind as ->. by apply Huniq in Hr.
Qed.

Lemma VInt_inj a b : VInt a = VInt b → a = b.
Proof. unfold VInt, inject_Z. by intros [= ->]. Qed.

(** Updating the subscription found for a user: the update goes through, and
    the same search finds the updated row. *)
Lemma getUserSubscription_update st userId sub data now :
  ids_match_keys st →
  getUserSubscription st userId = Some sub →
  own data "userId"%string = None →
  let sub' := set_prop "updatedAt" (VDate now) (spread sub data) in
  ∃ st', updateSubscription_of st sub data now = (st', Some sub')
         ∧ getUserSubscription st' userId = Some sub'.
Proof.
  intros Inv Hfind Hdata. cbv zeta.
  assert (sub ∈ values (subscriptions st)) as Hin.
  { apply list_elem_of_In. unfold getUserSubscription in Hfind.
    by apply find_some in Hfind as [? _]. }
  apply values_elem_of in Hin as [k Hk].
  pose proof (Inv Subscriptions k sub Hk) as Hid. cbn [tbl] in Hid.
  unfold updateSubscription_of. rewrite Hid, key_of_VInt.
  unfold updateSubscription, update_row. cbn [tbl]. rewrite Hk.
  eexists. split; [reflexivity|].
  unfold getUserSubscription in *.
  pose proof (values_update_row Subscriptions
                (λ s, set_prop "updatedAt" (VDate now) (spread s data)) k st) as Hv.
  unfold update_row in Hv. cbn [tbl] in Hv. rewrite Hk in Hv. cbn [fst] in Hv.
  cbn [tbl] in *. rewrite Hv, <- Hk.
  apply (find_omap_update (λ s, strict_eq (get s "userId"%string) userId)
           (λ k', rows (subscriptions st) !! k')
           (λ s, set_prop "updatedAt" (VDate now) (spread s data)) k sub); try done.
  - intros k' Hk'.
    pose proof (Inv Subscriptions k' sub Hk') as Hid'. rewrite Hid in Hid'.
    symmetry. by apply VInt_inj.
  - rewrite get_set_prop_ne by done. rewrite get_spread_absent by done.
    by apply find_some in Hfind as [_ ?].
Qed.

(** Creating a subscription for a user who has none: the search finds it. *)
Lemma getUserSubscription_create st userId data t1 t2 :
  below_counter (subscriptions st) →
  getUserSubscription st userId = None →
  strict_eq (get data "userId"%string) userId = true →
  getUserSubscription (createSubscription st data t1 t2).1 userId
  = Some (createSubscription st data t1 t2).2.
Proof.
  intros Hb Hnone Hu. unfold getUserSubscription in *. unfold createSubscription.
  pose proof (values_insert_new Subscriptions) as Hv. cbn [tbl] in Hv.
  rewrite Hv by done. rewrite find_snoc_None by done. cbn [snd insert_new].
  change (get _ "userId"%string) with (get data "userId"%string). by rewrite Hu.
Qed.

(** X9.  A trial starts at most once.  In every state reached from [new
    MemStorage()] by operations that leave the ids alone, [POST
    /api/start-trial] either answers 200 with the subscription it created or
    switched to the trial plan, or answers 400 (Trial already used) without
    touching the store; in both cases the next [POST /api/start-trial] is
    refused with 400 (Trial already used) and changes nothing. *)
Theorem trial_starts_once (t1 t2 : Z) (ops : list op) (now now' : clock)
    (req req' : Request) :
  keeps_ids ops →
  let st := run ops (constructor t1 t2) in
  let first := POST_start_trial now st req in
  (status first.2 = 200 ∨ first = (st, json 400 (message "Trial already used")))
  ∧ POST_start_trial now' first.1 req' = (first.1, json 400 (message "Trial already used")).
Proof.
  intros Hk. cbv zeta. set (st := run ops (constructor t1 t2)).
  assert (keys_below_counter st) as Inv
    by apply run_keys_below_counter, constructor_keys_below_counter.
  assert (ids_match_keys st) as Ids
    by (apply run_ids_match_keys; [done|apply constructor_ids_match_keys]).
  unfold POST_start_trial, serve. simpl chain. cbv beta iota.
  unfold start_trial_handler. cbn [user with_user].
  change (get defaultUser "id") with (VInt 999).
  destruct (getUserSubscription st (VInt 999)) as [sub|] eqn:Hfind.
  - destruct (truthy (get sub "trialUsed")) eqn:Hused.
    + cbn [try_catch fst snd]. split; [by right|]. by rewrite Hfind, Hused.
    + match goal with |- context [updateSubscription_of st sub ?d ?n] =>
        destruct (getUserSubscription_update st (VInt 999) sub d n Ids Hfind eq_refl)
          as (st' & -> & Hfind')
      end.
      cbn [try_catch fst snd json_optional json status]. split; [by left|].
      rewrite Hfind'.
      rewrite get_set_prop_ne by done.
      unfold spread. cbn [fold_left fst snd].
      rewrite !get_set_prop_ne by done.
      unfold get at 1. rewrite own_set_prop_eq. done.
  - pose proof (getUserSubscription_create st (VInt 999)) as Hc.
    match goal with |- context [createSubscription st ?d ?a ?b] =>
      specialize (Hc d a b (λ k, Inv Subscriptions k) Hfind eq_refl);
      destruct (createSubscription st d a b) as [st' created] eqn:E
    end.
    cbn [try_catch fst snd json status] in *. split; [by left|].
    rewrite Hc.
    assert (truthy (get created "trialUsed") = true) as ->; [|done].
    unfold createSubscription, insert_new in E. by injection E as <- <-.
Qed.

(** X10.  Subscribing, then reading the subscription back.  In every state
    reached from [new MemStorage()] by operations that leave the ids alone,
    [POST /api/subscribe] with a truthy [plan] answers 200 with a subscription
    of the caller on that plan (created, or the caller's first one updated),
    and [GET /api/my-subscription] then returns this same subscription. *)
Theorem subscribe_then_read_back (t1 t2 : Z) (ops : list op) (now : clock)
    (req req' : Request) (plan : value) :
  keeps_ids ops →
  prop (body req) "plan" = Some plan → truthy plan = true →
  let st := run ops (constructor t1 t2) in
  let first := POST_subscribe now st req in
  ∃ sub,
    first.2 = json 200 (VObj sub)
    ∧ get sub "plan" = plan
    ∧ strict_eq (get sub "userId") (VInt 999) = true
    ∧ GET_my_subscription first.1 req' = (first.1, json 200 (VObj sub)).
Proof.
  intros Hk Hplan Htruthy. cbv zeta. set (st := run ops (constructor t1 t2)).
  assert (keys_below_counter st) as Inv
    by apply run_keys_below_counter, constructor_keys_below_counter.
  assert (ids_match_keys st) as Ids
    by (apply run_ids_match_keys; [done|apply constructor_ids_match_keys]).
  unfold POST_subscribe, GET_my_subscription, serve. simpl chain. cbv beta iota.
  unfold subscribe_handler, my_subscription_handler. cbn [user with_user body].
  rewrite Hplan, Htruthy. cbn [negb].
  change (get defaultUser "id") with (VInt 999).
  destruct (getUserSubscription st (VInt 999)) as [sub|] eqn:Hfind.
  - match goal with |- context [updateSubscription_of st sub ?d ?n] =>
      destruct (getUserSubscription_update st (VInt 999) sub d n Ids Hfind eq_refl)
        as (st' & -> & Hfind')
    end.
    cbn [try_catch fst snd json_optional]. eexists. split; [reflexivity|].
    rewrite Hfind'. split; [|split; [|done]].
    + rewrite get_set_prop_ne by done.
      unfold spread. cbn [fold_left fst snd].
      rewrite !get_set_prop_ne by done.
      unfold get. by rewrite own_set_prop_eq.
    + rewrite get_set_prop_ne by done. rewrite get_spread_absent by done.
      unfold getUserSubscription in Hfind. by apply find_some in Hfind as [_ ?].
  - pose proof (getUserSubscription_create st (VInt 999)) as Hc.
    match goal with |- context [createSubscription st ?d ?a ?b] =>
      specialize (Hc d a b (λ k, Inv Subscriptions k) Hfind eq_refl);
      destruct (createSubscription st d a b) as [st' created] eqn:E
    end.
    cbn [try_catch fst snd] in *. exists created. split; [done|].
    rewrite Hc. unfold createSubscription, insert_new in E. injection E as <- <-.
    by repeat split.
Qed.

(** *** Mesh devices: refresh *)

Lemma random_step_range (random : Q) :
  (0 <= random)%Q → (random < 1)%Q → 0 ≤ Qfloor (random * inject_Z 5) ≤ 4.
Proof.
  intros H0 H1. split.
  - change 0 with (Qfloor 0). apply Qfloor_resp_le. unfold inject_Z. nra.
  - assert (Qfloor (random * inject_Z 5) < 5); [|lia].
    rewrite Zlt_Qlt. eapply Qle_lt_trans; [apply Qfloor_le|].
    unfold inject_Z. nra.
Qed.

Lemma refreshed_battery_range StringToNumber ObjectToNumber (b random : Q) :
  (0 <= random)%Q → (random < 1)%Q →
  ∃ b', refreshed_battery StringToNumber ObjectToNumber (VNum (Num b)) random = Num b'
        ∧ (1 <= b' <= 100)%Q
        ∧ ((1 <= b <= 100)%Q → (b - 4 <= b' <= b)%Q).
Proof.
  intros H0 H1. pose proof (random_step_range random H0 H1) as [Hlo Hhi].
  unfold refreshed_battery, to_number, Relay.to_number, Relay.num_mul, Relay.Math_floor,
    num_sub, Relay.Math_min, Math_max, Relay.int.
  set (n := Qfloor (random * inject_Z 5)) in *.
  assert (0 <= inject_Z n)%Q as Hn0 by (change (inject_Z 0 <= inject_Z n)%Q; by rewrite <- Zle_Qle).
  assert (inject_Z n <= 4)%Q as Hn4 by (change (inject_Z n <= inject_Z 4)%Q; by rewrite <- Zle_Qle).
  destruct (Qle_bool (inject_Z 100) (b - inject_Z n)) eqn:E1.
  - exists (inject_Z 100). apply Qle_bool_iff in E1. unfold inject_Z in *.
    split; [done|]. split; [lra|]. intros [? ?]. lra.
  - assert (¬ (inject_Z 100 <= b - inject_Z n)%Q) as Hlt
      by (intros ?%Qle_bool_iff; congruence).
    apply Qnot_le_lt in Hlt.
    destruct (Qle_bool (inject_Z 1) (b - inject_Z n)) eqn:E2.
    + exists (b - inject_Z n)%Q. apply Qle_bool_iff in E2. unfold inject_Z in *.
      split; [done|]. split; [lra|]. intros [? ?]. lra.
    + assert (¬ (inject_Z 1 <= b - inject_Z n)%Q) as Hlt1
        by (intros ?%Qle_bool_iff; congruence).
      apply Qnot_le_lt in Hlt1. exists (inject_Z 1). unfold inject_Z in *.
      split; [done|]. split; [lra|]. intros [? ?]. lra.
Qed.

(** X11.  Refreshing a mesh device keeps its battery level in range.  When
    the stored [batteryLevel] is a number (or absent, which counts as 100) and
    [Math.random()] returns a number of [0, 1), [POST
    /api/mesh-devices/:id/refresh] stores and returns a level between 1 and
    100; a level that was between 1 and 100 drops by at most 4 and never
    rises; [active] is set to whether the new level is at least 15, and
    [lastSeen] to the time of the request. *)
Theorem refresh_keeps_battery_in_range (StringToNumber : string → num)
    (ObjectToNumber : value → num) (now : clock) (random : Q) (st : MemStorage)
    (req : Request) (id : Z) (device : obj) (b : Q) :
  parseInt (param_id req) = Some id →
  getMeshDevice st id = Some device →
  nullish_or (get device "batteryLevel") (VInt 100) = VNum (Num b) →
  (0 <= random)%Q → (random < 1)%Q →
  let out := POST_mesh_device_refresh StringToNumber ObjectToNumber now random st req in
  ∃ b' updated,
    out.2 = json 200 (VObj updated)
    ∧ getMeshDevice out.1 id = Some updated
    ∧ get updated "batteryLevel" = VNum (Num b')
    ∧ (1 <= b' <= 100)%Q
    ∧ ((1 <= b <= 100)%Q → (b - 4 <= b' <= b)%Q)
    ∧ get updated "active" = VBool (Qle_bool 15 b')
    ∧ get updated "lastSeen" = VDate (now 0%nat).
Proof.
  intros Hid Hdev Hb H0 H1. cbv zeta.
  destruct (refreshed_battery_range StringToNumber ObjectToNumber b random H0 H1)
    as (b' & Hb' & Hrange & Hdrop).
  unfold POST_mesh_device_refresh, serve. simpl chain. cbv beta iota.
  unfold refresh_mesh_device_handler.
  erewrite owned_row_admin by reflexivity. cbn [param_id with_user].
  rewrite Hid, Hdev, Hb, Hb'.
  unfold updateMeshDevice, update_row.
  change (rows (tbl MeshDevices st) !! id) with (getMeshDevice st id). rewrite Hdev.
  cbn [try_catch fst snd]. exists b'. eexists. split; [reflexivity|].
  split; [unfold getMeshDevice, get_row; rewrite tbl_set_tbl; simpl;
          by rewrite lookup_insert_eq|].
  unfold spread. cbn [fold_left fst snd].
  split; [|split; [exact Hrange|split; [exact Hdrop|split]]];
    rewrite ?get_set_prop_ne by done; unfold get; by rewrite own_set_prop_eq.
Qed.

(** *** Mobile devices: location and tracking *)

Lemma set_prop_keys k v o :
  map fst (set_prop k v o) = if own o k is Some _ then map fst o else map fst o ++ [k].
Proof.
  induction o as [|[k' v'] o IH]; [done|]. simpl.
  destruct (String.eqb k' k) eqn:E; [done|]. simpl. rewrite IH.
  by destruct (own o k).
Qed.

Lemma own_None_keys o k : own o k = None → k ∉ map fst o.
Proof.
  induction o as [|[k' v'] o IH]; simpl; [intros _; apply not_elem_of_nil|].
  destruct (String.eqb k' k) eqn:E; [done|]. intros H.
  apply not_elem_of_cons. split; [|by apply IH].
  intros ->. by rewrite String.eqb_refl in E.
Qed.

Lemma set_prop_NoDup k v o : NoDup (map fst o) → NoDup (map fst (set_prop k v o)).
Proof.
  intros Hnd. rewrite set_prop_keys. destruct (own o k) eqn:E; [done|].
  apply NoDup_app. split; [done|]. split; [|apply NoDup_singleton].
  intros x Hx ->%list_elem_of_singleton. by apply own_None_keys in E.
Qed.

(** [{ ...o, ...src }] takes the properties that [src] names from [src]. *)
Lemma own_spread_present o src k v :
  NoDup (map fst src) → own src k = Some v → own (spread o src) k = Some v.
Proof.
  unfold spread. revert o. induction src as [|[k0 v0] src IH]; intros o Hnd Hk; [done|].
  simpl in *. apply NoDup_cons in Hnd as [Hk0 Hnd].
  destruct (String.eqb k0 k) eqn:E.
  - apply String.eqb_eq in E. subst k0. injection Hk as ->.
    fold (spread (set_prop k v o) src). rewrite own_spread_absent; [apply own_set_prop_eq|].
    destruct (own src k) eqn:Es; [|done]. exfalso. apply Hk0.
    clear -Es. induction src as [|[k' v'] src IH]; [done|]. simpl in *.
    destruct (String.eqb k' k) eqn:E.
    + apply String.eqb_eq in E. subst. apply list_elem_of_here.
    + apply list_elem_of_further. by apply IH.
  - by apply IH.
Qed.

Section WithConversions.

Variable ToString : value → string.
Variable toISOString : Z → string.

Lemma next_history_bounded locationHistory locationData :
  ∃ history, next_history locationHistory locationData = VArr (locationData :: history)
             ∧ (length history ≤ 99)%nat
             ∧ (∀ old, locationHistory = VArr old → history = take 99 old).
Proof.
  unfold next_history. destruct (truthy locationHistory) eqn:Ht.
  - destruct locationHistory as [| | | | | |old|];
      try (exists []; split; [done|]; split; [simpl; lia|done]).
    exists (take 99 old). split; [done|]. split; [|by intros ? [= ->]].
    rewrite length_take. lia.
  - exists []. split; [done|]. split; [simpl; lia|].
    intros old ->. done.
Qed.

(** X12.  The location history of a device never exceeds 100 entries.  [POST
    /api/mobile-devices/:id/location] with a numeric latitude and longitude
    answers 200, stores the new fix as [lastLocation] and puts it at the head
    of [locationHistory], followed by at most 99 of the previous entries (the
    first 99 when the previous history is an array); without a numeric
    latitude and longitude it answers 400 and changes nothing. *)
Theorem location_history_is_bounded (now : clock) (st : MemStorage) (req : Request)
    (id : Z) (device : obj) (latitude : value) :
  parseInt (param_id req) = Some id →
  getMobileDevice st id = Some device →
  prop (body req) "latitude" = Some latitude →
  let out := POST_mobile_device_location toISOString now st req in
  (is_number latitude && is_number (opt_prop (body req) "longitude") = false →
     out = (st, json 400 (error "Invalid location data")))
  ∧ (is_number latitude && is_number (opt_prop (body req) "longitude") = true →
     ∃ location history updated,
       out.2 = json 200 (VObj [("success", VBool true); ("location", location)])
       ∧ opt_prop location "latitude" = latitude
       ∧ opt_prop location "longitude" = opt_prop (body req) "longitude"
       ∧ getMobileDevice out.1 id = Some updated
       ∧ get updated "lastLocation" = location
       ∧ get updated "locationHistory" = VArr (location :: history)
       ∧ (length (location :: history) ≤ 100)%nat
       ∧ ∀ old, get device "locationHistory" = VArr old → history = take 99 old).
Proof.
  intros Hid Hdev Hlat. cbv zeta.
  unfold POST_mobile_device_location, serve. simpl chain. cbv beta iota.
  unfold post_mobile_device_location_handler.
  erewrite owned_row_admin by reflexivity. cbn [param_id with_user body].
  rewrite Hid, Hdev, Hlat.
  destruct (is_number latitude) eqn:E1; cbn [negb orb andb]; [|by split].
  destruct (is_number (opt_prop (body req) "longitude")) eqn:E2; cbn [negb]; [|by split].
  split; [done|]. intros _.
  match goal with |- context [next_history ?h ?l] =>
    destruct (next_history_bounded h l) as (history & Hh & Hlen & Hold); rewrite Hh;
    exists l, history
  end.
  unfold updateMobileDevice, update_row.
  change (rows (tbl MobileDevices st) !! id) with (getMobileDevice st id). rewrite Hdev.
  cbn [try_catch fst snd]. eexists. split; [reflexivity|].
  split; [done|]. split; [done|].
  split; [unfold getMobileDevice, get_row; rewrite tbl_set_tbl; simpl;
          by rewrite lookup_insert_eq|].
  unfold spread. cbn [fold_left fst snd].
  split; [|split; [|split; [simpl; lia|exact Hold]]];
    rewrite ?get_set_prop_ne by done; unfold get; by rewrite own_set_prop_eq.
Qed.

Lemma tracking_update_Some device payload updateData :
  tracking_update ToString device payload = Some updateData →
  (opt_prop payload "trackingInterval" ≠ VUndefined →
     ∃ n, parseInt (to_string ToString (opt_prop payload "trackingInterval")) = Some n
          ∧ 10 ≤ n ≤ 600 ∧ own updateData "trackingInterval" = Some (VInt n))
  ∧ (opt_prop payload "trackingInterval" = VUndefined →
     own updateData "trackingInterval" = None)
  ∧ (truthy (opt_prop payload "trackingEnabled") = true →
     truthy (get device "locationSharing") = false →
     own updateData "locationSharing" = Some (VBool true))
  ∧ (truthy (opt_prop payload "trackingEnabled") = true →
     truthy (get device "locationSharing") = true →
     own updateData "locationSharing" = None).
Proof.
  unfold tracking_update.
  set (u1 := match opt_prop payload "trackingEnabled" with VUndefined => [] | _ => _ end).
  assert (own u1 "trackingInterval" = None) as Hu1i.
  { unfold u1. destruct (opt_prop payload "trackingEnabled"); try done;
      case_match; done. }
  assert (truthy (opt_prop payload "trackingEnabled") = true →
          own u1 "locationSharing"
          = if truthy (get device "locationSharing") then None else Some (VBool true))
    as Hu1s.
  { unfold u1. intros Ht.
    destruct (opt_prop payload "trackingEnabled") eqn:E; try done;
      rewrite Ht; destruct (truthy (get device "locationSharing")); done. }
  set (u2 := match opt_prop payload "trackingInterval" with VUndefined => Some u1 | _ => _ end).
  intros H.
  destruct u2 as [updateData2|] eqn:E2; [|done]. injection H as <-.
  assert (∀ k, k ≠ "trackingPurpose"%string →
            own (match opt_prop payload "trackingPurpose" with
                 | VUndefined => updateData2
                 | _ => set_prop "trackingPurpose" (opt_prop payload "trackingPurpose")
                          updateData2
                 end) k = own updateData2 k) as Hp.
  { intros k Hk. destruct (opt_prop payload "trackingPurpose"); try done;
      by rewrite own_set_prop_ne. }
  rewrite !Hp by done. clear Hp.
  assert (∀ k, k ≠ "trackingInterval"%string → own updateData2 k = own u1 k) as Hother.
  { intros k Hk. unfold u2 in E2.
    destruct (opt_prop payload "trackingInterval") eqn:Ei; try (by injection E2 as <-);
      destruct (parseInt _) as [m|]; try done;
      destruct ((m <? 10) || (600 <? m)); try done; injection E2 as <-;
      by rewrite own_set_prop_ne. }
  split; [|split; [|split]].
  - intros Hdef. unfold u2 in E2.
    destruct (opt_prop payload "trackingInterval") eqn:Ei; try done;
      destruct (parseInt _) as [m|] eqn:En; try done;
      destruct ((m <? 10) || (600 <? m)) eqn:Er; try done; injection E2 as <-;
      apply orb_false_iff in Er as [?%Z.ltb_ge ?%Z.ltb_ge];
      (exists m; split; [done|]; split; [lia|apply own_set_prop_eq]).
  - intros Hundef. unfold u2 in E2. rewrite Hundef in E2. by injection E2 as <-.
  - intros Ht Hs. rewrite Hother by done. rewrite Hu1s by done. by rewrite Hs.
  - intros Ht Hs. rewrite Hother by done. rewrite Hu1s by done. by rewrite Hs.
Qed.

Lemma tracking_update_NoDup device payload updateData :
  tracking_update ToString device payload = Some updateData → NoDup (map fst updateData).
Proof.
  unfold tracking_update.
  set (u1 := match opt_prop payload "trackingEnabled" with VUndefined => [] | _ => _ end).
  assert (NoDup (map fst u1)) as H1.
  { unfold u1. destruct (opt_prop payload "trackingEnabled"); try apply NoDup_nil_2;
      try case_match; repeat apply set_prop_NoDup; apply NoDup_nil_2. }
  set (u2 := match opt_prop payload "trackingInterval" with VUndefined => Some u1 | _ => _ end).
  assert (∀ d, u2 = Some d → NoDup (map fst d)) as H2.
  { intros d. unfold u2.
    destruct (opt_prop payload "trackingInterval"); try (by intros [= <-]);
      destruct (parseInt _) as [m|]; try done;
      destruct ((m <? 10) || (600 <? m)); try done; intros [= <-];
      by apply set_prop_NoDup. }
  destruct u2 as [d|]; [|done]. intros [= <-].
  specialize (H2 d eq_refl).
  destruct (opt_prop payload "trackingPurpose"); try done; by apply set_prop_NoDup.
Qed.

(** What the tracking route has done when it answers 200, and when not. *)
Lemma put_tracking_outcome now st req :
  let out := PUT_mobile_device_tracking ToString now st req in
  (status out.2 ≠ 200 → out.1 = st)
  ∧ (status out.2 = 200 →
     ∃ id device updateData,
       parseInt (param_id req) = Some id
       ∧ getMobileDevice st id = Some device
       ∧ tracking_update ToString device (body req) = Some updateData
       ∧ getMobileDevice out.1 id
         = Some (set_prop "updatedAt" (VDate (now 0%nat)) (spread device updateData))).
Proof.
  cbv zeta. unfold PUT_mobile_device_tracking, serve. simpl chain. cbv beta iota.
  unfold put_mobile_device_tracking_handler.
  erewrite owned_row_admin by reflexivity. cbn [param_id with_user body].
  destruct (parseInt (param_id req)) as [id|] eqn:Hid; [|by split].
  destruct (getMobileDevice st id) as [device|] eqn:Hdev; [|by split].
  destruct (prop (body req) "trackingEnabled"); [|by split].
  destruct (tracking_update ToString device (body req)) as [updateData|] eqn:Hup;
    [|by split].
  unfold updateMobileDevice, update_row.
  change (rows (tbl MobileDevices st) !! id) with (getMobileDevice st id). rewrite Hdev.
  cbn [try_catch fst snd status json]. split; [done|]. intros _.
  exists id, device, updateData. split; [done|]. split; [done|]. split; [done|].
  unfold getMobileDevice, get_row. rewrite tbl_set_tbl. simpl. by rewrite lookup_insert_eq.
Qed.

(** X13.  The tracking interval is validated before anything is stored.  When
    [PUT /api/mobile-devices/:id/tracking] answers 200 and the body names a
    [trackingInterval], the stored interval is the integer [parseInt] reads
    from it and lies between 10 and 600; when the body names none, the stored
    interval is untouched.  Every other answer (400 for a refused interval
    included) leaves the store as it was, so a refused interval also discards
    the [trackingEnabled] and [trackingPurpose] sent with it. *)
Theorem tracking_interval_is_validated (now : clock) (st : MemStorage) (req : Request) :
  let out := PUT_mobile_device_tracking ToString now st req in
  let interval := opt_prop (body req) "trackingInterval" in
  (status out.2 ≠ 200 → out.1 = st)
  ∧ (status out.2 = 200 →
     ∃ id device updated,
       parseInt (param_id req) = Some id
       ∧ getMobileDevice st id = Some device
       ∧ getMobileDevice out.1 id = Some updated
       ∧ (interval ≠ VUndefined →
            ∃ n, parseInt (to_string ToString interval) = Some n
                 ∧ 10 ≤ n ≤ 600 ∧ get updated "trackingInterval" = VInt n)
       ∧ (interval = VUndefined →
            get updated "trackingInterval" = get device "trackingInterval")).
Proof.
  cbv zeta. destruct (put_tracking_outcome now st req) as [Hno Hyes].
  split; [exact Hno|]. intros H200.
  destruct (Hyes H200) as (id & device & updateData & Hid & Hdev & Hup & Hget).
  exists id, device. eexists. split; [done|]. split; [done|]. split; [exact Hget|].
  destruct (tracking_update_Some device (body req) updateData Hup) as (Hi & Hn & _).
  pose proof (tracking_update_NoDup device (body req) updateData Hup) as Hnd.
  rewrite get_set_prop_ne by done. split.
  - intros Hdef. destruct (Hi Hdef) as (n & Hp & Hr & Hown).
    exists n. split; [done|]. split; [done|].
    unfold get. by rewrite (own_spread_present _ _ _ _ Hnd Hown).
  - intros Hundef. by rewrite get_spread_absent by auto.
Qed.

(** X14.  Enabling tracking opens the location endpoint.  After a [PUT
    /api/mobile-devices/:id/tracking] that answers 200 with a truthy
    [trackingEnabled], location sharing is on for the device, and [GET
    /api/mobile-devices/:id/location] answers 200 with the stored location
    instead of the 403 it gives while sharing is off. *)
Theorem enabling_tracking_opens_location (now now' : clock) (st : MemStorage)
    (req req' : Request) (id : Z) :
  parseInt (param_id req) = Some id → parseInt (param_id req') = Some id →
  truthy (opt_prop (body req) "trackingEnabled") = true →
  let out := PUT_mobile_device_tracking ToString now st req in
  status out.2 = 200 →
  ∃ updated,
    getMobileDevice out.1 id = Some updated
    ∧ truthy (get updated "locationSharing") = true
    ∧ dispatch zod_partial_parse GET_mobile_device_location now' out.1 req'
      = (out.1, json 200 (VObj
           [ ("lastLocation", or_else (get updated "lastLocation") VNull);
             ("trackingEnabled", or_else (get updated "trackingEnabled") (VBool false));
             ("trackingInterval", or_else (get updated "trackingInterval") (VInt 60)) ])).
Proof.
  intros Hid Hid' Hen. cbv zeta. intros H200.
  destruct (put_tracking_outcome now st req) as [_ Hyes].
  destruct (Hyes H200) as (id0 & device & updateData & Hid0 & Hdev & Hup & Hget).
  assert (id0 = id) as -> by congruence.
  destruct (tracking_update_Some device (body req) updateData Hup) as (_ & _ & Hoff & Hon).
  pose proof (tracking_update_NoDup device (body req) updateData Hup) as Hnd.
  eexists. split; [exact Hget|].
  assert (truthy (get (set_prop "updatedAt" (VDate (now 0%nat)) (spread device updateData))
                      "locationSharing") = true) as Hsharing.
  { rewrite get_set_prop_ne by done.
    destruct (truthy (get device "locationSharing")) eqn:Hs.
    - by rewrite get_spread_absent by auto.
    - unfold get. by rewrite (own_spread_present _ _ _ _ Hnd (Hoff Hen eq_refl)). }
  split; [exact Hsharing|].
  unfold dispatch, serve. simpl chain. cbv beta iota.
  unfold get_mobile_device_location_handler.
  erewrite owned_row_admin by reflexivity. cbn [param_id with_user].
  rewrite Hid', Hget, Hsharing. done.
Qed.

End WithConversions.

(** *** Mobile alerts *)

(** X15.  Reading an alert marks it as read, after the answer is built.  [GET
    /api/mobile-alerts/:id] on a stored alert answers 200 with the alert as it
    was stored before the request, so an unread alert is returned with its
    falsy [read]; afterwards the stored alert has [read: true] and is
    otherwise unchanged, no other row has changed, and a second request
    returns the alert with [read: true] and changes nothing. *)
Theorem viewing_an_alert_marks_it_read (st : MemStorage) (req : Request) (id : Z)
    (alert : obj) :
  parseInt (param_id req) = Some id →
  getMobileAlert st id = Some alert →
  let out := GET_mobile_alert st req in
  let alert' := if truthy (get alert "read") then alert
                else set_prop "read" (VBool true) alert in
  out.2 = json 200 (VObj alert)
  ∧ getMobileAlert out.1 id = Some alert'
  ∧ truthy (get alert' "read") = true
  ∧ (∀ k, k ≠ "read"%string → get alert' k = get alert k)
  ∧ (∀ e k, (e, k) ≠ (MobileAlerts, id) → rows (tbl e out.1) !! k = rows (tbl e st) !! k)
  ∧ GET_mobile_alert out.1 req = (out.1, json 200 (VObj alert')).
Proof.
  intros Hid Halert. cbv zeta.
  unfold GET_mobile_alert, serve. simpl chain. cbv beta iota.
  unfold get_mobile_alert_handler. cbn [param_id with_user].
  rewrite Hid, Halert. cbn [try_catch fst snd].
  destruct (truthy (get alert "read")) eqn:Hread; cbn [negb].
  - rewrite Halert, Hread. by repeat split.
  - unfold markMobileAlertAsRead, updateMobileAlert, update_row.
    change (rows (tbl MobileAlerts st) !! id) with (getMobileAlert st id).
    rewrite Halert. cbn [fst]. unfold spread. cbn [fold_left fst snd].
    assert (getMobileAlert
              (set_tbl MobileAlerts
                 {| rows := <[id:=set_prop "read" (VBool true) alert]>
                              (rows (tbl MobileAlerts st));
                    counter := counter (tbl MobileAlerts st) |} st) id
            = Some (set_prop "read" (VBool true) alert)) as Hnew.
    { unfold getMobileAlert, get_row. rewrite tbl_set_tbl. simpl.
      by rewrite lookup_insert_eq. }
    assert (truthy (get (set_prop "read" (VBool true) alert) "read") = true) as Hr.
    { unfold get. by rewrite own_set_prop_eq. }
    split; [done|]. split; [exact Hnew|]. split; [exact Hr|]. split; [|split].
    + intros k Hk. by apply get_set_prop_ne.
    + intros e k Hne. destruct (decide (e = MobileAlerts)) as [->|He].
      * rewrite tbl_set_tbl. simpl. rewrite lookup_insert_ne; [done|congruence].
      * by rewrite tbl_set_tbl_ne.
    + by rewrite Hnew, Hr.
Qed.

End WithEngine.

(** User 999 holds a paid subscription: the first request switches it to the
    trial, the second is refused. *)
Lemma trial_starts_once_witness :
  keeps_ids Cases.subscribed
  ∧ status (POST_start_trial (λ _, 10) (run Cases.subscribed (constructor 1 2))
              (Samples.request "" (VObj []))).2 = 200
  ∧ (POST_start_trial (λ _, 20)
       (POST_start_trial (λ _, 10) (run Cases.subscribed (constructor 1 2))
          (Samples.request "" (VObj []))).1
       (Samples.request "" (VObj []))).2
    = json 400 (message "Trial already used").
Proof.
  assert (keeps_ids Cases.subscribed) as H
    by (repeat constructor; intros d; discriminate).
  split; [exact H|]. split; [vm_compute; reflexivity|].
  exact (f_equal snd (proj2 (trial_starts_once 1 2 Cases.subscribed (λ _, 10) (λ _, 20)
                               (Samples.request "" (VObj []))
                               (Samples.request "" (VObj [])) H))).
Defined.

(** On a fresh store the caller subscribes to the STANDARD plan and reads the
    subscription back. *)
Lemma subscribe_then_read_back_witness :
  keeps_ids []
  ∧ ∃ sub,
      (POST_subscribe (λ _, 10) (constructor 1 2)
         (Samples.request "" (VObj [("plan"%string, VStr "STANDARD")]))).2
      = json 200 (VObj sub)
      ∧ get sub "plan" = VStr "STANDARD"
      ∧ (GET_my_subscription
           (POST_subscribe (λ _, 10) (constructor 1 2)
              (Samples.request "" (VObj [("plan"%string, VStr "STANDARD")]))).1
           (Samples.request "" VUndefined)).2
        = json 200 (VObj sub).
Proof.
  assert (keeps_ids []) as H by constructor.
  split; [exact H|].
  destruct (subscribe_then_read_back 1 2 [] (λ _, 10)
              (Samples.request "" (VObj [("plan"%string, VStr "STANDARD")]))
              (Samples.request "" VUndefined) (VStr "STANDARD") H eq_refl eq_refl)
    as (sub & Hres & Hplan & _ & Hget).
  exists sub. split; [exact Hres|]. split; [exact Hplan|]. exact (f_equal snd Hget).
Defined.

(** A sensor at 50 is refreshed while [Math.random()] returns one half. *)
Lemma refresh_keeps_battery_in_range_witness :
  parseInt (param_id (Samples.request "1" VUndefined)) = Some 1
  ∧ (0 <= 1 # 2)%Q ∧ (1 # 2 < 1)%Q
  ∧ ∃ b' updated,
      (POST_mesh_device_refresh Cases.nan_of_string Cases.nan_of_object (λ _, 9) (1 # 2)
         Cases.store_with_sensor (Samples.request "1" VUndefined)).2
      = json 200 (VObj updated)
      ∧ get updated "batteryLevel" = VNum (Num b')
      ∧ (1 <= b' <= 100)%Q ∧ (inject_Z 50 - 4 <= b' <= inject_Z 50)%Q.
Proof.
  assert (0 <= 1 # 2)%Q as H0 by done.
  assert (1 # 2 < 1)%Q as H1 by done.
  assert (1 <= inject_Z 50 <= 100)%Q as H50 by (split; done).
  split; [reflexivity|]. split; [exact H0|]. split; [exact H1|].
  destruct (refresh_keeps_battery_in_range Cases.nan_of_string Cases.nan_of_object
              (λ _, 9) (1 # 2) Cases.store_with_sensor (Samples.request "1" VUndefined)
              1 _ (inject_Z 50) eq_refl eq_refl eq_refl H0 H1)
    as (b' & updated & Hres & _ & Hlevel & Hrange & Hdrop & _).
  exists b', updated. split; [exact Hres|]. split; [exact Hlevel|].
  split; [exact Hrange|exact (Hdrop H50)].
Defined.

(** A first position is reported for the phone of user 999. *)
Lemma location_history_is_bounded_witness :
  parseInt (param_id (Samples.request "1" Cases.position)) = Some 1
  ∧ ∃ location updated,
      getMobileDevice (POST_mobile_device_location Cases.iso (λ _, 9) Cases.store_with_phone
                         (Samples.request "1" Cases.position)).1 1 = Some updated
      ∧ get updated "locationHistory" = VArr [location].
Proof.
  split; [reflexivity|].
  destruct (location_history_is_bounded Cases.iso (λ _, 9) Cases.store_with_phone
              (Samples.request "1" Cases.position) 1 _ _ eq_refl eq_refl eq_refl)
    as [_ Hok].
  destruct (Hok eq_refl) as (location & history & updated & _ & _ & _ & Hget & _ & Hh & _ & Hold).
  exists location, updated. split; [exact Hget|].
  rewrite Hh. f_equal. f_equal.
  destruct history as [|entry history]; [reflexivity|].
  exfalso. clear -Hh Hget. vm_compute in Hget. injection Hget as <-. vm_compute in Hh.
  discriminate Hh.
Defined.

(** Tracking every 30 seconds is switched on for the phone, whose location
    sharing was off. *)
Lemma enabling_tracking_opens_location_witness :
  parseInt (param_id (Samples.request "1" Cases.track_every_30s)) = Some 1
  ∧ truthy (opt_prop Cases.track_every_30s "trackingEnabled") = true
  ∧ status (PUT_mobile_device_tracking Cases.no_text (λ _, 9) Cases.store_with_phone
              (Samples.request "1" Cases.track_every_30s)).2 = 200
  ∧ status (dispatch Samples.accept_objects GET_mobile_device_location (λ _, 0)
              Cases.store_with_phone (Samples.request "1" VUndefined)).2 = 403
  ∧ status (dispatch Samples.accept_objects GET_mobile_device_location (λ _, 0)
              (PUT_mobile_device_tracking Cases.no_text (λ _, 9) Cases.store_with_phone
                 (Samples.request "1" Cases.track_every_30s)).1
              (Samples.request "1" VUndefined)).2 = 200.
Proof.
  assert (status (PUT_mobile_device_tracking Cases.no_text (λ _, 9) Cases.store_with_phone
                    (Samples.request "1" Cases.track_every_30s)).2 = 200) as H200
    by (vm_compute; reflexivity).
  split; [reflexivity|]. split; [reflexivity|]. split; [exact H200|].
  split; [vm_compute; reflexivity|].
  destruct (enabling_tracking_opens_location Samples.accept_objects Cases.no_text
              (λ _, 9) (λ _, 0) Cases.store_with_phone
              (Samples.request "1" Cases.track_every_30s) (Samples.request "1" VUndefined)
              1 eq_refl eq_refl eq_refl H200) as (updated & _ & _ & ->).
  reflexivity.
Defined.

(** The alert raised on the phone is read twice. *)
Lemma viewing_an_alert_marks_it_read_witness :
  parseInt (param_id (Samples.request "1" VUndefined)) = Some 1
  ∧ ∃ alert,
      getMobileAlert Cases.store_with_alert 1 = Some alert
      ∧ (GET_mobile_alert Cases.store_with_alert (Samples.request "1" VUndefined)).2
        = json 200 (VObj alert)
      ∧ get alert "read" = VBool false
      ∧ (GET_mobile_alert
           (GET_mobile_alert Cases.store_with_alert (Samples.request "1" VUndefined)).1
           (Samples.request "1" VUndefined)).2
        = json 200 (VObj (set_prop "read" (VBool true) alert)).
Proof.
  split; [reflexivity|]. eexists. split; [reflexivity|].
  destruct (viewing_an_alert_marks_it_read Cases.store_with_alert
              (Samples.request "1" VUndefined) 1 _ eq_refl eq_refl)
    as (Hres & _ & _ & _ & _ & Hagain).
  split; [exact Hres|]. split; [reflexivity|]. exact (f_equal snd Hagain).
Defined.

End ApiFacts.

(** ** Delivery of the relayed messages *)

Module DeliveryFacts.
Import JS Relay Delivery JSFacts.
Import QueriesFacts (get_set_prop_ne).
Local Open Scope string_scope.
Local Open Scope list_scope.

(** *** The client entries *)

Lemma update_info_ext f g ws m :
  (∀ info, f info = g info) → update_info f ws m = update_info g ws m.
Proof.
  intros Hfg. induction m as [|[c info] m IH]; [done|].
  simpl. destruct (Nat.eqb c ws); [by rewrite Hfg|by rewrite IH].
Qed.

Lemma update_info_absent f ws m : info_of m ws = None → update_info f ws m = m.
Proof.
  induction m as [|[c info] m IH]; [done|].
  simpl. destruct (Nat.eqb c ws); [done|]. intros H. by rewrite IH.
Qed.

Lemma update_info_compose f g ws m :
  update_info g ws (update_info f ws m) = update_info (λ info, g (f info)) ws m.
Proof.
  induction m as [|[c info] m IH]; [done|].
  simpl. destruct (Nat.eqb c ws) eqn:E; simpl; rewrite E; [done|by rewrite IH].
Qed.

Lemma map_fst_update_info f ws m : map fst (update_info f ws m) = map fst m.
Proof.
  induction m as [|[c info] m IH]; [done|].
  simpl. destruct (Nat.eqb c ws); simpl; [done|by rewrite IH].
Qed.

Lemma info_of_update_info f ws m : info_of (update_info f ws m) ws = f <$> info_of m ws.
Proof.
  induction m as [|[c info] m IH]; [done|].
  simpl. destruct (Nat.eqb c ws) eqn:E; simpl; by rewrite E.
Qed.

Lemma info_of_update_info_ne f ws c m :
  c ≠ ws → info_of (update_info f ws m) c = info_of m c.
Proof.
  intros Hne. induction m as [|[c' info] m IH]; [done|].
  simpl. destruct (Nat.eqb c' ws) eqn:E; simpl.
  - apply Nat.eqb_eq in E as ->.
    destruct (Nat.eqb ws c) eqn:E'; [|done]. apply Nat.eqb_eq in E'. congruence.
  - by rewrite IH.
Qed.

Lemma with_connectedClients_same st : with_connectedClients (connectedClients st) st = st.
Proof. by destruct st. Qed.

Lemma with_connectedClients_twice m m' st :
  with_connectedClients m' (with_connectedClients m st) = with_connectedClients m' st.
Proof. done. Qed.

(** The first statements of the [try] block leave the state with the entry of
    the sender refreshed. *)
Lemma touch_state now ws data st :
  (touch now ws data st).1
  = with_connectedClients (update_info (refreshed now data) ws (connectedClients st)) st.
Proof.
  unfold touch. destruct (info_of (connectedClients st) ws) eqn:Hinfo.
  - unfold refreshed, opt_prop. destruct (prop data "location") as [location|]; simpl.
    + destruct (truthy location); simpl; [|done].
      by rewrite update_info_compose.
    + done.
  - simpl. by rewrite update_info_absent, with_connectedClients_same.
Qed.

(** They throw on [null] alone, and only for a registered sender. *)
Lemma touch_result now ws data st :
  prop data "location" ≠ None → (touch now ws data st).2 = Some tt.
Proof.
  intros Hloc. unfold touch. destruct (info_of (connectedClients st) ws); [|done].
  destruct (prop data "location") as [location|]; [|done].
  by destruct (truthy location).
Qed.

Lemma refreshed_other now data info k :
  k ≠ "lastActive" → k ≠ "location" → get (refreshed now data info) k = get info k.
Proof.
  intros H1 H2. unfold refreshed.
  destruct (truthy _); rewrite ?get_set_prop_ne by done; done.
Qed.

Lemma refreshed_lastActive now data info :
  get (refreshed now data info) "lastActive" = VDate now.
Proof.
  unfold refreshed.
  destruct (truthy _); rewrite ?get_set_prop_ne by done; unfold get;
    by rewrite own_set_prop_eq.
Qed.

(** *** Sending *)

Lemma appends_refl ws st : appends ws st st.
Proof.
  split; [done|]. split; [done|]. split; [done|]. split.
  - exists []. by rewrite app_nil_r.
  - exists []. split; [by rewrite app_nil_r|]. intros c m Hin. by apply elem_of_nil in Hin.
Qed.

Lemma appends_trans ws st1 st2 st3 :
  appends ws st1 st2 → appends ws st2 st3 → appends ws st1 st3.
Proof.
  intros (Hc & Hr & Hi & [t Ht] & new & Hs & Hnew)
         (Hc' & Hr' & Hi' & [t' Ht'] & new' & Hs' & Hnew').
  split; [congruence|]. split; [congruence|]. split; [congruence|]. split.
  - exists (t ++ t'). by rewrite Ht', Ht, app_assoc.
  - exists (new ++ new'). split; [by rewrite Hs', Hs, app_assoc|].
    intros c m Hin. apply elem_of_app in Hin as [Hin|Hin]; [by eapply Hnew|].
    rewrite <- Hr. by eapply Hnew'.
Qed.

Lemma appends_send_self ws m st : appends ws st (send ws m st).
Proof.
  split; [done|]. split; [done|]. split; [done|]. split.
  - exists []. by rewrite app_nil_r.
  - exists [(ws, m)]. split; [done|]. intros c m' Hin.
    apply list_elem_of_singleton in Hin. left. congruence.
Qed.

Lemma appends_send_open ws c m st : readyState st c = OPEN → appends ws st (send c m st).
Proof.
  intros Hopen. split; [done|]. split; [done|]. split; [done|]. split.
  - exists []. by rewrite app_nil_r.
  - exists [(c, m)]. split; [done|]. intros c' m' Hin.
    apply list_elem_of_singleton in Hin. right. congruence.
Qed.

Lemma appends_broadcast ws m st : appends ws st (broadcast m st).
Proof.
  split; [done|]. split; [done|]. split; [done|]. split.
  - exists []. by rewrite app_nil_r.
  - eexists. split; [reflexivity|]. intros c m' Hin.
    apply list_elem_of_fmap in Hin as (c' & Heq & Hin). injection Heq as -> ->.
    apply list_elem_of_filter in Hin as [Hopen _]. right.
    unfold is_open in Hopen. by apply bool_decide_eq_true in Hopen.
Qed.

Lemma appends_timer ws delay t st : appends ws st (with_timer delay t st).
Proof.
  split; [done|]. split; [done|]. split; [done|]. split.
  - by eexists.
  - exists []. split; [by rewrite app_nil_r|]. intros c m Hin. by apply elem_of_nil in Hin.
Qed.

Lemma find_receiver_Some st receiver m c :
  find_receiver st receiver m = Some c →
  readyState st c = OPEN
  ∧ ∃ info, (c, info) ∈ m ∧ strict_eq (get info "id") receiver = true.
Proof.
  induction m as [|[c' info] m IH]; [done|]. simpl.
  destruct (strict_eq (get info "id") receiver && is_open st c') eqn:E.
  - intros [= <-]. apply andb_true_iff in E as [Hid Hopen]. split.
    + unfold is_open in Hopen. by apply bool_decide_eq_true in Hopen.
    + exists info. split; [apply list_elem_of_here|done].
  - intros H. destruct (IH H) as (Hopen & info' & Hin & Hid). split; [done|].
    exists info'. split; [by apply list_elem_of_further|done].
Qed.



Section WithEngine.

Variable StringToNumber : string → num.
Variable ObjectToNumber : value → num.
Variable ToString : value → string.

Abbreviation received := (Relay.received StringToNumber ObjectToNumber ToString).
Abbreviation switch := (Relay.switch StringToNumber ObjectToNumber ToString).

Lemma tame_ret {A} ws (a : A) : tame ws (ret a).
Proof. intros st. apply appends_refl. Qed.

Lemma tame_lift {A} ws (o : option A) : tame ws (lift o).
Proof. intros st. destruct o; apply appends_refl. Qed.

Lemma tame_bind {A B} ws (m : M A) (k : A → M B) :
  tame ws m → (∀ a, tame ws (k a)) → tame ws (@mbind M M_bind A B k m).
Proof.
  intros Hm Hk st. unfold mbind, M_bind, bind. specialize (Hm st).
  destruct (m st) as [st1 [a|]]; simpl in *; [|done].
  eapply appends_trans; [exact Hm|apply Hk].
Qed.

Lemma tame_exec ws f : (∀ st, appends ws st (f st)) → tame ws (exec f).
Proof. intros Hf st. apply Hf. Qed.

Ltac tame_step :=
  first [ apply tame_ret
        | apply tame_lift
        | apply tame_bind; [|intros ?]
        | apply tame_exec; intros ?;
          first [apply appends_send_self | apply appends_broadcast | apply appends_timer]
        | intros ?; cbn [exec fst];
          first [apply appends_send_self | apply appends_broadcast | apply appends_timer] ].

(** No case of the switch touches the sockets or the client entries; each
    sends to the sender or to open sockets only. *)
Lemma switch_tame now random ws data : tame ws (switch now random ws data).
Proof.
  unfold Relay.switch. cbv zeta.
  destruct (classify _); try (destruct (truthy _) eqn:Htruthy); try (repeat tame_step; fail).
  intros st. destruct (truthy (opt_prop (opt_prop data "message") "receiver")).
  - destruct (find_receiver _ _ _) as [client|] eqn:Hfind; cbn [fst].
    + apply appends_send_open. by apply find_receiver_Some in Hfind as [? _].
    + apply appends_refl.
  - cbn [fst]. apply appends_broadcast.
Qed.

Lemma received_Some now random ws data st :
  received now random ws (Some data) st
  = match (touch now ws data st).2, prop data "type" with
    | Some _, Some _ =>
        match switch now random ws data (touch now ws data st).1 with
        | (st2, Some _) => st2
        | (st2, None) => send ws invalid_message_format st2
        end
    | _, _ => send ws invalid_message_format (touch now ws data st).1
    end.
Proof.
  unfold Relay.received, try_block, mbind, M_bind, bind, lift, ret.
  destruct (touch now ws data st) as [st1 [[]|]]; simpl; [|done].
  by destruct (prop data "type").
Qed.

Lemma received_appends now random ws data st :
  appends ws (touch now ws data st).1 (received now random ws (Some data) st).
Proof.
  rewrite received_Some.
  destruct (touch now ws data st).2; [|apply appends_send_self].
  destruct (prop data "type"); [|apply appends_send_self].
  pose proof (switch_tame now random ws data (touch now ws data st).1) as Hsw.
  destruct (switch now random ws data (touch now ws data st).1) as [st2 [[]|]];
    simpl in Hsw; [done|].
  eapply appends_trans; [exact Hsw|apply appends_send_self].
Qed.

(** A message carrying an object passes the first statements of the [try]
    block and reaches the switch. *)
Lemma received_object now random ws o st :
  received now random ws (Some (VObj o)) st
  = match switch now random ws (VObj o) (touch now ws (VObj o) st).1 with
    | (st2, Some _) => st2
    | (st2, None) => send ws invalid_message_format st2
    end.
Proof. rewrite received_Some, touch_result by done. done. Qed.

Lemma client_field_touch now data ws st k fallback :
  k ≠ "lastActive" → k ≠ "location" →
  client_field
    (with_connectedClients (update_info (refreshed now data) ws (connectedClients st)) st)
    ws k fallback
  = client_field st ws k fallback.
Proof.
  intros H1 H2. unfold client_field. cbn [connectedClients with_connectedClients].
  rewrite info_of_update_info. destruct (info_of (connectedClients st) ws); [|done].
  cbn [fmap option_fmap option_map]. by rewrite refreshed_other.
Qed.

Lemma classify_unknown ty :
  (∀ s, ty = VStr s → s ∉ case_labels) → classify ty = unknown_type.
Proof.
  intros H. destruct ty as [| | | |s| | |]; try done.
  specialize (H s eq_refl). unfold classify.
  repeat match goal with
         | |- context [String.eqb s ?label] =>
             destruct (String.eqb_spec s label) as [->|_];
             [exfalso; apply H;
              solve [repeat first [apply list_elem_of_here | apply list_elem_of_further]]|]
         end.
  done.
Qed.

(** X16.  Whatever a client sends, the handler never adds, removes or closes
    a socket, never adds or removes an entry of [connectedClients] nor
    changes the entry of another client, never cancels a timer and never
    withdraws a message already sent; and every message it sends goes to the
    sender or to a socket that is open. *)
Theorem handler_only_appends (now : Z) (random : Q) (ws : socket) (parsed : option value)
    (st : Server) :
  let st' := received now random ws parsed st in
  wss_clients st' = wss_clients st
  ∧ readyState st' = readyState st
  ∧ map fst (connectedClients st') = map fst (connectedClients st)
  ∧ (∀ c, c ≠ ws → info_of (connectedClients st') c = info_of (connectedClients st) c)
  ∧ (∃ more, timers st' = timers st ++ more)
  ∧ ∃ new, sent st' = sent st ++ new
           ∧ ∀ c m, (c, m) ∈ new → c = ws ∨ readyState st c = OPEN.
Proof.
  cbv zeta. destruct parsed as [data|].
  - pose proof (received_appends now random ws data st) as Happ.
    rewrite touch_state in Happ.
    destruct Happ as (Hc & Hr & Hi & Ht & Hs). rewrite Hc, Hr, Hi.
    cbn [wss_clients readyState connectedClients timers sent with_connectedClients] in *.
    split; [done|]. split; [done|]. split; [apply map_fst_update_info|].
    split; [|by split].
    intros c Hne. by apply info_of_update_info_ne.
  - destruct (appends_send_self ws invalid_message_format st) as (Hc & Hr & Hi & Ht & Hs).
    change (received now random ws None st) with (send ws invalid_message_format st).
    rewrite Hi. by repeat split.
Qed.


(** X18.  An ['alert_config_update'] that carries no [config] (or a [null]
    one) is still broadcast: every open client is told the configuration was
    updated.  Reading [alertConfig.id] then throws, so the sender is not sent
    the confirmation but the ['Invalid message format'] error. *)
Theorem config_update_without_config (now : Z) (random : Q) (ws : socket) (o : obj)
    (st : Server) :
  get o "type" = VStr "alert_config_update" →
  get o "config" = VUndefined ∨ get o "config" = VNull →
  let st' := received now random ws (Some (VObj o)) st in
  let updated :=
    envelope "alert_config_updated"
      [ ("config", get o "config");
        ("updatedBy", client_field st ws "id" "unknown");
        ("timestamp", VDate now) ] in
  sent st' = sent st ++ map (λ c, (c, updated)) (open_clients st)
                     ++ [(ws, invalid_message_format)]
  ∧ timers st' = timers st.
Proof.
  intros Hty Hconfig. cbv zeta.
  rewrite received_object, touch_state. unfold Relay.switch. cbv zeta.
  change (opt_prop (VObj o) ?k) with (get o k). rewrite Hty.
  change (classify (VStr "alert_config_update")) with alert_config_update. cbv beta iota.
  assert (prop (get o "config") "id" = None) as -> by (by destruct Hconfig as [->| ->]).
  unfold mbind, M_bind, bind, exec, lift, throw. cbn beta iota. cbn [fst snd].
  rewrite client_field_touch by done.
  split; [|done]. cbn [sent send with_sent broadcast]. by rewrite <- app_assoc.
Qed.

(** X19.  A message that is JSON but no known request is answered to the
    sender alone.  When [data.type] is none of the case labels (a missing
    type and a type that is not a string included) the one message sent is
    ['Unknown message type'], to the sender; when the message is the JSON
    text [null], it is ['Invalid message format'].  No timer is set. *)
Theorem unrecognised_message_answers_sender_only (now : Z) (random : Q) (ws : socket)
    (st : Server) :
  (∀ data, data ≠ VNull → data ≠ VUndefined →
     (∀ s, opt_prop data "type" = VStr s → s ∉ case_labels) →
     let st' := received now random ws (Some data) st in
     sent st' = sent st ++ [(ws, unknown_message_type)] ∧ timers st' = timers st)
  ∧ (let st' := received now random ws (Some VNull) st in
     sent st' = sent st ++ [(ws, invalid_message_format)] ∧ timers st' = timers st).
Proof.
  split.
  - intros data Hnull Hundef Hlabel. cbv zeta.
    assert (prop data "location" ≠ None) as Hloc by (by destruct data).
    assert (∃ ty, prop data "type" = Some ty) as [ty Hty]
      by (destruct data; try done; by eexists).
    rewrite received_Some, touch_result, touch_state, Hty by done.
    unfold Relay.switch. cbv zeta. by rewrite classify_unknown.
  - cbv zeta. rewrite received_Some, touch_state. by destruct (touch now ws VNull st).2.
Qed.

(** X20.  Every message of a registered client that parses refreshes its
    entry, before anything can fail: [lastActive] becomes the time of the
    message, [location] becomes [data.location] when that is truthy and is
    kept otherwise, and no other property of the entry changes. *)
Theorem message_refreshes_last_active (now : Z) (random : Q) (ws : socket) (data : value)
    (info : obj) (st : Server) :
  info_of (connectedClients st) ws = Some info →
  let st' := received now random ws (Some data) st in
  ∃ info',
    info_of (connectedClients st') ws = Some info'
    ∧ get info' "lastActive" = VDate now
    ∧ get info' "location"
      = (if truthy (opt_prop data "location") then opt_prop data "location"
         else get info "location")
    ∧ ∀ k, k ≠ "lastActive" → k ≠ "location" → get info' k = get info k.
Proof.
  intros Hinfo. cbv zeta. exists (refreshed now data info).
  destruct (received_appends now random ws data st) as (_ & _ & -> & _).
  rewrite touch_state. cbn [connectedClients with_connectedClients].
  rewrite info_of_update_info, Hinfo. split; [done|].
  split; [apply refreshed_lastActive|]. split; [|intros k; apply refreshed_other].
  unfold refreshed. destruct (truthy (opt_prop data "location")).
  - unfold get. by rewrite own_set_prop_eq.
  - by rewrite get_set_prop_ne.
Qed.

End WithEngine.


(** Socket 0 updates the alert configuration without sending one. *)
Lemma config_update_without_config_witness :
  get Traffic.bare_config_update "config" = VUndefined
  ∧ ∃ updated,
      sent (Relay.received Samples.no_number_of_string Samples.no_number_of_object
              Samples.question_mark 7 0 0%nat
              (Some (VObj Traffic.bare_config_update)) Samples.three_clients)
      = [(0%nat, updated); (1%nat, updated); (0%nat, invalid_message_format)].
Proof.
  split; [reflexivity|]. eexists.
  exact (proj1 (config_update_without_config Samples.no_number_of_string
                  Samples.no_number_of_object Samples.question_mark 7 0 0%nat
                  Traffic.bare_config_update Samples.three_clients
                  eq_refl (or_introl eq_refl))).
Defined.

(** Socket 0 reports its position. *)
Lemma message_refreshes_last_active_witness :
  info_of (connectedClients Samples.three_clients) 0%nat = Some (Samples.client_info "client_a")
  ∧ ∃ info',
      info_of (connectedClients
                 (Relay.received Samples.no_number_of_string Samples.no_number_of_object
                    Samples.question_mark 7 0 0%nat
                    (Some (VObj Traffic.located_status)) Samples.three_clients)) 0%nat
      = Some info'
      ∧ get info' "lastActive" = VDate 7
      ∧ get info' "location" = get Traffic.located_status "location".
Proof.
  split; [reflexivity|].
  destruct (message_refreshes_last_active Samples.no_number_of_string
              Samples.no_number_of_object Samples.question_mark 7 0 0%nat
              (VObj Traffic.located_status) (Samples.client_info "client_a")
              Samples.three_clients eq_refl) as (info' & Hinfo & Hlast & Hloc & _).
  exists info'. split; [exact Hinfo|]. split; [exact Hlast|exact Hloc].
Defined.

End DeliveryFacts.

(** ** The mesh controller *)

Module MeshRelayFacts.
Import JS Storage Mesh JSFacts StorageFacts.
Import QueriesFacts (get_set_prop_ne).
Local Open Scope string_scope.
Local Open Scope list_scope.



Lemma device_socket_elem_of m deviceId ws :
  device_socket m deviceId = Some ws → (deviceId, ws) ∈ m.
Proof.
  induction m as [|[k old] m IH]; [done|]. simpl.
  destruct (String.eqb_spec k deviceId) as [->|].
  - intros [= ->]. apply list_elem_of_here.
  - intros H. apply list_elem_of_further. by apply IH.
Qed.



(** X23.  ['TRIANGULATION_DATA'] writes [data.coordinates] into the mesh
    device whose id is [parseInt(deviceId)], whoever owns that row: its
    [coordinates] become the value sent and its [updatedAt] the time of the
    message, every other property and every other row is kept, and nothing
    is sent back.  When the store has no such row, nothing changes. *)
Theorem triangulation_updates_coordinates (now : Z) (deviceId : string) (data : value)
    (mc : MeshController) (id : Z) :
  prop data "type" = Some (VStr "TRIANGULATION_DATA") →
  parseInt deviceId = Some id →
  let mc' := on_message now deviceId (Some data) mc in
  devices mc' = devices mc
  ∧ wire mc' = wire mc
  ∧ (∀ e k, (e, k) ≠ (MeshDevices, id) →
            rows (tbl e (store mc')) !! k = rows (tbl e (store mc)) !! k)
  ∧ match getMeshDevice (store mc) id with
    | Some row =>
        ∃ row', getMeshDevice (store mc') id = Some row'
                ∧ get row' "coordinates" = opt_prop data "coordinates"
                ∧ get row' "updatedAt" = VDate now
                ∧ ∀ k, k ≠ "coordinates" → k ≠ "updatedAt" → get row' k = get row k
    | None => store mc' = store mc
    end.
Proof.
  intros Hty Hid. cbv zeta. unfold on_message. rewrite Hty.
  change (String.eqb "TRIANGULATION_DATA" "THREAT_DETECTED") with false.
  change (String.eqb "TRIANGULATION_DATA" "SYNC_REQUEST") with false.
  change (String.eqb "TRIANGULATION_DATA" "TRIANGULATION_DATA") with true. cbv iota.
  unfold processTriangulationData. rewrite Hid. cbn [devices wire store].
  split; [done|]. split; [done|].
  unfold updateMeshDevice, getMeshDevice, get_row, update_row.
  destruct (rows (tbl MeshDevices (store mc)) !! id) as [row|] eqn:Hrow; cbn [fst].
  - split.
    + intros e k Hne. destruct (decide (e = MeshDevices)) as [->|He].
      * rewrite tbl_set_tbl. cbn [rows]. rewrite lookup_insert_ne; [done|congruence].
      * by rewrite tbl_set_tbl_ne.
    + eexists. rewrite tbl_set_tbl. cbn [rows]. rewrite lookup_insert_eq.
      split; [done|]. unfold spread. cbn [fold_left fst snd].
      split; [|split].
      * rewrite get_set_prop_ne by done. unfold get. by rewrite own_set_prop_eq.
      * unfold get. by rewrite own_set_prop_eq.
      * intros k H1 H2. by rewrite !get_set_prop_ne.
  - done.
Qed.



(** Device 1 sends its position. *)
Lemma triangulation_updates_coordinates_witness :
  prop Fleet.triangulation "type" = Some (VStr "TRIANGULATION_DATA")
  ∧ parseInt "1" = Some 1
  ∧ wire (on_message 7 "1" (Some Fleet.triangulation) Fleet.three_devices)
    = Samples.three_clients.
Proof.
  split; [reflexivity|]. split; [reflexivity|].
  exact (proj1 (proj2
    (triangulation_updates_coordinates 7 "1" Fleet.triangulation Fleet.three_devices 1
       eq_refl eq_refl))).
Defined.

End MeshRelayFacts.

(** ** The register of deployments *)

Module DeploymentsFacts.
Import JS ADS Deployments ADSFacts.
Local Open Scope string_scope.
Local Open Scope list_scope.


Lemma map_set_keys {V} k (v : V) m :
  map fst (map_set k v m) = if map_get k m is Some _ then map fst m else map fst m ++ [k].
Proof.
  induction m as [|[k' v'] m IH]; [done|]. simpl.
  destruct (String.eqb k' k) eqn:E; simpl; [done|].
  rewrite IH. by destruct (map_get k m).
Qed.

Lemma map_get_None {V} k (m : list (string * V)) : map_get k m = None → k ∉ map fst m.
Proof.
  induction m as [|[k' v'] m IH]; simpl; [intros _; apply not_elem_of_nil|].
  destruct (String.eqb_spec k' k) as [->|Hne]; [done|].
  intros H. apply not_elem_of_cons. split; [congruence|by apply IH].
Qed.

Lemma map_set_NoDup {V} k (v : V) m : NoDup (map fst m) → NoDup (map fst (map_set k v m)).
Proof.
  intros Hnd. rewrite map_set_keys. destruct (map_get k m) eqn:E; [done|].
  apply NoDup_app. split; [done|]. split; [|apply NoDup_singleton].
  intros x Hx Hk. apply list_elem_of_singleton in Hk as ->.
  by apply map_get_None in E.
Qed.

Lemma map_set_length {V} k (v : V) m : (0 <? length (map_set k v m))%nat = true.
Proof. destruct m as [|[k' v'] m]; simpl; [done|]. by destruct (String.eqb k' k). Qed.


Lemma activate_consistent k v c : consistent c → consistent (activate k v c).
Proof.
  intros [_ Hnd]. split; simpl; [by rewrite map_set_length|by apply map_set_NoDup].
Qed.

Lemma fallbackDeployment_consistent random now threatType c :
  consistent c → consistent (fallbackDeployment random now threatType c).1.
Proof.
  intros Hc. unfold fallbackDeployment.
  destruct (baseFrequencies threatType); simpl; [|done|]; by apply activate_consistent.
Qed.

Section WithEngine.

Variable JSON_parse : string → option value.
Variable Math_log10 : float → float.

Lemma resolve_fallback_consistent random now threatType l :
  consistent (controller l) → consistent (controller (resolve_fallback random now threatType l)).
Proof.
  intros Hc. unfold resolve_fallback.
  pose proof (fallbackDeployment_consistent (random (handled l)) (now (handled l))
                threatType (controller l) Hc) as H.
  by destruct (fallbackDeployment _ _ _ _) as [c' [d|e]].
Qed.

Lemma deployment_step_consistent random now threatType l ev :
  consistent (controller l) →
  consistent (controller (deployment_step JSON_parse random now threatType l ev)).
Proof.
  intros Hc. unfold deployment_step. destruct (uncaught l); [done|].
  destruct ev as [[| |code|]|]; simpl; try done;
    try by apply resolve_fallback_consistent.
  case_bool_decide; [|by apply resolve_fallback_consistent].
  destruct (JSON_parse (stdout l)); [|by apply resolve_fallback_consistent].
  simpl. by apply activate_consistent.
Qed.

Lemma deployment_steps_consistent random now threatType evs l :
  consistent (controller l) →
  consistent (controller (fold_left (deployment_step JSON_parse random now threatType) evs l)).
Proof.
  revert l. induction evs as [|ev evs IH]; intros l Hc; [done|].
  simpl. apply IH. by apply deployment_step_consistent.
Qed.

Lemma deployCountermeasures_consistent random now availability deployment threatType c :
  consistent c →
  consistent (deployCountermeasures JSON_parse random now availability deployment
                threatType c).1.
Proof.
  intros Hc. unfold deployCountermeasures.
  destruct (checkJuliaAvailability availability) as [|[]|thrown].
  - done.
  - simpl. by apply deployment_steps_consistent.
  - pose proof (fallbackDeployment_consistent (random 0%nat) (now 0%nat) threatType c Hc) as H.
    destruct (fallbackDeployment (random 0%nat) (now 0%nat) threatType c) as [c' [d|err]];
      [done|].
    pose proof (fallbackDeployment_consistent (random 1%nat) (now 1%nat) threatType c' H)
      as H'.
    by destruct (fallbackDeployment (random 1%nat) (now 1%nat) threatType c') as [c'' [d'|e']].
  - pose proof (fallbackDeployment_consistent (random 0%nat) (now 0%nat) threatType c Hc) as H.
    by destruct (fallbackDeployment (random 0%nat) (now 0%nat) threatType c) as [c' [d|e]].
Qed.

Lemma deactivateCountermeasures_consistent threatType c :
  consistent c → consistent (deactivateCountermeasures threatType c).1.
Proof.
  intros [_ Hnd]. split; [done|]. simpl.
  destruct threatType as [t|]; [|apply NoDup_nil_2].
  destruct (String.eqb t ""); [apply NoDup_nil_2|].
  unfold map_delete. clear -Hnd. induction (activeDeployments c) as [|[k v] m IH]; [done|].
  simpl in Hnd. apply NoDup_cons in Hnd as [Hk Hnd].
  destruct (decide (k = t)) as [->|Hne].
  - rewrite filter_cons_False by (simpl; intros H; by apply H). by apply IH.
  - rewrite filter_cons_True by done. simpl. apply NoDup_cons. split; [|by apply IH].
    intros Hin. apply Hk. apply list_elem_of_fmap in Hin as (kv & -> & Hin).
    apply list_elem_of_filter in Hin as [_ Hin]. apply list_elem_of_fmap. by exists kv.
Qed.

Lemma perform_consistent c k : consistent c → consistent (perform JSON_parse c k).
Proof.
  intros Hc. destruct k; simpl.
  - by apply deployCountermeasures_consistent.
  - by apply deactivateCountermeasures_consistent.
  - split; [done|apply NoDup_nil_2].
Qed.

(** X24.  The status never disagrees with the register.  After any sequence
    of deployments, deactivations and emergency stops on a fresh controller,
    each run to its end, [getSystemStatus().active] is true exactly when at
    least one deployment is recorded, [active_deployments] is the number of
    threat types listed and of deployments returned by
    [getActiveDeployments()], and no threat type is listed twice. *)
Theorem status_matches_register (calls : list call) :
  let c := fold_left (perform JSON_parse) calls idle in
  let status := getSystemStatus c in
  (active status = true ↔ (0 < active_deployments status)%nat)
  ∧ active_deployments status = length (threat_types status)
  ∧ active_deployments status = length (getActiveDeployments c)
  ∧ NoDup (threat_types status).
Proof.
  cbv zeta.
  assert (consistent (fold_left (perform JSON_parse) calls idle)) as [Hflag Hnd].
  { assert (consistent idle) as Hidle by (split; [done|apply NoDup_nil_2]).
    revert Hidle. generalize idle. induction calls as [|k calls IH]; intros c Hc; [done|].
    simpl. apply IH. by apply perform_consistent. }
  unfold getSystemStatus, getActiveDeployments. simpl.
  split; [|by rewrite !length_map].
  rewrite Hflag. apply Nat.ltb_lt.
Qed.




(** X27.  [checkJuliaAvailability] always resolves, and it resolves to true
    exactly when the first thing [julia --version] does, apart from writing
    to its pipes, is to exit with code 0 before the timer of five seconds
    fires.  A spawn error, another exit code, a kill by signal and the timer
    all give false. *)
Theorem julia_is_available_iff_first_exit_is_clean (r : spawn_run) :
  ∃ b, checkJuliaAvailability r = Resolved b
       ∧ (b = true ↔ ∃ es rest, before_timer r = es ++ close (Some 0) :: rest
                                ∧ Forall is_data es).
Proof.
  unfold checkJuliaAvailability, events. rewrite fold_left_app.
  induction (before_timer r) as [|e l IH].
  - exists false. split; [apply availability_settled|]. split; [done|].
    by intros ([|? ?] & rest & ? & _).
  - destruct e as [chunk|chunk|code|].
    + destruct IH as (b & Hb & Hiff). exists b. split; [exact Hb|].
      rewrite Hiff. split.
      * intros (es & rest & -> & Hes). exists (stdout_data chunk :: es), rest.
        split; [done|]. by apply Forall_cons.
      * intros ([|e es] & rest & Heq & Hes); [done|]. injection Heq as <- ->.
        apply Forall_cons in Hes as [_ Hes]. by exists es, rest.
    + destruct IH as (b & Hb & Hiff). exists b. split; [exact Hb|].
      rewrite Hiff. split.
      * intros (es & rest & -> & Hes). exists (stderr_data chunk :: es), rest.
        split; [done|]. by apply Forall_cons.
      * intros ([|e es] & rest & Heq & Hes); [done|]. injection Heq as <- ->.
        apply Forall_cons in Hes as [_ Hes]. by exists es, rest.
    + exists (bool_decide (code = Some 0%Z)). simpl.
      split; [rewrite availability_settled; apply availability_settled|]. split.
      * intros Hcode. apply bool_decide_eq_true in Hcode as ->. by exists [], l.
      * intros ([|e es] & rest & Heq & Hes).
        -- injection Heq as -> _. by apply bool_decide_eq_true.
        -- injection Heq as <- _. by apply Forall_cons in Hes as [? _].
    + exists false. simpl.
      split; [rewrite availability_settled; apply availability_settled|]. split; [done|].
      intros ([|e es] & rest & Heq & Hes); [done|].
      injection Heq as <- _. by apply Forall_cons in Hes as [? _].
Qed.

(** X28.  The fallback analysis is all or nothing.  It reports either no
    threat (status ['NO_THREATS']) or four at once, one for each of 35, 60,
    77 and 95 GHz in this order, typed ['Millimeter_Wave'],
    ['Millimeter_Wave'], ['W_Band'] and ['95GHz_ADS'], all with the same
    power (status ['READY']); [countermeasures_ready] always equals
    [threats_detected].  Which of the two depends on the ratio of the
    largest to the mean magnitude alone, and an empty signal gives no
    threat. *)
Theorem fallbackAnalysis_all_or_nothing (random : nat → float) (signalData : SignalData) :
  let r := fallbackAnalysis Math_log10 random signalData in
  countermeasures_ready r = threats_detected r
  ∧ length (threat_signatures r) = threats_detected r
  ∧ analysis_error r = None
  ∧ (threats_detected r = 0%nat ∧ deployment_status r = "NO_THREATS"
     ∨ threats_detected r = 4%nat ∧ deployment_status r = "READY"
       ∧ map frequency_ghz (threat_signatures r) = adsFrequencies
       ∧ map type (threat_signatures r)
         = ["Millimeter_Wave"; "Millimeter_Wave"; "W_Band"; "95GHz_ADS"]
       ∧ ∀ s, s ∈ threat_signatures r →
              power_dbm s = (20 * Math_log10 (maxPower signalData) - 30)%float)
  ∧ (threats_detected r = 4%nat ↔
     PrimFloat.ltb 2 (maxPower signalData / avgPower signalData) = true)
  ∧ (signal_real signalData = [] → threats_detected r = 0%nat).
Proof.
  cbv zeta. unfold fallbackAnalysis. cbv zeta.
  split; [done|]. split; [done|]. split; [done|]. split; [|split].
  - destruct (PrimFloat.ltb 2 _); [right|left; done].
    split; [done|]. split; [done|]. split; [done|]. split; [done|].
    intros s Hs. cbn [threat_signatures adsFrequencies imap] in Hs.
    repeat (apply elem_of_cons in Hs as [->|Hs]; [done|]).
    by apply elem_of_nil in Hs.
  - by destruct (PrimFloat.ltb 2 _).
  - intros Hreal. unfold maxPower, avgPower, powers. rewrite Hreal. done.
Qed.

End WithEngine.



End DeploymentsFacts.

(** ** The window of a forensic report *)

Module ReportFacts.
Import JS Forensics ForensicsFacts.
Local Open Scope string_scope.

Section WithLibraries.

Variable toISOString : Z → string.
Variable sha256_hex : string → string.

Lemma Date_toISOString_Some ms iso :
  Date_toISOString toISOString ms = Some iso ↔ in_range ms ∧ iso = toISOString ms.
Proof.
  unfold Date_toISOString. case_bool_decide; split.
  - by intros [= <-].
  - by intros [_ ->].
  - done.
  - by intros [? _].
Qed.

(** X29.  [analyzeRecording] returns a report exactly when the four dates it
    prints can be printed: the start of the recording, its end, and the two
    readings of the clock; otherwise [toISOString] throws, so a recording
    that starts within the range of dates and ends beyond it is refused.  In
    a report, the recording window starts at the recording's timestamp and
    ends [duration] seconds later, the report is stamped with the first
    reading of the clock and the custody entry with the second, and the
    duration is copied twice. *)
Theorem report_window_spans_the_duration (uuid : string) (now1 now2 : Z)
    (recording : ForensicRecording) :
  let start := timestamp recording in
  let finish := (timestamp recording + duration recording * 1000)%Z in
  (is_Some (analyzeRecording toISOString sha256_hex uuid now1 now2 recording)
   ↔ in_range start ∧ in_range finish ∧ in_range now1 ∧ in_range now2)
  ∧ ∀ report,
      analyzeRecording toISOString sha256_hex uuid now1 now2 recording = Some report →
      at_path report ["id"] = VStr uuid
      ∧ at_path report ["attackMetadata"; "recording"; "startTime"] = VStr (toISOString start)
      ∧ at_path report ["attackMetadata"; "recording"; "endTime"] = VStr (toISOString finish)
      ∧ at_path report ["timestamp"] = VStr (toISOString now1)
      ∧ (∃ entry, at_path report ["legalEvidence"; "chainOfCustody"] = VArr [entry]
                  ∧ opt_prop entry "timestamp" = VStr (toISOString now2))
      ∧ at_path report ["duration"] = VInt (duration recording)
      ∧ at_path report ["audioData"; "durationSeconds"] = VInt (duration recording).
Proof.
  cbv zeta. split.
  - split.
    + intros [report H]. unfold analyzeRecording, generateChecksum in H.
      apply bind_Some in H as (checksum & Hck & H).
      apply bind_Some in H as (reportTime & H1 & H).
      apply bind_Some in H as (startTime & Hs & H).
      apply bind_Some in H as (endTime & He & H).
      apply bind_Some in H as (custodyTime & H2 & H).
      apply Date_toISOString_Some in H1 as [? _], Hs as [? _], He as [? _], H2 as [? _].
      done.
    + intros (Hs & He & H1 & H2). unfold analyzeRecording, generateChecksum.
      rewrite !Date_toISOString_in_range by done. by eexists.
  - intros report H. unfold analyzeRecording, generateChecksum in H.
    apply bind_Some in H as (checksum & Hck & H).
    apply bind_Some in H as (reportTime & H1 & H).
    apply bind_Some in H as (startTime & Hs & H).
    apply bind_Some in H as (endTime & He & H).
    apply bind_Some in H as (custodyTime & H2 & H).
    apply Date_toISOString_Some in H1 as [_ ->], Hs as [_ ->], He as [_ ->], H2 as [_ ->].
    injection H as <-. repeat split; try done. by eexists.
Qed.

End WithLibraries.

End ReportFacts.
